(** * churn_project.modeling.enrich: load, enrich and save a churn dataset

    A shallow embedding of [src/churn_project/modeling/enrich.py]: the
    reader and writer strategies chosen by file extension, the pipeline
    object [EnriquecimentoDataset] that owns a pandas frame, and the
    enrichment steps of [EnriquecimentoDatasetTelco].

    The Python objects live in a store: a frame is reached through a
    reference, [self.df] holds such a reference, and the steps update the
    frame behind it in place.  The global numpy generator, the disk and
    the log are threaded through a state-and-exception monad. *)

From Stdlib Require Import Ascii String ZArith Floats.
From stdpp Require Import gmap strings list fin_maps.

Local Open Scope Z_scope.

(** ** Strings and paths *)

(** [os.path] is [posixpath] here: the script builds its paths with [/]. *)
Module Path.

Definition sep : ascii := "/"%char.
Definition extsep : ascii := "."%char.

(** [p.rfind(c)]: the highest index of [c] in [p], or [-1]. *)
Fixpoint rfind_from (c : ascii) (p : string) (i last : Z) : Z :=
  match p with
  | EmptyString => last
  | String a p' => rfind_from c p' (i + 1) (if Ascii.eqb a c then i else last)
  end.

Definition rfind (c : ascii) (p : string) : Z := rfind_from c p 0 (-1).

(** [p[:i]] and [p[i:]] for [0 <= i]. *)
Definition take (i : Z) (p : string) : string := substring 0 (Z.to_nat i) p.
Definition drop (i : Z) (p : string) : string :=
  substring (Z.to_nat i) (String.length p - Z.to_nat i) p.

(** The loop of [genericpath._splitext] that skips the leading dots of the
    file name: [true] as soon as a character before the last dot is not a
    dot.  [name] is [p[sepIndex+1:dotIndex]]. *)
Fixpoint has_stem (name : string) : bool :=
  match name with
  | EmptyString => false
  | String a name' => if Ascii.eqb a extsep then has_stem name' else true
  end.

(** [os.path.splitext(p)]. *)
Definition splitext (p : string) : string * string :=
  let sepIndex := rfind sep p in
  let dotIndex := rfind extsep p in
  if (sepIndex <? dotIndex)
     && has_stem (substring (Z.to_nat (sepIndex + 1))
                            (Z.to_nat (dotIndex - (sepIndex + 1))) p)
  then (take dotIndex p, drop dotIndex p)
  else (p, EmptyString).

(** [head.rstrip('/')]. *)
Fixpoint rstrip_sep (p : string) : string :=
  match p with
  | EmptyString => EmptyString
  | String a p' =>
      match rstrip_sep p' with
      | EmptyString => if Ascii.eqb a sep then EmptyString else String a EmptyString
      | r => String a r
      end
  end.

Fixpoint all_sep (p : string) : bool :=
  match p with
  | EmptyString => true
  | String a p' => Ascii.eqb a sep && all_sep p'
  end.

(** [os.path.dirname(p)]. *)
Definition dirname (p : string) : string :=
  let i := rfind sep p + 1 in
  let head := take i p in
  if negb (String.eqb head EmptyString) && negb (all_sep head)
  then rstrip_sep head
  else head.

(** [str.lower] on the ASCII range. *)
Definition lower_char (a : ascii) : ascii :=
  let n := nat_of_ascii a in
  if (Nat.leb 65 n && Nat.leb n 90)%bool then ascii_of_nat (n + 32) else a.

Fixpoint lower (p : string) : string :=
  match p with
  | EmptyString => EmptyString
  | String a p' => String (lower_char a) (lower p')
  end.

End Path.

(** ** Numbers: numpy's [int64] and [float64] *)

(** An [int64] cell is a [Z]; a [float64] cell is a binary64 [float], so the
    products, truncations and means below are the ones numpy computes. *)
Module Float64.

Local Open Scope float_scope.

(** int64 to float64, rounding to nearest. *)
Definition of_int (z : Z) : float :=
  if (z <? 0)%Z then - PrimFloat.of_uint63 (Uint63.of_Z (- z))
  else PrimFloat.of_uint63 (Uint63.of_Z z).

Definition of_nat (n : nat) : float := of_int (Z.of_nat n).

Definition int64_min : Z := (- 2 ^ 63)%Z.

(** [astype(int)]: the C conversion, which drops the fraction.  A NaN, an
    infinity or a value outside int64 gives the x86-64 result [int64_min]. *)
Definition to_int (f : float) : Z :=
  match Prim2SF f with
  | S754_zero _ => 0%Z
  | S754_finite s m e =>
      let a := if (0 <=? e)%Z then (Z.pos m * 2 ^ e)%Z
               else (Z.pos m / 2 ^ (- e))%Z in
      let z := if s then (- a)%Z else a in
      if ((int64_min <=? z) && (z <? 2 ^ 63))%Z then z else int64_min
  | _ => int64_min
  end.

(** [np.add.reduce] over fewer than eight float64 values: one running
    sum, left to right. *)
Definition sum (l : list float) : float := fold_left PrimFloat.add l 0.

(** [np.mean(x)] on a list of ints: the float64 sum over the count. *)
Definition mean (l : list Z) : float :=
  sum (map of_int l) / of_nat (length l).

(** [np.std(x)]: the population standard deviation (ddof = 0). *)
Definition std (l : list Z) : float :=
  let arrmean := mean l in
  let x := map (fun z => of_int z - arrmean) l in
  PrimFloat.sqrt (sum (map (fun d => d * d) x) / of_nat (length l)).

(** The Python literal [0.3]: the double nearest to 3/10. *)
Definition lit_0_3 : float := 0x1.3333333333333p-2.

Fixpoint set_last (stop : float) (y : list float) : list float :=
  match y with
  | [] => []
  | [_] => [stop]
  | a :: y' => a :: set_last stop y'
  end.

(** [np.linspace(start, stop, num)] for [num > 1] (endpoint included). *)
Definition linspace (start stop : float) (num : nat) : list float :=
  let div := of_nat (num - 1) in
  let delta := stop - start in
  let step := delta / div in
  let y := map (fun i =>
                  (if PrimFloat.eqb step 0 then of_nat i / div * delta
                   else of_nat i * step) + start) (seq 0 num) in
  set_last stop y.

Definition ones (num : nat) : list float := repeat 1 num.

(** [(base * trend).astype(int).tolist()]. *)
Definition mul_astype_int (base : list Z) (trend : list float) : list Z :=
  zip_with (fun b t => to_int (of_int b * t)) base trend.

End Float64.

(** ** Exceptions *)

(** Modelled from the spec: [churn_project.exception.CustomException] is not
    among the sources; it is the single uniform error kind that wraps an
    underlying exception and carries it as its cause. *)
Inductive exn : Type :=
  | KeyError (key : string)
  | TypeError (msg : string)
  | ValueError (msg : string)
  | OSError (msg : string)
  | SystemError (msg : string)
  | CustomException (cause : exn).

Inductive Result (A : Type) : Type :=
  | Ok (a : A)
  | Raise (e : exn).
Arguments Ok {A} a.
Arguments Raise {A} e.

(** ** Cells, series and frames *)

(** What a cell of a frame holds: a Python [str], [int], [float] (NaN is the
    missing value), [bool], or the list of ints of [usage_last_6m]. *)
Inductive value : Type :=
  | VStr (s : string)
  | VInt (z : Z)
  | VFloat (f : float)
  | VBool (b : bool)
  | VList (l : list Z).

Definition NaN : value := VFloat PrimFloat.nan.

(** [pd.isna] on a cell. *)
Definition is_missing (v : value) : bool :=
  match v with
  | VFloat f => PrimFloat.is_nan f
  | _ => false
  end.

(** [cell == 1] as Python compares: [1], [1.0] and [True] are equal to 1, a
    string, a NaN or a list is not. *)
Definition eq_one (v : value) : bool :=
  match v with
  | VInt z => z =? 1
  | VFloat f => PrimFloat.eqb f 1
  | VBool b => b
  | VStr _ | VList _ => false
  end.

(** A column is the list of its cells in row order. *)
Abbreviation Series := (list value).

(** A pandas frame: the length of its index, the column labels in order, and
    the column stored under each label (labels are distinct). *)
Record DataFrame : Type := mkFrame {
  nrows : nat;
  labels : list string;
  data : gmap string Series;
}.

(** Every column has one cell per row. *)
Definition rectangular (d : DataFrame) : Prop :=
  map_Forall (fun _ (col : Series) => length col = nrows d) (data d).

#[global] Instance rectangular_dec d : Decision (rectangular d).
Proof. unfold rectangular. apply _. Defined.

(** [df[label] = col] for a column with one cell per row: an existing column
    is replaced where it stands, a new one is added on the right. *)
Definition set_column (label : string) (col : Series) (d : DataFrame) : DataFrame :=
  {| nrows := nrows d;
     labels := if bool_decide (is_Some (data d !! label)) then labels d
               else labels d ++ [label];
     data := <[label := col]> (data d) |}.

(** [df[label]]. *)
Definition getitem (label : string) (d : DataFrame) : Result Series :=
  match data d !! label with
  | Some col => Ok col
  | None => Raise (KeyError label)
  end.

(** [df[label] = arr] for a numpy array: pandas checks its length against
    the index. *)
Definition setitem_array (label : string) (arr : Series) (d : DataFrame)
  : Result DataFrame :=
  if bool_decide (length arr = nrows d) then Ok (set_column label arr d)
  else Raise (ValueError "Length of values does not match length of index").

(** ** [Series.map] with a dict *)

(** Looking a cell up in the index built from the dict's keys: pandas hashes
    the cell first, and a list is unhashable; a number or a bool never equals
    a [str] key. *)
Definition get_indexer (mapper : gmap string Z) (v : value) : Result (option Z) :=
  match v with
  | VStr s => Ok (mapper !! s)
  | VList _ => Raise (TypeError "unhashable type: 'list'")
  | VInt _ | VFloat _ | VBool _ => Ok None
  end.

Fixpoint mapM_result {A B} (f : A -> Result B) (l : list A) : Result (list B) :=
  match l with
  | [] => Ok []
  | a :: l' =>
      match f a with
      | Raise e => Raise e
      | Ok b => match mapM_result f l' with
                | Raise e => Raise e
                | Ok bs => Ok (b :: bs)
                end
      end
  end.

(** Taking the dict's values at the positions found: the result stays int64
    when every cell was found, and is float64 with NaN at the cells that
    were not as soon as one is missing. *)
Definition take_nd (found : list (option Z)) : Series :=
  if forallb (fun o : option Z => bool_decide (is_Some o)) found
  then map (fun o => VInt (default 0 o)) found
  else map (fun o => VFloat (from_option Float64.of_int PrimFloat.nan o)) found.

Definition series_map (mapper : gmap string Z) (col : Series) : Result Series :=
  match mapM_result (get_indexer mapper) col with
  | Raise e => Raise e
  | Ok found => Ok (take_nd found)
  end.

(** [np.where(cond, x, y)] on arrays of one length. *)
Fixpoint np_where (cond : list bool) (x y : list Z) : list Z :=
  match cond, x, y with
  | c :: cond', a :: x', b :: y' => (if c then a else b) :: np_where cond' x' y'
  | _, _, _ => []
  end.

(** ** Strategies *)

(** The concrete [ILeitorStrategy] and [ISalvadorStrategy] classes. *)
Inductive Leitor : Type :=
  | LeitorCSVStrategy
  | LeitorXLSXStrategy
  | LeitorParquetStrategy.

Inductive Salvador : Type :=
  | SalvadorCSVStrategy
  | SalvadorParquetStrategy.

Definition _estrategia_leitura : gmap string Leitor :=
  {[ ".csv"%string := LeitorCSVStrategy;
     ".xlsx"%string := LeitorXLSXStrategy;
     ".parquet"%string := LeitorParquetStrategy ]}.

Definition _estrategias_salvamento : gmap string Salvador :=
  {[ ".csv"%string := SalvadorCSVStrategy;
     ".parquet"%string := SalvadorParquetStrategy ]}.

(** [d[k]] on a Python dict with string keys. *)
Definition dict_getitem {V} (d : gmap string V) (k : string) : Result V :=
  match d !! k with
  | Some v => Ok v
  | None => Raise (KeyError k)
  end.

(** ** The world outside the pipeline *)

(** The parts of numpy taken as given: the draws of the process-wide
    generator [np.random] (its state is [G]), with the shape and range
    numpy documents for them, and the least-squares slope
    [np.polyfit(range(6), x, 1)[0]]. *)
Class Numpy (G : Type) : Type := {
  poisson : Z -> nat -> G -> list Z * G;
  randint : Z -> Z -> nat -> G -> list Z * G;
  polyfit_slope : list Z -> float;
  poisson_length : forall lam size g, length (poisson lam size g).1 = size;
  randint_length : forall low high size g, length (randint low high size g).1 = size;
  randint_range : forall low high size g,
      low < high -> Forall (fun z => low <= z < high) (randint low high size g).1;
}.

(** The disk as pandas and [os] see it (its state is [FS]): reading a file
    with the reader of a strategy, writing a frame with the writer of a
    strategy, and [os.makedirs(dir, exist_ok=True)].  Each may raise. *)
Class Disk (FS : Type) : Type := {
  pd_read : Leitor -> string -> FS -> Result DataFrame;
  pd_write : Salvador -> DataFrame -> string -> FS -> Result () * FS;
  os_makedirs : string -> FS -> Result () * FS;
}.

(** What the program does to the outside, in order: log lines, lines
    printed, and each attempt to create a directory, read or write a file. *)
Inductive event : Type :=
  | Log (msg : string)
  | Print (msg : string)
  | Makedirs (dir : string)
  | ReadFile (leitor : Leitor) (path : string)
  | WriteFile (salvador : Salvador) (path : string) (d : DataFrame).

(** The events that touch the data files: a read, a write, a directory. *)
Definition is_file_io (e : event) : bool :=
  match e with
  | Log _ | Print _ => false
  | Makedirs _ | ReadFile _ _ | WriteFile _ _ _ => true
  end.

(** References to frames in the store. *)
Abbreviation loc := nat.

Record World (G FS : Type) : Type := mkWorld {
  heap : gmap loc DataFrame;
  gen : G;
  disk : FS;
  out : list event;
}.
Arguments mkWorld {G FS}.
Arguments heap {G FS}.
Arguments gen {G FS}.
Arguments disk {G FS}.
Arguments out {G FS}.

(** [EnriquecimentoDataset] and its subclass. *)
Inductive cls : Type :=
  | EnriquecimentoDataset
  | EnriquecimentoDatasetTelco.

(** A pipeline object: its class and the frame [self.df] refers to. *)
Record Pipeline : Type := mkPipeline {
  klass : cls;
  df : loc;
}.

(** An argument of the constructor: a frame, or anything else. *)
Inductive pyobj : Type :=
  | PFrame (r : loc)
  | PValue (v : value).

(** ** The monad of the methods: a world in, a value or an exception and a
    world out.  An exception keeps the world as it was when it was raised. *)

Definition M (G FS A : Type) : Type := World G FS -> Result A * World G FS.

Declare Scope py_scope.
Delimit Scope py_scope with py.

Section Monad.
Context {G FS : Type}.

Definition ret {A} (a : A) : M G FS A := fun w => (Ok a, w).

Definition raise {A} (e : exn) : M G FS A := fun w => (Raise e, w).

Definition bind {A B} (m : M G FS A) (k : A -> M G FS B) : M G FS B :=
  fun w => match m w with
           | (Ok a, w') => k a w'
           | (Raise e, w') => (Raise e, w')
           end.

(** [try: m  except Exception as e: handler e]. *)
Definition try_except {A} (m : M G FS A) (handler : exn -> M G FS A) : M G FS A :=
  fun w => match m w with
           | (Ok a, w') => (Ok a, w')
           | (Raise e, w') => handler e w'
           end.

(** The body shared by the methods:
    [try: m  except Exception as e: raise CustomException(e, sys)]. *)
Definition wrapped {A} (m : M G FS A) : M G FS A :=
  try_except m (fun e => raise (CustomException e)).

Definition lift {A} (r : Result A) : M G FS A := fun w => (r, w).

Definition emit (e : event) : M G FS () :=
  fun w => (Ok (), mkWorld (heap w) (gen w) (disk w) (out w ++ [e])).

Definition logging_info (msg : string) : M G FS () := emit (Log msg).
Definition print (msg : string) : M G FS () := emit (Print msg).

(** Reading the frame behind a reference.  A store holds every frame in
    use; the other branch is there for totality and is not reached. *)
Definition deref (r : loc) : M G FS DataFrame :=
  fun w => match heap w !! r with
           | Some d => (Ok d, w)
           | None => (Raise (SystemError "dangling reference"), w)
           end.

(** Updating in place the frame behind a reference. *)
Definition store (r : loc) (d : DataFrame) : M G FS () :=
  fun w => (Ok (), mkWorld (<[r := d]> (heap w)) (gen w) (disk w) (out w)).

(** A new frame object. *)
Definition alloc (d : DataFrame) : M G FS loc :=
  fun w => let r := fresh (dom (heap w)) in
           (Ok r, mkWorld (<[r := d]> (heap w)) (gen w) (disk w) (out w)).

End Monad.

Notation "x <- m ;; k" := (bind m (fun x => k))
  (at level 100, m at next level, right associativity) : py_scope.
Notation "m ;; k" := (bind m (fun _ => k))
  (at level 100, right associativity) : py_scope.

Local Open Scope py_scope.
Local Open Scope string_scope.

(** ** The pipeline *)

Section Pipeline.
Context {G FS : Type} `{!Numpy G} `{!Disk FS}.

Local Abbreviation M := (M G FS).

(** [np.random.poisson(lam, size)] and [np.random.randint(low, high, size)]
    on the global generator. *)
Definition np_random_poisson (lam : Z) (size : nat) : M (list Z) :=
  fun w => let '(xs, g) := poisson lam size (gen w) in
           (Ok xs, mkWorld (heap w) g (disk w) (out w)).

Definition np_random_randint (low high : Z) (size : nat) : M (list Z) :=
  fun w => let '(xs, g) := randint low high size (gen w) in
           (Ok xs, mkWorld (heap w) g (disk w) (out w)).

(** *** Reader and writer strategies *)

Definition ler_msg (leitor : Leitor) : string :=
  match leitor with
  | LeitorCSVStrategy => "Iniciando leitura do CSV"
  | LeitorXLSXStrategy => "Iniciando leitura do xlsx"
  | LeitorParquetStrategy => "Iniciando leitura do parquet"
  end.

(** [pd.read_csv], [pd.read_excel] or [pd.read_parquet]: the frame read
    is a new object. *)
Definition pd_read_file (leitor : Leitor) (caminho_arquivo : string) : M loc :=
  emit (ReadFile leitor caminho_arquivo) ;;
  d <- (fun w => (pd_read leitor caminho_arquivo (disk w), w)) ;;
  alloc d.

(** [ILeitorStrategy.ler] of each reader. *)
Definition ler (leitor : Leitor) (caminho_arquivo : string) : M loc :=
  wrapped (logging_info (ler_msg leitor) ;;
           pd_read_file leitor caminho_arquivo).

Definition salvar_msg (salvador : Salvador) (caminho_saida : string) : string :=
  match salvador with
  | SalvadorCSVStrategy =>
      "Utilizando a estratégia para salvar como CSV em '" ++ caminho_saida ++ "'..."
  | SalvadorParquetStrategy =>
      "Utilizando a estratégia para salvar como Parquet em '" ++ caminho_saida ++ "'..."
  end.

(** [df.to_csv(caminho_saida, index=False)] or [df.to_parquet(...)]. *)
Definition pd_write_file (salvador : Salvador) (r : loc) (caminho_saida : string) : M () :=
  d <- deref r ;;
  emit (WriteFile salvador caminho_saida d) ;;
  (fun w => let '(res, fs) := pd_write salvador d caminho_saida (disk w) in
            (res, mkWorld (heap w) (gen w) fs (out w))).

(** [ISalvadorStrategy.salvar] of each writer. *)
Definition salvador_salvar (salvador : Salvador) (r : loc) (caminho_saida : string) : M () :=
  wrapped (logging_info (salvar_msg salvador caminho_saida) ;;
           pd_write_file salvador r caminho_saida).

(** *** [EnriquecimentoDataset] *)

(** [__init__]: the frame given is copied, and [self.df] is the copy.  The
    subclass calls the parent's constructor and logs one more line. *)
Definition __init__ (c : cls) (dataframe : pyobj) : M Pipeline :=
  match dataframe with
  | PValue _ =>
      raise (CustomException (TypeError "A entrada deve ser um dataframe pandas"))
  | PFrame r =>
      d <- deref r ;;
      copy <- alloc d ;;
      logging_info "Objeto EnriquecimentoDataset criado com sucesso" ;;
      match c with
      | EnriquecimentoDataset => ret tt
      | EnriquecimentoDatasetTelco => logging_info "Instância de Telco Churn pronta"
      end ;;
      ret (mkPipeline c copy)
  end.

Definition from_file (c : cls) (caminho_arquivo : string) : M Pipeline :=
  logging_info ("Iniciando a criação do dataset a partir do arquivo " ++ caminho_arquivo) ;;
  let extensao := Path.lower (Path.splitext caminho_arquivo).2 in
  try_except
    (estrategia_classe <- lift (dict_getitem _estrategia_leitura extensao) ;;
     dataframe_carregado <- ler estrategia_classe caminho_arquivo ;;
     __init__ c (PFrame dataframe_carregado))
    (fun e =>
       match e with
       | KeyError _ =>
           print ("ERRO: Nenhuma estratégia de leitura encontrada para a extensão '"
                    ++ extensao ++ "'.") ;;
           raise (ValueError ("Formato de arquivo '" ++ extensao ++ "' não é suportado."))
       | _ => raise (CustomException e)
       end).

Definition get_df (self : Pipeline) : M loc := ret (df self).

(** [os.makedirs(diretorio_pai, exist_ok=True)]. *)
Definition makedirs (dir : string) : M () :=
  emit (Makedirs dir) ;;
  (fun w => let '(res, fs) := os_makedirs dir (disk w) in
            (res, mkWorld (heap w) (gen w) fs (out w))).

Definition salvar (self : Pipeline) (caminho_saida : string) : M () :=
  let diretorio_pai := Path.dirname caminho_saida in
  (if negb (String.eqb diretorio_pai EmptyString)
   then makedirs diretorio_pai ;;
        logging_info ("Diretório '" ++ diretorio_pai ++ "' verificado/criado.")
   else ret tt) ;;
  let extensao := (Path.splitext caminho_saida).2 in
  try_except
    (estrategia_classe <- lift (dict_getitem _estrategias_salvamento (Path.lower extensao)) ;;
     salvador_salvar estrategia_classe (df self) caminho_saida ;;
     logging_info ("SUCESSO: Dataset salvo com sucesso em '" ++ caminho_saida ++ "'."))
    (fun e =>
       match e with
       | KeyError _ =>
           print ("ERRO: Nenhuma estratégia de salvamento encontrada para a extensão '"
                    ++ extensao ++ "'.") ;;
           raise (ValueError ("Formato de arquivo para salvamento '" ++ extensao
                                ++ "' não é suportado."))
       | _ => raise (CustomException e)
       end).

End Pipeline.

(** ** [EnriquecimentoDatasetTelco] *)

Section Telco.
Context {G FS : Type} `{!Numpy G} `{!Disk FS}.

Local Abbreviation M := (M G FS).

(** [self.df[label]]. *)
Definition df_getitem (self : Pipeline) (label : string) : M Series :=
  d <- deref (df self) ;;
  lift (getitem label d).

(** [self.df[label] = col] for a series that carries the index of the frame:
    nothing to align. *)
Definition df_setitem (self : Pipeline) (label : string) (col : Series) : M () :=
  d <- deref (df self) ;;
  store (df self) (set_column label col d).

(** [self.df[label] = arr] for a numpy array. *)
Definition df_setitem_array (self : Pipeline) (label : string) (arr : Series) : M () :=
  d <- deref (df self) ;;
  d' <- lift (setitem_array label arr d) ;;
  store (df self) d'.

(** [len(self.df)]. *)
Definition df_len (self : Pipeline) : M nat :=
  d <- deref (df self) ;;
  ret (nrows d).

(** The dict [{'Yes': 1, 'No': 0}]. *)
Definition yes_no : gmap string Z := {[ "Yes" := 1; "No" := 0 ]}.

Definition preparar_coluna_churn (self : Pipeline) : M Pipeline :=
  wrapped
    (logging_info "Preparando a coluna 'Churn' (Yes/No -> 1/0)" ;;
     churn <- df_getitem self "Churn" ;;
     mapped <- lift (series_map yes_no churn) ;;
     df_setitem self "Churn" mapped ;;
     ret self).

(** [np.where(self.df['Churn'] == 1, x(len(self.df)), y(len(self.df)))]: the
    condition is evaluated first, then the two draws, left to right. *)
Definition where_churn (self : Pipeline) (x y : nat -> M (list Z)) : M Series :=
  churn <- df_getitem self "Churn" ;;
  let cond := map eq_one churn in
  n1 <- df_len self ;;
  xs <- x n1 ;;
  n2 <- df_len self ;;
  ys <- y n2 ;;
  ret (map VInt (np_where cond xs ys)).

Definition gerar_features_interacao (self : Pipeline) : M Pipeline :=
  wrapped
    (logging_info "Gerando features de interação" ;;
     logins <- where_churn self (np_random_poisson 2) (np_random_poisson 10) ;;
     df_setitem_array self "num_logins_last_30d" logins ;;
     logging_info "features num_logins_las_30d concluída com sucesso" ;;
     tickets <- where_churn self (np_random_poisson 3) (np_random_poisson 1) ;;
     df_setitem_array self "support_tickets_last_90d" tickets ;;
     logging_info "features support_tickets_last_90d concluída com sucesso" ;;
     days <- where_churn self (np_random_randint 15 60) (np_random_randint 1 15) ;;
     df_setitem_array self "last_interaction_days_ago" days ;;
     logging_info "features last_interaction_days_ago concluída com sucesso" ;;
     logging_info "features completas" ;;
     ret self).

Definition _generate_usage_series (churned : value) : M (list Z) :=
  base <- np_random_poisson 10 6 ;;
  let trend := if eq_one churned then Float64.linspace 1 Float64.lit_0_3 6
               else Float64.ones 6 in
  ret (Float64.mul_astype_int base trend).

(** [Series.apply(f)] for an [f] that draws from the generator: the cells
    are visited once each, in row order. *)
Fixpoint series_apply {A} (f : value -> M A) (col : Series) : M (list A) :=
  match col with
  | [] => ret []
  | v :: col' =>
      a <- f v ;;
      rest <- series_apply f col' ;;
      ret (a :: rest)
  end.

(** A cell of [usage_last_6m] as the list it holds.  The column was filled
    with lists by the line before; the other branch is not reached. *)
Definition as_list (x : value) : Result (list Z) :=
  match x with
  | VList l => Ok l
  | _ => Raise (TypeError "not a list")
  end.

(** [lambda x: np.polyfit(range(6), x, 1)[0]]: numpy refuses an [x] whose
    length is not that of [range(6)]. *)
Definition trend_of (x : value) : Result value :=
  match as_list x with
  | Raise e => Raise e
  | Ok l => if bool_decide (length l = 6%nat) then Ok (VFloat (polyfit_slope l))
            else Raise (TypeError "expected x and y to have same length")
  end.

(** [np.std]. *)
Definition std_of (x : value) : Result value :=
  match as_list x with
  | Raise e => Raise e
  | Ok l => Ok (VFloat (Float64.std l))
  end.

(** [x[-3:]]. *)
Definition last3 (l : list Z) : list Z := drop (length l - 3) l.

(** [lambda x: np.mean(x[-3:])]. *)
Definition avg3_of (x : value) : Result value :=
  match as_list x with
  | Raise e => Raise e
  | Ok l => Ok (VFloat (Float64.mean (last3 l)))
  end.

Definition gerar_features_uso_recente (self : Pipeline) : M Pipeline :=
  wrapped
    (logging_info "Gerando features de série de uso (últimos 6 meses)..." ;;
     churn <- df_getitem self "Churn" ;;
     usage <- series_apply _generate_usage_series churn ;;
     df_setitem self "usage_last_6m" (map VList usage) ;;
     usage1 <- df_getitem self "usage_last_6m" ;;
     trend <- lift (mapM_result trend_of usage1) ;;
     df_setitem self "trend_usage" trend ;;
     usage2 <- df_getitem self "usage_last_6m" ;;
     std <- lift (mapM_result std_of usage2) ;;
     df_setitem self "std_usage" std ;;
     usage3 <- df_getitem self "usage_last_6m" ;;
     avg <- lift (mapM_result avg3_of usage3) ;;
     df_setitem self "avg_usage_last_3m" avg ;;
     logging_info "features de série criadas" ;;
     ret self).

Definition aplicar_enriquecimento_padrao (self : Pipeline) : M Pipeline :=
  logging_info "Aplicando fluxo de enriquecimento padrão para Telco Churn..." ;;
  self1 <- preparar_coluna_churn self ;;
  self2 <- gerar_features_interacao self1 ;;
  _ <- gerar_features_uso_recente self2 ;;
  logging_info "Fluxo de enriquecimento concluído." ;;
  ret self.

End Telco.

(** ** Callers *)

(** The enrichment calls a caller can make on a pipeline object. *)
Inductive step : Type :=
  | PrepararColunaChurn
  | GerarFeaturesInteracao
  | GerarFeaturesUsoRecente
  | AplicarEnriquecimentoPadrao.

Section Callers.
Context {G FS : Type} `{!Numpy G} `{!Disk FS}.

Definition run_step (s : step) (self : Pipeline) : M G FS Pipeline :=
  match s with
  | PrepararColunaChurn => preparar_coluna_churn self
  | GerarFeaturesInteracao => gerar_features_interacao self
  | GerarFeaturesUsoRecente => gerar_features_uso_recente self
  | AplicarEnriquecimentoPadrao => aplicar_enriquecimento_padrao self
  end.

(** A caller making the calls one after the other on the same object, and
    going on after a call that raised. *)
Fixpoint run_steps (steps : list step) (self : Pipeline) : M G FS () :=
  match steps with
  | [] => ret tt
  | s :: rest =>
      try_except (run_step s self ;; ret tt) (fun _ => ret tt) ;;
      run_steps rest self
  end.

(** The three steps called one after the other on the same object, as a
    caller would write them. *)
Definition passos_em_sequencia (self : Pipeline) : M G FS () :=
  preparar_coluna_churn self ;;
  gerar_features_interacao self ;;
  gerar_features_uso_recente self ;;
  ret tt.

End Callers.

(** * The vocabulary of the statements *)

(** ** Cells of the [Churn] column *)

(** A cell that can be hashed: anything but a list. *)
Definition scalar (v : value) : bool :=
  match v with
  | VList _ => false
  | _ => true
  end.

(** The value of the dict [{'Yes': 1, 'No': 0}] at a cell, if the cell is
    one of its keys. *)
Definition yes_no_at (v : value) : option Z :=
  match v with
  | VStr s => yes_no !! s
  | _ => None
  end.

Definition is_yes_no (v : value) : Prop := v = VStr "Yes" \/ v = VStr "No".

(** ["Yes"] becomes 1 and ["No"] becomes 0. *)
Definition bit_of (v : value) : value :=
  match v with
  | VStr "Yes" => VInt 1
  | _ => VInt 0
  end.

Definition is_bit (v : value) : Prop := v = VInt 0 \/ v = VInt 1.

(** ** Frames *)

(** The frame of [n] rows with its [Churn] column. *)
Definition with_churn (n : nat) (churn : Series) (d : DataFrame) : Prop :=
  nrows d = n /\ data d !! "Churn" = Some churn.

(** What [gerar_features_interacao] leaves in [last_interaction_days_ago]
    next to a [Churn] column [churn]: a day count per row, drawn from
    [15, 60) where [Churn] is 1 and from [1, 15) where it is 0. *)
Definition days_by_churn (churn days : Series) : Prop :=
  length days = length churn /\
  forall i,
    (churn !! i = Some (VInt 1) -> exists z, days !! i = Some (VInt z) /\ 15 <= z < 60) /\
    (churn !! i = Some (VInt 0) -> exists z, days !! i = Some (VInt z) /\ 1 <= z < 15).

Definition six (l : list Z) : Prop := length l = 6%nat.

(** The frame of [n] rows once the series are stored. *)
Definition with_usage (n : nat) (usage : list (list Z)) (d : DataFrame) : Prop :=
  nrows d = n /\ data d !! "usage_last_6m" = Some (map VList usage).

(** A frame of [n] rows in which every column has [n] cells. *)
Definition shape (n : nat) (d : DataFrame) : Prop := nrows d = n /\ rectangular d.

(** ** Worlds and runs *)

Definition preparar_log : event := Log "Preparando a coluna 'Churn' (Yes/No -> 1/0)".

(** What [salvar] raises and prints on an extension without a writer. *)
Definition salvar_unsupported_msg (extensao : string) : exn :=
  ValueError ("Formato de arquivo para salvamento '" ++ extensao ++ "' não é suportado.").

Definition salvar_unsupported_print (extensao : string) : event :=
  Print ("ERRO: Nenhuma estratégia de salvamento encontrada para a extensão '"
           ++ extensao ++ "'.").

Section Assertions.
Context {G FS : Type}.

Local Abbreviation World := (World G FS).
Local Abbreviation M := (M G FS).

(** From a world where [P] holds, [m] ends in a world where [Q] holds of
    the value returned, or [E] of the exception raised. *)
Definition triple {A} (P : World -> Prop) (m : M A)
    (Q : A -> World -> Prop) (E : exn -> World -> Prop) : Prop :=
  forall w, P w ->
    match m w with
    | (Ok a, w') => Q a w'
    | (Raise e, w') => E e w'
    end.

(** An assertion on the store only, whatever was drawn or logged. *)
Definition on_heap (H : gmap loc DataFrame -> Prop) : World -> Prop :=
  fun w => H (heap w).

(** The frame behind [r] is there and satisfies [F]. *)
Definition frame_at (r : loc) (F : DataFrame -> Prop) : gmap loc DataFrame -> Prop :=
  fun h => exists d, h !! r = Some d /\ F d.

Definition no_exn : exn -> World -> Prop := fun _ _ => False.

(** Two worlds that differ by their traces only. *)
Definition same_state (w1 w2 : World) : Prop :=
  heap w1 = heap w2 /\ gen w1 = gen w2 /\ disk w1 = disk w2.

(** A method that does not read the trace. *)
Definition log_blind {A} (m : M A) : Prop :=
  forall w1 w2, same_state w1 w2 ->
    (m w1).1 = (m w2).1 /\ same_state (m w1).2 (m w2).2.

(** From [w] to [w'] no file was read or written and no directory was
    created: the disk is the same, and what was added to the trace is log
    lines and printed lines only. *)
Definition quiet (w w' : World) : Prop :=
  disk w' = disk w /\
  exists evs, out w' = (out w ++ evs)%list /\
              forallb (fun ev => negb (is_file_io ev)) evs = true.

(** From [w] to [w'] no file was read or written (a directory may have
    been created). *)
Definition no_file_touched (w w' : World) : Prop :=
  exists evs, out w' = (out w ++ evs)%list /\
    forallb (fun ev => match ev with
                       | ReadFile _ _ | WriteFile _ _ _ => false
                       | _ => true
                       end) evs = true.

End Assertions.

(** ** A small world to run the pipeline in

    A generator that counts, and a disk held in memory.  They stand in for
    numpy's generator and for the real disk in the worked examples. *)

Module Lab.

(** The generator's state is a counter; the i-th value drawn after [g]
    depends on [g + i] only. *)
Definition counter_poisson (lam : Z) (size : nat) (g : nat) : list Z * nat :=
  (map (fun i => lam + Z.of_nat ((g + i) mod 7)) (seq 0 size), (g + size)%nat).

Definition counter_randint (low high : Z) (size : nat) (g : nat) : list Z * nat :=
  (map (fun i => low + Z.of_nat (g + i) mod (high - low)) (seq 0 size), (g + size)%nat).

(** The slope of the least-squares line through (0, x0) ... (5, x5), from
    the closed formula. *)
Definition closed_slope (x : list Z) : float :=
  (Float64.sum (zip_with (fun i xi => (Float64.of_nat i - 2.5) * Float64.of_int xi)
                         (seq 0 6) x) / 17.5)%float.

#[global] Instance counter_numpy : Numpy nat.
Proof.
  refine {| poisson := counter_poisson;
            randint := counter_randint;
            polyfit_slope := closed_slope |}.
  - intros lam size g. cbn. by rewrite length_map, length_seq.
  - intros low high size g. cbn. by rewrite length_map, length_seq.
  - intros low high size g Hlt. cbn. apply Forall_map, Forall_forall.
    intros i _. cbn.
    pose proof (Z.mod_pos_bound (Z.of_nat (g + i)) (high - low)). lia.
Defined.

(** A disk in memory: the frame held by each file, and the directories. *)
Record memdisk : Type := mkDisk {
  files : gmap string DataFrame;
  dirs : gset string;
}.

#[global] Instance mem_disk : Disk memdisk := {|
  pd_read _ path fs :=
    match files fs !! path with
    | Some d => Ok d
    | None => Raise (OSError "No such file or directory")
    end;
  pd_write _ d path fs := (Ok (), mkDisk (<[path := d]> (files fs)) (dirs fs));
  os_makedirs dir fs := (Ok (), mkDisk (files fs) ({[dir]} ∪ dirs fs));
|}.

(** Five customers. *)
Definition churn : Series := [VStr "No"; VStr "Yes"; VStr "No"; VStr "Yes"; VStr "No"].

Definition telco : DataFrame :=
  {| nrows := 5;
     labels := ["customerID"; "Churn"];
     data := {[ "customerID" := [VStr "a"; VStr "b"; VStr "c"; VStr "d"; VStr "e"];
                "Churn" := churn ]} |}.

(** The caller holds [telco] at reference 0; nothing was drawn, nothing on
    disk, nothing logged. *)
Definition w0 : World nat memdisk :=
  mkWorld {[ 0%nat := telco ]} 0%nat (mkDisk ∅ ∅) [].

(** The pipeline built from the caller's frame: [self.df] is reference 1. *)
Definition self1 : Pipeline := mkPipeline EnriquecimentoDatasetTelco 1.

Definition w1 : World nat memdisk :=
  mkWorld {[ 0%nat := telco; 1%nat := telco ]} 0%nat (mkDisk ∅ ∅) [].

(** The same customers once the label is numeric. *)
Definition bits : Series := [VInt 0; VInt 1; VInt 0; VInt 1; VInt 0].

Definition telco_bits : DataFrame :=
  {| nrows := 5;
     labels := ["customerID"; "Churn"];
     data := {[ "customerID" := [VStr "a"; VStr "b"; VStr "c"; VStr "d"; VStr "e"];
                "Churn" := bits ]} |}.

Definition w_bits : World nat memdisk :=
  mkWorld {[ 1%nat := telco_bits ]} 0%nat (mkDisk ∅ ∅) [].

(** A spreadsheet with the five customers is on disk. *)
Definition w_sheet : World nat memdisk :=
  mkWorld {[ 1%nat := telco ]} 0%nat
          (mkDisk {[ "data/raw/telco.XLSX"%string := telco ]} ∅) [].

(** A [Churn] column that is partly numeric already, with a misspelt cell. *)
Definition mixed_churn : Series := [VStr "No"; VInt 1; VStr "yes"; VFloat 0; VBool true].

Definition mixed_frame : DataFrame :=
  {| nrows := 5; labels := ["Churn"]; data := {[ "Churn" := mixed_churn ]} |}.

Definition mixed_world : World nat memdisk :=
  mkWorld {[ 1%nat := mixed_frame ]} 0%nat (mkDisk ∅ ∅) [].

(** A frame whose [Churn] cells are lists, which no reader of a label
    column produces. *)
Definition nested_frame : DataFrame :=
  {| nrows := 1; labels := ["Churn"]; data := {[ "Churn" := [VList [1; 0]] ]} |}.

Definition nested_world : World nat memdisk :=
  mkWorld {[ 1%nat := nested_frame ]} 0%nat (mkDisk ∅ ∅) [].

End Lab.

(** * churn_project.modeling.dataloader: the project root and the download

    [src/churn_project/modeling/dataloader.py]: [diretorio_raiz], which
    [enrich.py] imports to build its paths, and [DownloadDataset], which
    fetches the Kaggle dataset and moves its CSV files under [data/raw]. *)

Module Dataloader.

(** ** [pathlib] *)

(** A [pathlib.PurePosixPath] as pathlib holds it once parsed: whether it
    is anchored at [/], and its parts below the anchor. *)
Record PurePath : Type := mkPath {
  anchored : bool;
  parts : list string;
}.

(** [path / name] for a relative [name] of one part. *)
Definition truediv (path : PurePath) (name : string) : PurePath :=
  mkPath (anchored path) (parts path ++ [name]).

(** [path.parents]: the parent, its parent, and so on up to the anchor
    ([/] or [.]). *)
Definition parents (path : PurePath) : list PurePath :=
  map (fun k => mkPath (anchored path) (take k (parts path)))
      (rev (seq 0 (length (parts path)))).

Fixpoint join_parts (l : list string) : string :=
  match l with
  | [] => EmptyString
  | [a] => a
  | a :: l' => a ++ "/" ++ join_parts l'
  end.

(** [str(path)]. *)
Definition str (path : PurePath) : string :=
  if anchored path then "/" ++ join_parts (parts path)
  else match parts path with
       | [] => "."
       | l => join_parts l
       end.

(** What an attribute of a path evaluates to: the value of a property, or
    the bound method when the attribute is a method that is not called. *)
Inductive attribute : Type :=
  | Value (b : bool)
  | BoundMethod (receiver : PurePath) (name : string).

(** [bool(x)], as [if x:] takes it: a method object defines neither
    [__bool__] nor [__len__], and is true. *)
Definition truth (x : attribute) : bool :=
  match x with
  | Value b => b
  | BoundMethod _ _ => true
  end.

(** [path.exists], without a call. *)
Definition exists_attr (path : PurePath) : attribute := BoundMethod path "exists".

(** ** [posixpath.join] and [str.endswith] *)

Fixpoint startswith (prefix s : string) : bool :=
  match prefix, s with
  | EmptyString, _ => true
  | String a prefix', String b s' => Ascii.eqb a b && startswith prefix' s'
  | String _ _, EmptyString => false
  end.

(** [s.endswith(suffix)]: the last [len(suffix)] characters of [s] are
    [suffix], compared as they are (upper and lower case differ). *)
Definition endswith (s suffix : string) : bool :=
  (String.length suffix <=? String.length s)%nat
  && String.eqb (substring (String.length s - String.length suffix)
                           (String.length suffix) s) suffix.

(** [os.path.join(a, b)] on two [str]. *)
Definition join (a b : string) : string :=
  if startswith "/" b then b
  else if String.eqb a EmptyString || endswith a "/" then a ++ b
  else a ++ "/" ++ b.

(** [os.path.join(a, b)] where [a] may be [None]: [os.fspath(None)]
    raises. *)
Definition os_path_join (a : option string) (b : string) : Result string :=
  match a with
  | None => Raise (TypeError "expected str, bytes or os.PathLike object, not NoneType")
  | Some a => Ok (join a b)
  end.

(** ** The outside *)

(** The calls that reach the network and the file tree (the state of both
    is [FS]): [kagglehub.dataset_download(name)], [os.listdir(path)], where
    [None] stands for the current directory, and [shutil.move(src, dst)].
    Each may raise. *)
Class Shell (FS : Type) : Type := {
  kagglehub_dataset_download : string -> FS -> Result string * FS;
  os_listdir : option string -> FS -> Result (list string);
  shutil_move : string -> string -> FS -> Result () * FS;
}.

(** ** [diretorio_raiz] *)

Section Root.
Context {G FS : Type}.

(** The [for] loop: the first candidate for which the condition is true is
    returned; a loop that ends falls off the function, which returns
    [None]. *)
Fixpoint first_parent (candidates : list PurePath) : option PurePath :=
  match candidates with
  | [] => None
  | parent :: rest =>
      if truth (exists_attr (truediv parent "pyproject.toml")) then Some parent
      else first_parent rest
  end.

Definition diretorio_raiz (start_path : PurePath) : M G FS (option PurePath) :=
  wrapped
    (logging_info "Iniciando a busca pelo diretório raiz" ;;
     ret (first_parent (start_path :: parents start_path))).

End Root.

(** ** [DownloadDataset] *)

(** The attributes of a [DownloadDataset] object. *)
Record DownloadDataset : Type := mkDownload {
  dataset_name : string;
  raw_data_dir : string;
  dataset_path : option string;
  arquivos_movidos : list string;
}.

(** [DownloadDataset(dataset_name, raw_data_dir)]. *)
Definition __init__ (dataset_name raw_data_dir : string) : DownloadDataset :=
  mkDownload dataset_name raw_data_dir None [].

(** What a method runs in: the object it was called on, the outside, and
    the lines logged. *)
Record Env (FS : Type) : Type := mkEnv {
  self : DownloadDataset;
  tree : FS;
  logged : list string;
}.
Arguments mkEnv {FS}.
Arguments self {FS}.
Arguments tree {FS}.
Arguments logged {FS}.

(** A method: an environment in, a value or an exception and an
    environment out.  What was done before an exception stays done. *)
Definition Run (FS A : Type) : Type := Env FS -> Result A * Env FS.

Section Methods.
Context {FS : Type} `{!Disk FS} `{!Shell FS}.

Definition unit_ {A} (a : A) : Run FS A := fun env => (Ok a, env).

Definition and_then {A B} (m : Run FS A) (k : A -> Run FS B) : Run FS B :=
  fun env => match m env with
             | (Ok a, env') => k a env'
             | (Raise e, env') => (Raise e, env')
             end.

(** [try: m  except Exception as e: raise CustomException(e, sys)]. *)
Definition guarded {A} (m : Run FS A) : Run FS A :=
  fun env => match m env with
             | (Ok a, env') => (Ok a, env')
             | (Raise e, env') => (Raise (CustomException e), env')
             end.

Definition info (msg : string) : Run FS () :=
  fun env => (Ok (), mkEnv (self env) (tree env) (logged env ++ [msg])).

Definition get_self : Run FS DownloadDataset := fun env => (Ok (self env), env).

Definition of_result {A} (r : Result A) : Run FS A := fun env => (r, env).

(** A call that changes the outside. *)
Definition outside {A} (f : FS -> Result A * FS) : Run FS A :=
  fun env => let r := f (tree env) in (r.1, mkEnv (self env) r.2 (logged env)).

(** [self.dataset_path = path]. *)
Definition set_dataset_path (path : string) : Run FS () :=
  fun env => (Ok (), mkEnv (mkDownload (dataset_name (self env)) (raw_data_dir (self env))
                                       (Some path) (arquivos_movidos (self env)))
                           (tree env) (logged env)).

(** [self.arquivos_movidos.append(dst)]. *)
Definition append_movido (dst : string) : Run FS () :=
  fun env => (Ok (), mkEnv (mkDownload (dataset_name (self env)) (raw_data_dir (self env))
                                       (dataset_path (self env))
                                       (arquivos_movidos (self env) ++ [dst]))
                           (tree env) (logged env)).

(** [for x in l: body(x)]. *)
Fixpoint for_each {A} (l : list A) (body : A -> Run FS ()) : Run FS () :=
  match l with
  | [] => unit_ tt
  | x :: l' => and_then (body x) (fun _ => for_each l' body)
  end.

Definition download_dataset : Run FS () :=
  guarded
    (and_then (info "Iniciando download dataset") (fun _ =>
     and_then get_self (fun s =>
     and_then (outside (kagglehub_dataset_download (dataset_name s))) (fun path =>
     and_then (set_dataset_path path) (fun _ =>
     info ("Download concluído com sucesso em " ++ path)))))).

(** The body of the loop of [mover_para_raw]. *)
Definition mover_arquivo (file : string) : Run FS () :=
  if endswith file ".csv" then
    and_then get_self (fun s =>
    and_then (of_result (os_path_join (dataset_path s) file)) (fun src =>
    and_then (of_result (os_path_join (Some (raw_data_dir s)) file)) (fun dst =>
    and_then (outside (shutil_move src dst)) (fun _ =>
    and_then (append_movido dst) (fun _ =>
    info ("Arquivo movido de " ++ src ++ " para " ++ dst))))))
  else unit_ tt.

Definition mover_para_raw : Run FS () :=
  guarded
    (and_then get_self (fun s =>
     and_then (outside (os_makedirs (raw_data_dir s))) (fun _ =>
     and_then (info "Inicio da transferecia do dataset") (fun _ =>
     and_then get_self (fun s' =>
     and_then (fun env => (os_listdir (dataset_path s') (tree env), env)) (fun files =>
     for_each files mover_arquivo)))))).

(** The tree once [shutil.move] has moved the files [names], one after the
    other, from the directory [p] to the directory [raw]. *)
Definition after_moves (p raw : string) (names : list string) (fs : FS) : FS :=
  fold_left (fun fs file => (shutil_move (join p file) (join raw file) fs).2) names fs.

(** The script of the module: the three statements under
    [if __name__ == '__main__'], from the object the first one builds. *)
Definition main : Run FS () :=
  and_then download_dataset (fun _ => mover_para_raw).

End Methods.

(** The names of the listing that the loop acts on. *)
Definition csv_files (files : list string) : list string :=
  filter (fun file => endswith file ".csv" = true) files.

(** The line logged for a file moved from the directory [p] to [raw]. *)
Definition moved_line (p raw file : string) : string :=
  "Arquivo movido de " ++ join p file ++ " para " ++ join raw file.

End Dataloader.

(** * The main block of [enrich.py] *)

Section MainBlock.
Context {G FS : Type} `{!Numpy G} `{!Disk FS}.

(** [str(x)] of what [diretorio_raiz] returned. *)
Definition str_of (root : option Dataloader.PurePath) : string :=
  match root with
  | Some path => Dataloader.str path
  | None => "None"
  end.

Definition raw_csv : string := "/data/raw/WA_Fn-UseC_-Telco-Customer-Churn.csv".
Definition interim_csv : string := "/data/interim/telco_churn_enriched.csv".

Definition banner : list string :=
  ["==========================================================";
   "Pipeline Completo: Carregar, Enriquecer e Salvar";
   "=========================================================="].

(** The statements under [if __name__ == "__main__"] (lines 222 to 244),
    and nothing before them.  The module-level statements that a run of
    the file executes first are not part of it: the imports, among them
    [churn_project.logger], which makes the directory [logs] and opens the
    log file of the day, the import of [dataloader], which calls
    [diretorio_raiz] once, and [np.random.seed(42)].  The block runs in
    the world those statements left; [start_path] is the default argument
    of [diretorio_raiz], the current directory resolved when [dataloader]
    was imported. *)
Definition main_block (start_path : Dataloader.PurePath) : M G FS () :=
  root <- Dataloader.diretorio_raiz start_path ;;
  let input_path := str_of root ++ raw_csv in
  root' <- Dataloader.diretorio_raiz start_path ;;
  let output_path_csv := str_of root' ++ interim_csv in
  print "==========================================================" ;;
  print "Pipeline Completo: Carregar, Enriquecer e Salvar" ;;
  print "==========================================================" ;;
  wrapped
    (dataset_telco <- from_file EnriquecimentoDatasetTelco input_path ;;
     aplicar_enriquecimento_padrao dataset_telco ;;
     logging_info "Dataset Final a ser Salvo" ;;
     salvar dataset_telco output_path_csv).

End MainBlock.

(** * The rest of the code *)

(** ** The enrichment steps as functions of the frame and the generator *)

(** The labels each enrichment call writes. *)
Definition written (s : step) : list string :=
  match s with
  | PrepararColunaChurn => ["Churn"]
  | GerarFeaturesInteracao =>
      ["num_logins_last_30d"; "support_tickets_last_90d"; "last_interaction_days_ago"]
  | GerarFeaturesUsoRecente =>
      ["usage_last_6m"; "trend_usage"; "std_usage"; "avg_usage_last_3m"]
  | AplicarEnriquecimentoPadrao =>
      ["Churn"; "num_logins_last_30d"; "support_tickets_last_90d";
       "last_interaction_days_ago"; "usage_last_6m"; "trend_usage"; "std_usage";
       "avg_usage_last_3m"]
  end.

(** The calls that apply the dict to the [Churn] column. *)
Definition maps_churn (s : step) : bool :=
  match s with
  | PrepararColunaChurn | AplicarEnriquecimentoPadrao => true
  | GerarFeaturesInteracao | GerarFeaturesUsoRecente => false
  end.

(** [np.where(churn == 1, xs, ys)] as a column. *)
Definition where_col (churn : Series) (xs ys : list Z) : Series :=
  map VInt (np_where (map eq_one churn) xs ys).

Definition interacao_logs : list event :=
  [Log "Gerando features de interação";
   Log "features num_logins_las_30d concluída com sucesso";
   Log "features support_tickets_last_90d concluída com sucesso";
   Log "features last_interaction_days_ago concluída com sucesso";
   Log "features completas"].

Definition uso_recente_logs : list event :=
  [Log "Gerando features de série de uso (últimos 6 meses)...";
   Log "features de série criadas"].

Definition padrao_logs : list event :=
  (Log "Aplicando fluxo de enriquecimento padrão para Telco Churn..."
     :: preparar_log :: interacao_logs ++ uso_recente_logs
     ++ [Log "Fluxo de enriquecimento concluído."])%list.

Section StepsAsFunctions.
Context {G : Type} `{!Numpy G}.

(** The three columns of [gerar_features_interacao] on [n] rows and the
    generator it leaves: six draws of [n] values, one after the other. *)
Definition interacao_columns (n : nat) (churn : Series) (g : G)
  : Series * Series * Series * G :=
  let p1 := poisson 2 n g in
  let p2 := poisson 10 n p1.2 in
  let p3 := poisson 3 n p2.2 in
  let p4 := poisson 1 n p3.2 in
  let p5 := randint 15 60 n p4.2 in
  let p6 := randint 1 15 n p5.2 in
  (where_col churn p1.1 p2.1, where_col churn p3.1 p4.1, where_col churn p5.1 p6.1, p6.2).

Definition interacao_frame (churn : Series) (g : G) (d : DataFrame) : DataFrame :=
  let '(logins, tickets, days, _) := interacao_columns (nrows d) churn g in
  set_column "last_interaction_days_ago" days
    (set_column "support_tickets_last_90d" tickets
       (set_column "num_logins_last_30d" logins d)).

(** The series generated for the cells of a [Churn] column, row after row,
    and the generator they leave. *)
Fixpoint usage_series (churn : Series) (g : G) : list (list Z) * G :=
  match churn with
  | [] => ([], g)
  | churned :: rest =>
      let p := poisson 10 6 g in
      let trend := if eq_one churned then Float64.linspace 1 Float64.lit_0_3 6
                   else Float64.ones 6 in
      let r := usage_series rest p.2 in
      (Float64.mul_astype_int p.1 trend :: r.1, r.2)
  end.

Definition uso_recente_frame (usage : list (list Z)) (d : DataFrame) : DataFrame :=
  set_column "avg_usage_last_3m" (map (fun l => VFloat (Float64.mean (last3 l))) usage)
    (set_column "std_usage" (map (fun l => VFloat (Float64.std l)) usage)
       (set_column "trend_usage" (map (fun l => VFloat (polyfit_slope l)) usage)
          (set_column "usage_last_6m" (map VList usage) d))).

(** One [np.random.poisson(10, 6)]: what a row of
    [gerar_features_uso_recente] takes from the generator. *)
Definition one_series (g : G) : G := (poisson 10 6 g).2.

(** The frame and the generator after the three steps, for a [Churn] column
    that the dict maps to [mapped]. *)
Definition padrao_frame (mapped : Series) (g : G) (d : DataFrame) : DataFrame :=
  let d1 := set_column "Churn" mapped d in
  let g1 := (interacao_columns (nrows d) mapped g).2 in
  uso_recente_frame (usage_series mapped g1).1 (interacao_frame mapped g d1).

Definition padrao_gen (mapped : Series) (n : nat) (g : G) : G :=
  (usage_series mapped (interacao_columns n mapped g).2).2.

End StepsAsFunctions.

Section StepOutcome.
Context {G : Type} `{!Numpy G}.

(** The column the dict leaves for a [Churn] column of scalar cells. *)
Definition mapped_churn (churn : Series) : Series := take_nd (map yes_no_at churn).

(** The frame and the generator a call leaves when it returns, from the
    [Churn] column, the generator and the frame it found. *)
Definition step_frame (s : step) (churn : Series) (g : G) (d : DataFrame) : DataFrame :=
  match s with
  | PrepararColunaChurn => set_column "Churn" (mapped_churn churn) d
  | GerarFeaturesInteracao => interacao_frame churn g d
  | GerarFeaturesUsoRecente => uso_recente_frame (usage_series churn g).1 d
  | AplicarEnriquecimentoPadrao => padrao_frame (mapped_churn churn) g d
  end.

Definition step_gen (s : step) (churn : Series) (n : nat) (g : G) : G :=
  match s with
  | PrepararColunaChurn => g
  | GerarFeaturesInteracao => (interacao_columns n churn g).2
  | GerarFeaturesUsoRecente => (usage_series churn g).2
  | AplicarEnriquecimentoPadrao => padrao_gen (mapped_churn churn) n g
  end.

(** What a call needs to return: a [Churn] column, of cells that can be
    hashed if the call applies the dict to it. *)
Definition can_run (s : step) (d : DataFrame) : Prop :=
  exists churn, data d !! "Churn" = Some churn /\
                (maps_churn s = true -> Forall (fun v => scalar v = true) churn).

End StepOutcome.

(** ** Arithmetic of the usage series, checked value by value *)

(** [(b * 1.0).astype(int)] gives [b] back. *)
Definition flat_ok (b : Z) : bool :=
  (Float64.to_int (PrimFloat.mul (Float64.of_int b) 1%float) =? b)%Z.

(** [(b * t).astype(int)] lies between 0 and [b] for each factor [t] of the
    decaying trend. *)
Definition decay_ok (b : Z) : bool :=
  forallb (fun t => let r := Float64.to_int (PrimFloat.mul (Float64.of_int b) t) in
                    ((0 <=? r) && (r <=? b))%Z)
          (Float64.linspace 1%float Float64.lit_0_3 6).

(** The range of counts on which [flat_ok] and [decay_ok] were evaluated. *)
Definition count_bound : Z := 4096.

(** [p] holds of the [n] integers from [b] on. *)
Fixpoint all_from (n : nat) (b : Z) (p : Z -> bool) : bool :=
  match n with
  | O => true
  | S n' => p b && all_from n' (b + 1) p
  end.

(** ** The steps of [salvar] *)

Section SalvarSteps.
Context {G FS : Type} `{!Disk FS}.

(** The world once step 1 of [salvar] has returned: as it was for a path
    without a parent directory, and after [os.makedirs] and the log line
    otherwise. *)
Definition dir_ready (diretorio_pai : string) (w : World G FS) : World G FS :=
  if String.eqb diretorio_pai EmptyString then w
  else mkWorld (heap w) (gen w) (os_makedirs diretorio_pai (disk w)).2
               (out w ++ [Makedirs diretorio_pai;
                          Log ("Diretório '" ++ diretorio_pai ++ "' verificado/criado.")]).

(** Step 1 of [salvar] returns: there is no parent directory to create, or
    [os.makedirs] returns. *)
Definition dir_ok (diretorio_pai : string) (w : World G FS) : Prop :=
  diretorio_pai = EmptyString \/ (os_makedirs diretorio_pai (disk w)).1 = Ok ().

End SalvarSteps.

(** The file events among [evs], in order. *)
Definition file_io (evs : list event) : list event :=
  filter (fun ev => is_file_io ev = true) evs.

(** ** More worlds to run the pipeline in *)

Module Desk.

(** A frame without a label column. *)
Definition unlabelled : DataFrame :=
  {| nrows := 2; labels := ["customerID"];
     data := {[ "customerID" := [VStr "a"; VStr "b"] ]} |}.

Definition w_unlabelled : World nat Lab.memdisk :=
  mkWorld {[ 1%nat := unlabelled ]} 7%nat (Lab.mkDisk ∅ ∅) [].

(** A disk that is full: nothing can be created or written. *)
Record fulldisk : Type := mkFull { held : gmap string DataFrame }.

#[global] Instance full_disk : Disk fulldisk := {|
  pd_read _ path fs :=
    match held fs !! path with
    | Some d => Ok d
    | None => Raise (OSError "No such file or directory")
    end;
  pd_write _ d path fs := (Raise (OSError "No space left on device"), fs);
  os_makedirs dir fs := (Raise (OSError "No space left on device"), fs);
|}.

Definition w_full : World nat fulldisk :=
  mkWorld {[ 1%nat := Lab.telco ]} 0%nat (mkFull ∅) [].

End Desk.

(** ** A file tree to run the download in *)

Module Cache.

Import Dataloader.

(** The directories made, the names each directory lists, the moves made,
    and the name of the one file that cannot be moved (if any). *)
Record tree : Type := mkTree {
  made : list string;
  listing : gmap string (list string);
  moves : list (string * string);
  stuck : option string;
}.

#[global] Instance tree_disk : Disk tree := {|
  pd_read _ path fs := Raise (OSError "No such file or directory");
  pd_write _ d path fs := (Raise (OSError "Read-only file system"), fs);
  os_makedirs dir fs := (Ok (), mkTree (made fs ++ [dir]) (listing fs) (moves fs) (stuck fs));
|}.

#[global] Instance tree_shell : Shell tree := {|
  kagglehub_dataset_download name fs :=
    if String.eqb name "blastchar/telco-customer-churn"
    then (Ok "/cache/telco",
          mkTree (made fs)
                 (<["/cache/telco" := ["README.md"; "WA_Fn-UseC_-Telco-Customer-Churn.csv";
                                       "notes.CSV"; "extra.csv"]]> (listing fs))
                 (moves fs) (stuck fs))
    else (Raise (OSError "404 Client Error"), fs);
  os_listdir path fs :=
    match listing fs !! default "." path with
    | Some names => Ok names
    | None => Raise (OSError "No such file or directory")
    end;
  shutil_move src dst fs :=
    if bool_decide (stuck fs = Some src)
    then (Raise (OSError "Permission denied"), fs)
    else (Ok (), mkTree (made fs) (listing fs) (moves fs ++ [(src, dst)]) (stuck fs));
|}.

(** Nothing downloaded yet; the current directory holds a CSV file. *)
Definition empty : tree := mkTree [] {[ "." := ["setup.py"; "old.csv"] ]} [] None.

(** The same, where the second CSV file of the dataset cannot be moved. *)
Definition sticky : tree :=
  mkTree [] {[ "." := ["setup.py"; "old.csv"] ]} [] (Some "/cache/telco/extra.csv").

Definition telco : DownloadDataset :=
  __init__ "blastchar/telco-customer-churn" "/repo/data/raw".

Definition downloaded : DownloadDataset :=
  mkDownload "blastchar/telco-customer-churn" "/repo/data/raw" (Some "/cache/telco") [].

Definition downloaded_tree : tree :=
  (kagglehub_dataset_download "blastchar/telco-customer-churn" sticky).2.

End Cache.

Module Repo.

(** The repository checked out at [/repo], the block run from there. *)
Definition here : Dataloader.PurePath := Dataloader.mkPath true ["repo"].

Definition input_path : string := "/repo/data/raw/WA_Fn-UseC_-Telco-Customer-Churn.csv".
Definition output_path : string := "/repo/data/interim/telco_churn_enriched.csv".

(** The raw file is there. *)
Definition w_raw : World nat Lab.memdisk :=
  mkWorld ∅ 0%nat (Lab.mkDisk {[ input_path := Lab.telco ]} ∅) [].

(** What the pipeline makes of the five customers from a generator at 0. *)
Definition enriched : DataFrame := padrao_frame (map bit_of Lab.churn) 0%nat Lab.telco.

(** The raw file is missing. *)
Definition w_bare : World nat Lab.memdisk := mkWorld ∅ 0%nat (Lab.mkDisk ∅ ∅) [].

End Repo.

(** * Worked examples of the library functions *)

Example splitext_csv :
  Path.splitext "data/raw/Telco.CSV" = ("data/raw/Telco"%string, ".CSV"%string).
Proof. reflexivity. Qed.

Example splitext_hidden : Path.splitext "out/.csv" = ("out/.csv"%string, EmptyString).
Proof. reflexivity. Qed.

Example splitext_dot_in_dir : Path.splitext "a.b/c" = ("a.b/c"%string, EmptyString).
Proof. reflexivity. Qed.

Example dirname_nested : Path.dirname "data/interim/out.csv" = "data/interim"%string.
Proof. reflexivity. Qed.

Example dirname_bare : Path.dirname "out.csv" = EmptyString.
Proof. reflexivity. Qed.

Example dirname_root : Path.dirname "//out.csv" = "//"%string.
Proof. reflexivity. Qed.

Example lower_mixed : Path.lower ".XlsX" = ".xlsx"%string.
Proof. reflexivity. Qed.

Example lit_0_3_nearest : Float64.lit_0_3 = (3 / 10)%float.
Proof. reflexivity. Qed.

Example linspace_decay_trunc :
  Float64.mul_astype_int [10; 10; 10; 10; 10; 10] (Float64.linspace 1 Float64.lit_0_3 6)
  = [10; 8; 7; 5; 4; 3].
Proof. vm_compute. reflexivity. Qed.

Example ones_flat :
  Float64.mul_astype_int [12; 7; 0; 9; 10; 11] (Float64.ones 6) = [12; 7; 0; 9; 10; 11].
Proof. vm_compute. reflexivity. Qed.

Example mean_last3 : Float64.mean [5; 4; 3] = 4%float.
Proof. vm_compute. reflexivity. Qed.

Example std_flat : Float64.std [2; 4; 4; 4; 5; 5] = 1%float.
Proof. vm_compute. reflexivity. Qed.

Example series_map_yes_no :
  series_map {[ "Yes"%string := 1; "No"%string := 0 ]} [VStr "Yes"; VStr "No"; VStr "Yes"]
  = Ok [VInt 1; VInt 0; VInt 1].
Proof. vm_compute. reflexivity. Qed.

Example series_map_other :
  series_map {[ "Yes"%string := 1; "No"%string := 0 ]} [VStr "Yes"; VStr "maybe"; VInt 1]
  = Ok [VFloat 1; NaN; NaN].
Proof. vm_compute. reflexivity. Qed.

(** * Reasoning about the methods *)

(** ** Triples: from a world where [P] holds, [m] ends in a world where [Q]
    holds of the value returned, or [E] of the exception raised. *)

Section Triples.
Context {G FS : Type}.

Local Abbreviation World := (World G FS).
Local Abbreviation M := (M G FS).

Lemma triple_conseq {A} (P P' : World -> Prop) (m : M A) Q Q' E E' :
  triple P' m Q' E' ->
  (forall w, P w -> P' w) ->
  (forall a w, Q' a w -> Q a w) ->
  (forall e w, E' e w -> E e w) ->
  triple P m Q E.
Proof.
  intros Hm HP HQ HE w Hw. specialize (Hm w (HP w Hw)).
  destruct (m w) as [[a|e] w']; auto.
Qed.

Lemma triple_ret {A} (P : World -> Prop) (a : A) Q E :
  (forall w, P w -> Q a w) -> triple P (ret a) Q E.
Proof. intros H w Hw. cbn. auto. Qed.

Lemma triple_raise {A} (P : World -> Prop) e (Q : A -> World -> Prop) E :
  (forall w, P w -> E e w) -> triple P (raise e) Q E.
Proof. intros H w Hw. cbn. auto. Qed.

Lemma triple_lift {A} (P : World -> Prop) (r : Result A) Q E :
  (forall w, P w -> match r with Ok a => Q a w | Raise e => E e w end) ->
  triple P (lift r) Q E.
Proof. intros H w Hw. cbn. specialize (H w Hw). destruct r; auto. Qed.

Lemma triple_bind {A B} (P : World -> Prop) (m : M A) (k : A -> M B) R Q E :
  triple P m R E ->
  (forall a, triple (R a) (k a) Q E) ->
  triple P (bind m k) Q E.
Proof.
  intros Hm Hk w Hw. unfold bind. specialize (Hm w Hw).
  destruct (m w) as [[a|e] w']; [by apply Hk | done].
Qed.

Lemma triple_try_except {A} (P : World -> Prop) (m : M A) handler Q E' E :
  triple P m Q E' ->
  (forall e, triple (E' e) (handler e) Q E) ->
  triple P (try_except m handler) Q E.
Proof.
  intros Hm Hh w Hw. unfold try_except. specialize (Hm w Hw).
  destruct (m w) as [[a|e] w']; [done | by apply Hh].
Qed.

Lemma triple_wrapped {A} (P : World -> Prop) (m : M A) Q E :
  triple P m Q (fun e => E (CustomException e)) ->
  triple P (wrapped m) Q E.
Proof.
  intros Hm. eapply triple_try_except; [exact Hm |].
  intros e. by apply triple_raise.
Qed.

Lemma triple_emit (P : World -> Prop) ev Q E :
  (forall w, P w -> Q () (mkWorld (heap w) (gen w) (disk w) (out w ++ [ev]))) ->
  triple P (emit ev) Q E.
Proof. intros H w Hw. cbn. auto. Qed.

Lemma triple_deref (P : World -> Prop) r Q E :
  (forall w, P w ->
     match heap w !! r with
     | Some d => Q d w
     | None => E (SystemError "dangling reference") w
     end) ->
  triple P (deref r) Q E.
Proof.
  intros H w Hw. unfold deref. specialize (H w Hw).
  by destruct (heap w !! r).
Qed.

Lemma triple_store (P : World -> Prop) r d Q E :
  (forall w, P w -> Q () (mkWorld (<[r := d]> (heap w)) (gen w) (disk w) (out w))) ->
  triple P (store r d) Q E.
Proof. intros H w Hw. cbn. auto. Qed.

End Triples.

(** ** [Series.map] with [{'Yes': 1, 'No': 0}] *)

Lemma list_lookup_map {A B} (f : A -> B) (l : list A) i :
  map f l !! i = f <$> l !! i.
Proof. apply (list_lookup_fmap f l i). Qed.

Lemma mapM_result_length {A B} (f : A -> Result B) l l' :
  mapM_result f l = Ok l' -> length l' = length l.
Proof.
  revert l'. induction l as [|a l IH]; intros l'; cbn.
  - by intros [= <-].
  - destruct (f a); [|done]. destruct (mapM_result f l); [|done].
    intros [= <-]. cbn. by rewrite (IH _ eq_refl).
Qed.

Lemma mapM_result_total {A B} (f : A -> Result B) (g : A -> B) l :
  Forall (fun a => f a = Ok (g a)) l -> mapM_result f l = Ok (map g l).
Proof.
  induction 1 as [|a l Ha _ IH]; cbn; [done |]. by rewrite Ha, IH.
Qed.

Lemma get_indexer_scalar v :
  scalar v = true -> get_indexer yes_no v = Ok (yes_no_at v).
Proof. by destruct v. Qed.

Lemma series_map_scalar col :
  Forall (fun v => scalar v = true) col ->
  series_map yes_no col = Ok (take_nd (map yes_no_at col)).
Proof.
  intros Hcol. unfold series_map.
  rewrite (mapM_result_total _ yes_no_at); [done |].
  eapply Forall_impl; [exact Hcol |]. apply get_indexer_scalar.
Qed.

Lemma take_nd_length found : length (take_nd found) = length found.
Proof. unfold take_nd. destruct (forallb _ _); by rewrite length_map. Qed.

Lemma series_map_length mapper col col' :
  series_map mapper col = Ok col' -> length col' = length col.
Proof.
  unfold series_map. destruct (mapM_result _ col) as [found|] eqn:Hf; [|done].
  intros [= <-]. rewrite take_nd_length. by eapply mapM_result_length.
Qed.

Lemma yes_no_at_Yes : yes_no_at (VStr "Yes") = Some 1.
Proof. reflexivity. Qed.

Lemma yes_no_at_No : yes_no_at (VStr "No") = Some 0.
Proof. reflexivity. Qed.

Lemma is_yes_no_scalar v : is_yes_no v -> scalar v = true.
Proof. by intros [-> | ->]. Qed.

(** On a column of ["Yes"] and ["No"] every cell is found, and the result is
    the int64 column of the bits. *)
Lemma take_nd_yes_no col :
  Forall is_yes_no col -> take_nd (map yes_no_at col) = map bit_of col.
Proof.
  intros Hcol. unfold take_nd.
  assert (forallb (fun o : option Z => bool_decide (is_Some o)) (map yes_no_at col) = true) as ->.
  { induction Hcol as [|v col [-> | ->] _ IH]; cbn; [done | |];
      (rewrite IH; reflexivity). }
  rewrite map_map. apply map_ext_Forall.
  eapply Forall_impl; [exact Hcol |]. by intros v [-> | ->].
Qed.

Lemma series_map_yes_no_col col :
  Forall is_yes_no col -> series_map yes_no col = Ok (map bit_of col).
Proof.
  intros Hcol. rewrite series_map_scalar.
  - by rewrite take_nd_yes_no.
  - eapply Forall_impl; [exact Hcol |]. apply is_yes_no_scalar.
Qed.

Lemma bit_of_is_bit v : is_bit (bit_of v).
Proof.
  unfold is_bit, bit_of.
  destruct v as [s| | | |]; auto.
  destruct (decide (s = "Yes")) as [-> | Hne]; [by right | left].
  repeat (destruct s as [|[[] [] [] [] [] [] [] []] s]; try done).
Qed.

(** Running a method by hand: the monad's operations are unfolded and the
    fields of the worlds built on the way are read off. *)
Ltac unfold_monad :=
  unfold try_except, bind, emit, deref, lift, store, alloc, ret, raise; cbn.

(** ** [preparar_coluna_churn] *)

Section Preparar.
Context {G FS : Type} `{!Numpy G} `{!Disk FS}.

Local Abbreviation World := (World G FS).

(** The run of the method when the column is there and the dict can be
    applied to it: one log line, and the column replaced in place. *)
Lemma preparar_coluna_churn_run (w : World) self d col mapped :
  heap w !! df self = Some d ->
  data d !! "Churn" = Some col ->
  series_map yes_no col = Ok mapped ->
  preparar_coluna_churn self w
  = (Ok self,
     mkWorld (<[df self := set_column "Churn" mapped d]> (heap w))
             (gen w) (disk w) (out w ++ [preparar_log])).
Proof.
  intros Hd Hcol Hmap.
  unfold preparar_coluna_churn, df_getitem, df_setitem, logging_info, wrapped.
  unfold_monad. rewrite Hd. unfold getitem. rewrite Hcol, Hmap. cbn.
  by rewrite Hd.
Qed.

Lemma set_column_lookup label col d :
  data (set_column label col d) !! label = Some col.
Proof. cbn. apply lookup_insert_eq. Qed.

Lemma set_column_lookup_ne label label' col d :
  label <> label' -> data (set_column label col d) !! label' = data d !! label'.
Proof. intros Hne. cbn. by apply lookup_insert_ne. Qed.

Lemma set_column_nrows label col d : nrows (set_column label col d) = nrows d.
Proof. reflexivity. Qed.

Lemma set_column_rectangular label col d :
  rectangular d -> length col = nrows d -> rectangular (set_column label col d).
Proof.
  intros Hd Hlen. unfold rectangular. cbn. by apply map_Forall_insert_2.
Qed.

End Preparar.

(** C2: on a frame whose [Churn] column holds only ["Yes"] and ["No"],
    [preparar_coluna_churn] returns the pipeline object, and the [Churn]
    column then holds only 0 and 1: a 1 in each row that held ["Yes"], a 0
    in each row that held ["No"]. *)
Theorem preparar_coluna_churn_yes_no {G FS} `{!Numpy G} `{!Disk FS}
    (w : World G FS) self d col :
  heap w !! df self = Some d ->
  data d !! "Churn" = Some col ->
  Forall is_yes_no col ->
  exists w' d' col',
    preparar_coluna_churn self w = (Ok self, w') /\
    heap w' !! df self = Some d' /\
    data d' !! "Churn" = Some col' /\
    length col' = length col /\
    Forall is_bit col' /\
    forall i,
      (col !! i = Some (VStr "Yes") -> col' !! i = Some (VInt 1)) /\
      (col !! i = Some (VStr "No") -> col' !! i = Some (VInt 0)).
Proof.
  intros Hd Hcol Hyn.
  eexists _, _, (map bit_of col). split.
  { eapply preparar_coluna_churn_run; [done | done |].
    by apply series_map_yes_no_col. }
  cbn. rewrite lookup_insert_eq. split; [done |].
  rewrite set_column_lookup. split; [done |].
  split; [by rewrite length_map |].
  split.
  { apply Forall_map, Forall_forall. intros v _. apply bit_of_is_bit. }
  intros i. split; intros Hi; by rewrite list_lookup_map, Hi.
Qed.

Lemma preparar_coluna_churn_yes_no_witness :
  exists w' d' col',
    preparar_coluna_churn Lab.self1 Lab.w1 = (Ok Lab.self1, w') /\
    heap w' !! df Lab.self1 = Some d' /\
    data d' !! "Churn" = Some col' /\
    length col' = length Lab.churn /\
    Forall is_bit col' /\
    forall i,
      (Lab.churn !! i = Some (VStr "Yes") -> col' !! i = Some (VInt 1)) /\
      (Lab.churn !! i = Some (VStr "No") -> col' !! i = Some (VInt 0)).
Proof.
  apply (preparar_coluna_churn_yes_no Lab.w1 Lab.self1 Lab.telco Lab.churn).
  - reflexivity.
  - reflexivity.
  - repeat constructor; (by left) || (by right).
Defined.

Lemma yes_no_at_other v :
  v <> VStr "Yes" -> v <> VStr "No" -> yes_no_at v = None.
Proof.
  intros Hy Hn. destruct v as [s| | | |]; try done. cbn. unfold yes_no.
  rewrite lookup_insert_ne by congruence.
  apply lookup_singleton_ne. congruence.
Qed.

(** As soon as one cell is not found, the cells not found are NaN. *)
Lemma take_nd_missing found i :
  found !! i = Some None ->
  exists v, take_nd found !! i = Some v /\ is_missing v = true.
Proof.
  intros Hi. unfold take_nd.
  destruct (forallb _ found) eqn:Hall.
  - rewrite forallb_forall in Hall.
    specialize (Hall None). rewrite <- list_elem_of_In in Hall.
    by specialize (Hall (list_elem_of_lookup_2 _ _ _ Hi)).
  - exists NaN. by rewrite list_lookup_map, Hi.
Qed.

(** When no cell is found, the whole column is NaN. *)
Lemma take_nd_none {A} (l : list A) :
  take_nd (map (fun _ => None) l) = replicate (length l) NaN.
Proof.
  unfold take_nd. destruct l as [|a l]; [done |]. cbn. f_equal.
  induction l as [|b l IH]; cbn; [done | by rewrite IH].
Qed.

(** C10, as the code has it: whatever cells that can be hashed (strings,
    numbers, booleans) the [Churn] column holds, [preparar_coluna_churn]
    does not raise and returns the pipeline object; every cell that is
    neither ["Yes"] nor ["No"], a number as well, is a missing value
    afterwards.  (Not so for every value: pandas cannot hash a list cell
    and raises on it.) *)
Theorem preparar_coluna_churn_never_raises {G FS} `{!Numpy G} `{!Disk FS}
    (w : World G FS) self d col :
  heap w !! df self = Some d ->
  data d !! "Churn" = Some col ->
  Forall (fun v => scalar v = true) col ->
  exists w' d' col',
    preparar_coluna_churn self w = (Ok self, w') /\
    heap w' !! df self = Some d' /\
    data d' !! "Churn" = Some col' /\
    length col' = length col /\
    forall i v,
      col !! i = Some v -> v <> VStr "Yes" -> v <> VStr "No" ->
      exists v', col' !! i = Some v' /\ is_missing v' = true.
Proof.
  intros Hd Hcol Hsc.
  eexists _, _, (take_nd (map yes_no_at col)). split.
  { eapply preparar_coluna_churn_run; [done | done |].
    by apply series_map_scalar. }
  cbn. rewrite lookup_insert_eq. split; [done |].
  rewrite set_column_lookup. split; [done |].
  split; [by rewrite take_nd_length, length_map |].
  intros i v Hi Hy Hn. apply take_nd_missing.
  rewrite list_lookup_map, Hi. cbn. by rewrite (yes_no_at_other v).
Qed.

Lemma preparar_coluna_churn_never_raises_witness :
  exists w' d' col',
    preparar_coluna_churn Lab.self1 Lab.mixed_world = (Ok Lab.self1, w') /\
    heap w' !! df Lab.self1 = Some d' /\
    data d' !! "Churn" = Some col' /\
    length col' = length Lab.mixed_churn /\
    forall i v,
      Lab.mixed_churn !! i = Some v -> v <> VStr "Yes" -> v <> VStr "No" ->
      exists v', col' !! i = Some v' /\ is_missing v' = true.
Proof.
  apply (preparar_coluna_churn_never_raises Lab.mixed_world Lab.self1 Lab.mixed_frame Lab.mixed_churn).
  - reflexivity.
  - reflexivity.
  - by repeat constructor.
Defined.

(** C10 as stated fails.  The frame of [Lab.nested_world] has a [Churn]
    column; its one cell is a list, which pandas cannot hash, and
    [preparar_coluna_churn] raises instead of returning the object. *)
Lemma preparar_coluna_churn_list_cell_raises :
  heap Lab.nested_world !! df Lab.self1 = Some Lab.nested_frame /\
  data Lab.nested_frame !! "Churn" = Some [VList [1; 0]] /\
  (preparar_coluna_churn Lab.self1 Lab.nested_world).1
  = Raise (CustomException (TypeError "unhashable type: 'list'")) /\
  (preparar_coluna_churn Lab.self1 Lab.nested_world).1 <> Ok Lab.self1.
Proof.
  split; [reflexivity |]. split; [reflexivity |].
  assert ((preparar_coluna_churn Lab.self1 Lab.nested_world).1
          = Raise (CustomException (TypeError "unhashable type: 'list'"))) as Hrun
    by (vm_compute; reflexivity).
  split; [exact Hrun |]. rewrite Hrun. discriminate.
Qed.

(** Outside the scalar cells: pandas raises on a cell it cannot hash, and
    the method wraps the exception; the frame is left as it was. *)
Example preparar_nested_column :
  let run := preparar_coluna_churn Lab.self1 Lab.nested_world in
  run.1 = Raise (CustomException (TypeError "unhashable type: 'list'")) /\
  heap run.2 = heap Lab.nested_world.
Proof. vm_compute. by split. Qed.

Example preparar_mixed_column :
  (heap (preparar_coluna_churn Lab.self1 Lab.mixed_world).2 !! 1%nat)
    ≫= (fun d => data d !! "Churn")
  = Some [VFloat 0; NaN; NaN; NaN; NaN].
Proof. vm_compute. reflexivity. Qed.

(** C5: [preparar_coluna_churn] is not idempotent.  On a [Churn] column of
    ["Yes"] and ["No"] the first call leaves 0 and 1; the second call finds
    neither 0 nor 1 among the keys of the dict and leaves a missing value in
    every row, so that on a frame with a row the column after two calls is
    not the column after one. *)
Theorem preparar_coluna_churn_twice {G FS} `{!Numpy G} `{!Disk FS}
    (w : World G FS) self d col :
  heap w !! df self = Some d ->
  data d !! "Churn" = Some col ->
  Forall is_yes_no col ->
  exists w1 d1 col1 w2 d2 col2,
    preparar_coluna_churn self w = (Ok self, w1) /\
    heap w1 !! df self = Some d1 /\
    data d1 !! "Churn" = Some col1 /\
    Forall is_bit col1 /\
    preparar_coluna_churn self w1 = (Ok self, w2) /\
    heap w2 !! df self = Some d2 /\
    data d2 !! "Churn" = Some col2 /\
    col2 = replicate (length col) NaN /\
    Forall (fun v => is_missing v = true) col2 /\
    (col <> [] -> col2 <> col1).
Proof.
  intros Hd Hcol Hyn.
  set (col1 := map bit_of col).
  assert (series_map yes_no col1 = Ok (replicate (length col) NaN)) as Hmap2.
  { rewrite series_map_scalar.
    - unfold col1. rewrite map_map.
      rewrite (map_ext _ (fun _ => None)).
      + by rewrite take_nd_none.
      + intros v. by destruct (bit_of_is_bit v) as [-> | ->].
    - apply Forall_map, Forall_forall. intros v _.
      by destruct (bit_of_is_bit v) as [-> | ->]. }
  eexists _, _, col1, _, _, (replicate (length col) NaN).
  split.
  { eapply preparar_coluna_churn_run; [done | done |].
    by apply series_map_yes_no_col. }
  cbn. rewrite lookup_insert_eq. split; [done |].
  rewrite set_column_lookup. split; [done |].
  split.
  { apply Forall_map, Forall_forall. intros v _. apply bit_of_is_bit. }
  split.
  { eapply preparar_coluna_churn_run; [| | exact Hmap2].
    - cbn. apply lookup_insert_eq.
    - apply set_column_lookup. }
  cbn. rewrite lookup_insert_eq. split; [done |].
  rewrite set_column_lookup. split; [done |].
  split; [done |].
  split.
  { apply Forall_forall. intros v Hv. apply elem_of_replicate in Hv as [-> _]. done. }
  intros Hne Heq. destruct col as [|v col]; [done |].
  subst col1. cbn in Heq.
  by destruct (bit_of_is_bit v) as [Hb | Hb]; rewrite Hb in Heq.
Qed.

Lemma preparar_coluna_churn_twice_witness :
  exists w1 d1 col1 w2 d2 col2,
    preparar_coluna_churn Lab.self1 Lab.w1 = (Ok Lab.self1, w1) /\
    heap w1 !! df Lab.self1 = Some d1 /\
    data d1 !! "Churn" = Some col1 /\
    Forall is_bit col1 /\
    preparar_coluna_churn Lab.self1 w1 = (Ok Lab.self1, w2) /\
    heap w2 !! df Lab.self1 = Some d2 /\
    data d2 !! "Churn" = Some col2 /\
    col2 = replicate (length Lab.churn) NaN /\
    Forall (fun v => is_missing v = true) col2 /\
    (Lab.churn <> [] -> col2 <> col1).
Proof.
  apply (preparar_coluna_churn_twice Lab.w1 Lab.self1 Lab.telco Lab.churn).
  - reflexivity.
  - reflexivity.
  - repeat constructor; (by left) || (by right).
Defined.

(** ** Triples for the operations on [self.df]

    The assertions used for the enrichment steps speak of the store only:
    [on_heap H] holds of a world whose store satisfies [H], whatever was
    drawn or logged.  [frame_at r F] is such an [H]: the frame behind [r]
    is there and satisfies [F]. *)

Section FrameTriples.
Context {G FS : Type} `{!Numpy G} `{!Disk FS}.

Local Abbreviation on_heap := (@on_heap G FS).

Local Abbreviation World := (World G FS).

Lemma triple_pure {A} (phi : Prop) (P : World -> Prop) (m : M G FS A) Q E :
  (phi -> triple P m Q E) -> triple (fun w => phi /\ P w) m Q E.
Proof. intros Hm w [Hphi Hw]. by apply Hm. Qed.

Lemma triple_logging_info H msg E :
  triple (on_heap H) (logging_info msg) (fun _ => on_heap H) E.
Proof. by apply triple_emit. Qed.

Lemma triple_poisson H lam size E :
  triple (on_heap H) (np_random_poisson lam size)
    (fun xs w => length xs = size /\ on_heap H w) E.
Proof.
  intros w Hw. unfold np_random_poisson.
  pose proof (poisson_length lam size (gen w)) as Hlen.
  by destruct (poisson lam size (gen w)) as [xs g].
Qed.

Lemma triple_randint H low high size E :
  low < high ->
  triple (on_heap H) (np_random_randint low high size)
    (fun xs w => (length xs = size /\ Forall (fun z => low <= z < high) xs)
                 /\ on_heap H w) E.
Proof.
  intros Hlt w Hw. unfold np_random_randint.
  pose proof (randint_length low high size (gen w)) as Hlen.
  pose proof (randint_range low high size (gen w) Hlt) as Hrng.
  by destruct (randint low high size (gen w)) as [xs g].
Qed.

Lemma triple_df_getitem self label col (F : DataFrame -> Prop) E :
  (forall d, F d -> data d !! label = Some col) ->
  triple (on_heap (frame_at (df self) F)) (df_getitem self label)
    (fun c w => c = col /\ on_heap (frame_at (df self) F) w) E.
Proof.
  intros HF w (d & Hd & Hd'). unfold df_getitem, getitem. unfold_monad.
  rewrite Hd, (HF d Hd'). split; [done |]. by exists d.
Qed.

Lemma triple_df_len self n (F : DataFrame -> Prop) E :
  (forall d, F d -> nrows d = n) ->
  triple (on_heap (frame_at (df self) F)) (df_len self)
    (fun k w => k = n /\ on_heap (frame_at (df self) F) w) E.
Proof.
  intros HF w (d & Hd & Hd'). unfold df_len. unfold_monad.
  rewrite Hd. split; [by apply HF |]. by exists d.
Qed.

Lemma triple_df_setitem self label col (F F' : DataFrame -> Prop) E :
  (forall d, F d -> F' (set_column label col d)) ->
  triple (on_heap (frame_at (df self) F)) (df_setitem self label col)
    (fun _ => on_heap (frame_at (df self) F')) E.
Proof.
  intros HF w (d & Hd & Hd'). unfold df_setitem. unfold_monad.
  rewrite Hd. exists (set_column label col d). cbn.
  rewrite lookup_insert_eq. split; [done |]. by apply HF.
Qed.

Lemma triple_df_setitem_array self label arr (F F' : DataFrame -> Prop) E :
  (forall d, F d -> length arr = nrows d) ->
  (forall d, F d -> F' (set_column label arr d)) ->
  triple (on_heap (frame_at (df self) F)) (df_setitem_array self label arr)
    (fun _ => on_heap (frame_at (df self) F')) E.
Proof.
  intros Hlen HF w (d & Hd & Hd'). unfold df_setitem_array, setitem_array. unfold_monad.
  rewrite Hd. rewrite bool_decide_true by by apply Hlen.
  exists (set_column label arr d). cbn.
  rewrite lookup_insert_eq. split; [done |]. by apply HF.
Qed.

(** [np.where(self.df['Churn'] == 1, x(n), y(n))] on a frame of [n] rows
    whose [Churn] column is [churn]: the draws [xs] and [ys] satisfy what
    [x] and [y] promise for [n] values. *)
Lemma triple_where_churn self n churn (F : DataFrame -> Prop)
    (x y : nat -> M G FS (list Z)) (X Y : nat -> list Z -> Prop) E :
  (forall d, F d -> data d !! "Churn" = Some churn) ->
  (forall d, F d -> nrows d = n) ->
  (forall H k, triple (on_heap H) (x k) (fun xs w => X k xs /\ on_heap H w) E) ->
  (forall H k, triple (on_heap H) (y k) (fun ys w => Y k ys /\ on_heap H w) E) ->
  triple (on_heap (frame_at (df self) F)) (where_churn self x y)
    (fun col w =>
       (exists xs ys, col = map VInt (np_where (map eq_one churn) xs ys)
                      /\ X n xs /\ Y n ys)
       /\ on_heap (frame_at (df self) F) w) E.
Proof.
  intros Hchurn Hn Hx Hy. unfold where_churn.
  eapply triple_bind; [by apply triple_df_getitem |].
  intros c. apply triple_pure; intros ->.
  eapply triple_bind; [by apply triple_df_len |].
  intros n1. apply triple_pure; intros ->.
  eapply triple_bind; [apply Hx |].
  intros xs. cbn beta. apply triple_pure; intros HX.
  eapply triple_bind; [by apply triple_df_len |].
  intros n2. apply triple_pure; intros ->.
  eapply triple_bind; [apply Hy |].
  intros ys. cbn beta. apply triple_pure; intros HY.
  apply triple_ret. intros w Hw. split; [|done]. by exists xs, ys.
Qed.

End FrameTriples.

(** ** [gerar_features_interacao] *)

Lemma np_where_length (cond : list bool) (xs ys : list Z) n :
  length cond = n -> length xs = n -> length ys = n ->
  length (np_where cond xs ys) = n.
Proof.
  revert cond xs ys. induction n as [|n IH]; intros [|c cond] [|a xs] [|b ys]; try done.
  cbn. intros [= Hc] [= Hx] [= Hy]. f_equal. by apply IH.
Qed.

Lemma np_where_lookup (cond : list bool) (xs ys : list Z) (i : nat)
    (c : bool) (a b : Z) :
  cond !! i = Some c -> xs !! i = Some a -> ys !! i = Some b ->
  np_where cond xs ys !! i = Some (if c then a else b).
Proof.
  revert cond xs ys. induction i as [|i IH]; intros [|c' cond] [|a' xs] [|b' ys]; try done.
  - by intros [= ->] [= ->] [= ->].
  - cbn. apply IH.
Qed.

Section Interacao.
Context {G FS : Type} `{!Numpy G} `{!Disk FS}.

Local Abbreviation on_heap := (@on_heap G FS).

Lemma days_by_churn_where churn xs ys :
  length xs = length churn -> Forall (fun z => 15 <= z < 60) xs ->
  length ys = length churn -> Forall (fun z => 1 <= z < 15) ys ->
  days_by_churn churn (map VInt (np_where (map eq_one churn) xs ys)).
Proof.
  intros Hlx Hx Hly Hy. split.
  { rewrite length_map. apply np_where_length; [by rewrite length_map | done | done]. }
  intros i.
  assert (forall v, churn !! i = Some v ->
            exists a b, xs !! i = Some a /\ ys !! i = Some b /\
              map VInt (np_where (map eq_one churn) xs ys) !! i
              = Some (VInt (if eq_one v then a else b))) as Hrow.
  { intros v Hv. pose proof (lookup_lt_Some _ _ _ Hv) as Hi.
    destruct (lookup_lt_is_Some_2 xs i) as [a Ha]; [lia |].
    destruct (lookup_lt_is_Some_2 ys i) as [b Hb]; [lia |].
    exists a, b. split; [done |]. split; [done |].
    rewrite list_lookup_map.
    rewrite (np_where_lookup _ _ _ i (eq_one v) a b); [done | | done | done].
    by rewrite list_lookup_map, Hv. }
  split; intros Hv; destruct (Hrow _ Hv) as (a & b & Ha & Hb & ->); cbn.
  - exists a. split; [done |]. exact (Forall_lookup_1 _ xs i a Hx Ha).
  - exists b. split; [done |]. exact (Forall_lookup_1 _ ys i b Hy Hb).
Qed.

Lemma with_churn_set_column n churn label col d :
  label <> "Churn" -> with_churn n churn d -> with_churn n churn (set_column label col d).
Proof.
  intros Hne [Hn Hc]. split; [done |]. by rewrite set_column_lookup_ne.
Qed.

Lemma gerar_features_interacao_triple self churn :
  triple (on_heap (frame_at (df self) (with_churn (length churn) churn)))
    (gerar_features_interacao self)
    (fun s w =>
       s = self /\
       on_heap (frame_at (df self) (fun d =>
         with_churn (length churn) churn d /\
         exists days, data d !! "last_interaction_days_ago" = Some days /\
                      days_by_churn churn days)) w)
    (no_exn (G := G) (FS := FS)).
Proof.
  set (n := length churn).
  set (F := with_churn n churn).
  assert (forall d, F d -> data d !! "Churn" = Some churn) as Hchurn by by intros d [_ ?].
  assert (forall d, F d -> nrows d = n) as Hn by by intros d [? _].
  assert (forall lam (H : gmap loc DataFrame -> Prop) k,
    triple (on_heap H) (np_random_poisson (FS := FS) lam k)
      (fun xs w => length xs = k /\ on_heap H w) (fun e => no_exn (CustomException e)))
    as Hpoisson by (intros; apply triple_poisson).
  unfold gerar_features_interacao. apply triple_wrapped.
  eapply triple_bind; [apply triple_logging_info |]. intros [].
  (* num_logins_last_30d *)
  eapply triple_bind.
  { eapply (triple_where_churn self n churn F _ _
              (fun k xs => length xs = k) (fun k ys => length ys = k)); eauto. }
  intros logins. apply triple_pure. intros (xs & ys & -> & Hx & Hy).
  eapply triple_bind.
  { apply (triple_df_setitem_array _ _ _ F F).
    - intros d Hd. rewrite length_map, (Hn d Hd).
      apply np_where_length; [by rewrite length_map | done | done].
    - intros d Hd. by apply with_churn_set_column. }
  intros [].
  eapply triple_bind; [apply triple_logging_info |]. intros [].
  (* support_tickets_last_90d *)
  clear xs ys Hx Hy.
  eapply triple_bind.
  { eapply (triple_where_churn self n churn F _ _
              (fun k xs => length xs = k) (fun k ys => length ys = k)); eauto. }
  intros tickets. apply triple_pure. intros (xs & ys & -> & Hx & Hy).
  eapply triple_bind.
  { apply (triple_df_setitem_array _ _ _ F F).
    - intros d Hd. rewrite length_map, (Hn d Hd).
      apply np_where_length; [by rewrite length_map | done | done].
    - intros d Hd. by apply with_churn_set_column. }
  intros [].
  eapply triple_bind; [apply triple_logging_info |]. intros [].
  (* last_interaction_days_ago *)
  clear xs ys Hx Hy.
  eapply triple_bind.
  { eapply (triple_where_churn self n churn F _ _
              (fun k xs => length xs = k /\ Forall (fun z => 15 <= z < 60) xs)
              (fun k ys => length ys = k /\ Forall (fun z => 1 <= z < 15) ys));
      [done | done | |]; intros H k; by apply triple_randint. }
  intros days. apply triple_pure. intros (xs & ys & -> & [Hlx Hx] & [Hly Hy]).
  eapply triple_bind.
  { apply (triple_df_setitem_array _ _ _ F (fun d =>
         with_churn n churn d /\
         exists days, data d !! "last_interaction_days_ago" = Some days /\
                      days_by_churn churn days)).
    - intros d Hd. rewrite length_map, (Hn d Hd).
      apply np_where_length; [by rewrite length_map | done | done].
    - intros d Hd. split.
      + by apply with_churn_set_column.
      + eexists. split; [apply set_column_lookup |].
        by apply days_by_churn_where. }
  intros [].
  eapply triple_bind; [apply triple_logging_info |]. intros [].
  eapply triple_bind; [apply triple_logging_info |]. intros [].
  by apply triple_ret.
Qed.

End Interacao.

Lemma rectangular_lookup d label col :
  rectangular d -> data d !! label = Some col -> length col = nrows d.
Proof. intros Hd Hcol. exact (Hd label col Hcol). Qed.

(** C3: on a frame whose [Churn] column holds only 0 and 1,
    [gerar_features_interacao] returns the pipeline object and leaves, in
    every row, a [last_interaction_days_ago] in [15, 60) if the row's
    [Churn] is 1 and in [1, 15) if it is 0. *)
Theorem gerar_features_interacao_days_range {G FS} `{!Numpy G} `{!Disk FS}
    (w : World G FS) self d churn :
  heap w !! df self = Some d ->
  rectangular d ->
  data d !! "Churn" = Some churn ->
  Forall is_bit churn ->
  exists w' d' days,
    gerar_features_interacao self w = (Ok self, w') /\
    heap w' !! df self = Some d' /\
    nrows d' = nrows d /\
    data d' !! "Churn" = Some churn /\
    data d' !! "last_interaction_days_ago" = Some days /\
    forall i, (i < nrows d)%nat ->
      exists z, days !! i = Some (VInt z) /\
        ((churn !! i = Some (VInt 1) /\ 15 <= z < 60) \/
         (churn !! i = Some (VInt 0) /\ 1 <= z < 15)).
Proof.
  intros Hd Hrect Hchurn Hbits.
  pose proof (rectangular_lookup _ _ _ Hrect Hchurn) as Hlen.
  pose proof (gerar_features_interacao_triple self churn w) as Hrun.
  destruct (gerar_features_interacao self w) as [[s|e] w'].
  2: { exfalso. apply Hrun. exists d. by repeat split. }
  destruct Hrun as (-> & d' & Hd' & [Hn Hc] & days & Hdays & Hlen' & Hrows).
  { exists d. by repeat split. }
  exists w', d', days. repeat split; try done; [congruence |].
  intros i Hi.
  destruct (lookup_lt_is_Some_2 churn i) as [v Hv]; [lia |].
  destruct (Forall_lookup_1 _ _ _ _ Hbits Hv) as [-> | ->].
  - destruct (proj2 (Hrows i) Hv) as (z & Hz & Hrange). exists z. by auto.
  - destruct (proj1 (Hrows i) Hv) as (z & Hz & Hrange). exists z. by auto.
Qed.

Lemma gerar_features_interacao_days_range_witness :
  exists w' d' days,
    gerar_features_interacao Lab.self1 Lab.w_bits = (Ok Lab.self1, w') /\
    heap w' !! df Lab.self1 = Some d' /\
    nrows d' = nrows Lab.telco_bits /\
    data d' !! "Churn" = Some Lab.bits /\
    data d' !! "last_interaction_days_ago" = Some days /\
    forall i, (i < nrows Lab.telco_bits)%nat ->
      exists z, days !! i = Some (VInt z) /\
        ((Lab.bits !! i = Some (VInt 1) /\ 15 <= z < 60) \/
         (Lab.bits !! i = Some (VInt 0) /\ 1 <= z < 15)).
Proof.
  apply (gerar_features_interacao_days_range Lab.w_bits Lab.self1 Lab.telco_bits Lab.bits).
  - reflexivity.
  - apply (bool_decide_unpack _). vm_compute. reflexivity.
  - reflexivity.
  - repeat constructor; (by left) || (by right).
Defined.

Example gerar_features_interacao_days :
  (heap (gerar_features_interacao Lab.self1 Lab.w_bits).2 !! 1%nat)
    ≫= (fun d => data d !! "last_interaction_days_ago")
  = Some [VInt 12; VInt 36; VInt 14; VInt 38; VInt 2].
Proof. vm_compute. reflexivity. Qed.

(** ** [gerar_features_uso_recente] *)

Section UsoRecente.
Context {G FS : Type} `{!Numpy G} `{!Disk FS}.

Local Abbreviation on_heap := (@on_heap G FS).

Lemma mul_astype_int_length base trend :
  length base = 6%nat -> length trend = 6%nat ->
  length (Float64.mul_astype_int base trend) = 6%nat.
Proof.
  intros Hb Ht. unfold Float64.mul_astype_int.
  rewrite length_zip_with. lia.
Qed.

Lemma set_last_length stop y : length (Float64.set_last stop y) = length y.
Proof. induction y as [|a [|b y] IH]; cbn in *; [done | done | by rewrite IH]. Qed.

Lemma linspace_length start stop num :
  length (Float64.linspace start stop num) = num.
Proof.
  unfold Float64.linspace. by rewrite set_last_length, length_map, length_seq.
Qed.

(** Every series generated has six elements. *)
Lemma triple_generate_usage_series H churned E :
  triple (on_heap H) (_generate_usage_series (FS := FS) churned)
    (fun l w => length l = 6%nat /\ on_heap H w) E.
Proof.
  unfold _generate_usage_series.
  eapply triple_bind; [apply triple_poisson |].
  intros base. apply triple_pure; intros Hbase.
  apply triple_ret. intros w Hw. split; [|done].
  apply mul_astype_int_length; [done |].
  destruct (eq_one churned); [apply linspace_length | apply repeat_length].
Qed.

Lemma triple_series_apply {A} H (f : value -> M G FS A) (X : A -> Prop) col E :
  (forall v, triple (on_heap H) (f v) (fun a w => X a /\ on_heap H w) E) ->
  triple (on_heap H) (series_apply f col)
    (fun l w => (length l = length col /\ Forall X l) /\ on_heap H w) E.
Proof.
  intros Hf. induction col as [|v col IH]; cbn [series_apply].
  - by apply triple_ret.
  - eapply triple_bind; [apply Hf |].
    intros a. apply triple_pure; intros Ha.
    eapply triple_bind; [apply IH |].
    intros rest. apply triple_pure; intros [Hlen Hrest].
    apply triple_ret. intros w Hw. split; [|done].
    split; [cbn; by rewrite Hlen | by constructor].
Qed.

Lemma mapM_trend_of usage :
  Forall six usage ->
  mapM_result trend_of (map VList usage)
  = Ok (map (fun l => VFloat (polyfit_slope l)) usage).
Proof.
  intros Hsix. rewrite <- (map_map VList (fun x => match x with
      | VList l => VFloat (polyfit_slope l) | v => v end)).
  apply mapM_result_total, Forall_map.
  eapply Forall_impl; [exact Hsix |].
  intros l Hl. unfold trend_of. cbn. by rewrite bool_decide_true.
Qed.

Lemma mapM_std_of usage :
  mapM_result std_of (map VList usage)
  = Ok (map (fun l => VFloat (Float64.std l)) usage).
Proof.
  rewrite <- (map_map VList (fun x => match x with
      | VList l => VFloat (Float64.std l) | v => v end)).
  apply mapM_result_total, Forall_map, Forall_forall. by intros l _.
Qed.

Lemma mapM_avg3_of usage :
  mapM_result avg3_of (map VList usage)
  = Ok (map (fun l => VFloat (Float64.mean (last3 l))) usage).
Proof.
  rewrite <- (map_map VList (fun x => match x with
      | VList l => VFloat (Float64.mean (last3 l)) | v => v end)).
  apply mapM_result_total, Forall_map, Forall_forall. by intros l _.
Qed.

Lemma with_usage_set_column n usage label col d :
  label <> "usage_last_6m" ->
  with_usage n usage d -> with_usage n usage (set_column label col d).
Proof.
  intros Hne [Hn Hc]. split; [done |]. by rewrite set_column_lookup_ne.
Qed.

Lemma gerar_features_uso_recente_triple self n churn :
  triple (on_heap (frame_at (df self) (with_churn n churn)))
    (gerar_features_uso_recente self)
    (fun s w =>
       s = self /\
       on_heap (frame_at (df self) (fun d =>
         exists usage,
           length usage = length churn /\ Forall six usage /\
           with_usage n usage d /\
           data d !! "avg_usage_last_3m"
           = Some (map (fun l => VFloat (Float64.mean (last3 l))) usage))) w)
    (no_exn (G := G) (FS := FS)).
Proof.
  unfold gerar_features_uso_recente. apply triple_wrapped.
  eapply triple_bind; [apply triple_logging_info |]. intros [].
  eapply triple_bind.
  { apply (triple_df_getitem _ _ churn). by intros d [_ ?]. }
  intros c. apply triple_pure; intros ->.
  eapply triple_bind.
  { apply (triple_series_apply _ _ six). intros v. apply triple_generate_usage_series. }
  intros usage. apply triple_pure; intros [Hlen Hsix].
  set (F := with_usage n usage).
  assert (forall d, F d -> data d !! "usage_last_6m" = Some (map VList usage)) as Husage
    by by intros d [_ ?].
  eapply triple_bind.
  { apply (triple_df_setitem _ _ _ _ F). intros d [Hn _].
    split; [done | apply set_column_lookup]. }
  intros [].
  (* trend_usage *)
  eapply triple_bind; [by apply triple_df_getitem |].
  intros usage1. apply triple_pure; intros ->.
  eapply triple_bind.
  { apply (triple_lift _ _ (fun _ => on_heap (frame_at (df self) F))).
    intros w Hw. by rewrite mapM_trend_of. }
  intros trend.
  eapply triple_bind.
  { apply (triple_df_setitem _ _ _ F F). intros d Hd. by apply with_usage_set_column. }
  intros [].
  (* std_usage *)
  eapply triple_bind; [by apply triple_df_getitem |].
  intros usage2. apply triple_pure; intros ->.
  eapply triple_bind.
  { apply (triple_lift _ _ (fun _ => on_heap (frame_at (df self) F))).
    intros w Hw. by rewrite mapM_std_of. }
  intros std.
  eapply triple_bind.
  { apply (triple_df_setitem _ _ _ F F). intros d Hd. by apply with_usage_set_column. }
  intros [].
  (* avg_usage_last_3m *)
  eapply triple_bind; [by apply triple_df_getitem |].
  intros usage3. apply triple_pure; intros ->.
  eapply triple_bind.
  { apply (triple_lift _ _ (fun avg w =>
       avg = map (fun l => VFloat (Float64.mean (last3 l))) usage
       /\ on_heap (frame_at (df self) F) w)).
    intros w Hw. by rewrite mapM_avg3_of. }
  intros avg. apply triple_pure; intros ->.
  eapply triple_bind.
  { apply (triple_df_setitem _ _ _ F (fun d =>
       exists usage,
         length usage = length churn /\ Forall six usage /\
         with_usage n usage d /\
         data d !! "avg_usage_last_3m"
         = Some (map (fun l => VFloat (Float64.mean (last3 l))) usage))).
    intros d Hd. exists usage. repeat split; try done.
    - by apply Hd.
    - rewrite set_column_lookup_ne by done. by apply Hd.
    - apply set_column_lookup. }
  intros [].
  eapply triple_bind; [apply triple_logging_info |]. intros [].
  by apply triple_ret.
Qed.

End UsoRecente.

(** A list of six elements, and its last three. *)
Lemma six_elements l :
  six l -> exists a b c x y z, l = [a; b; c; x; y; z] /\ last3 l = [x; y; z].
Proof.
  unfold six. intros Hl.
  destruct l as [|a [|b [|c [|x [|y [|z [|? ?]]]]]]]; try done.
  by exists a, b, c, x, y, z.
Qed.

(** [np.mean] of three ints: their float64 sum over 3. *)
Lemma mean_of_three x y z :
  Float64.mean [x; y; z]
  = ((0 + Float64.of_int x + Float64.of_int y + Float64.of_int z) / 3)%float.
Proof. reflexivity. Qed.

(** C4: after [gerar_features_uso_recente], in every row the
    [usage_last_6m] cell is a list of exactly 6 elements, and the row's
    [avg_usage_last_3m] is the mean of the last 3 elements of that list.
    (The step completes on any frame that has a [Churn] column.) *)
Theorem gerar_features_uso_recente_series {G FS} `{!Numpy G} `{!Disk FS}
    (w : World G FS) self d churn :
  heap w !! df self = Some d ->
  rectangular d ->
  data d !! "Churn" = Some churn ->
  exists w' d' usage avg,
    gerar_features_uso_recente self w = (Ok self, w') /\
    heap w' !! df self = Some d' /\
    nrows d' = nrows d /\
    data d' !! "usage_last_6m" = Some usage /\
    data d' !! "avg_usage_last_3m" = Some avg /\
    forall i, (i < nrows d)%nat ->
      exists a b c x y z,
        usage !! i = Some (VList [a; b; c; x; y; z]) /\
        avg !! i = Some (VFloat (Float64.mean [x; y; z])).
Proof.
  intros Hd Hrect Hchurn.
  pose proof (rectangular_lookup _ _ _ Hrect Hchurn) as Hlen.
  pose proof (gerar_features_uso_recente_triple self (nrows d) churn w) as Hrun.
  destruct (gerar_features_uso_recente self w) as [[s|e] w'].
  2: { exfalso. apply Hrun. exists d. by repeat split. }
  destruct Hrun as (-> & d' & Hd' & usage & Hlu & Hsix & [Hn Hu] & Havg).
  { exists d. by repeat split. }
  exists w', d', (map VList usage),
    (map (fun l => VFloat (Float64.mean (last3 l))) usage).
  repeat split; try done.
  intros i Hi.
  destruct (lookup_lt_is_Some_2 usage i) as [l Hl]; [lia |].
  destruct (six_elements l) as (a & b & c & x & y & z & -> & Hlast).
  { exact (Forall_lookup_1 _ _ _ _ Hsix Hl). }
  exists a, b, c, x, y, z. rewrite !list_lookup_map, Hl.
  split; [done | by rewrite <- Hlast].
Qed.

Lemma gerar_features_uso_recente_series_witness :
  exists w' d' usage avg,
    gerar_features_uso_recente Lab.self1 Lab.w_bits = (Ok Lab.self1, w') /\
    heap w' !! df Lab.self1 = Some d' /\
    nrows d' = nrows Lab.telco_bits /\
    data d' !! "usage_last_6m" = Some usage /\
    data d' !! "avg_usage_last_3m" = Some avg /\
    forall i, (i < nrows Lab.telco_bits)%nat ->
      exists a b c x y z,
        usage !! i = Some (VList [a; b; c; x; y; z]) /\
        avg !! i = Some (VFloat (Float64.mean [x; y; z])).
Proof.
  apply (gerar_features_uso_recente_series Lab.w_bits Lab.self1 Lab.telco_bits Lab.bits).
  - reflexivity.
  - apply (bool_decide_unpack _). vm_compute. reflexivity.
  - reflexivity.
Defined.

Example gerar_features_uso_recente_rows :
  let d' := heap (gerar_features_uso_recente Lab.self1 Lab.w_bits).2 !! 1%nat in
  (d' ≫= (fun d => data d !! "usage_last_6m"),
   d' ≫= (fun d => data d !! "avg_usage_last_3m"))
  = (Some [VList [10; 11; 12; 13; 14; 15];
           VList [16; 8; 7; 6; 5; 4];
           VList [15; 16; 10; 11; 12; 13];
           VList [14; 12; 11; 5; 4; 3];
           VList [13; 14; 15; 16; 10; 11]],
     Some [VFloat 14; VFloat 5; VFloat 12; VFloat 4; VFloat (37 / 3)]).
Proof. vm_compute. reflexivity. Qed.

(** Without a [Churn] column the step raises before it draws or stores
    anything. *)
Lemma gerar_features_uso_recente_no_churn {G FS} `{!Numpy G} `{!Disk FS}
    (w : World G FS) self d :
  heap w !! df self = Some d ->
  data d !! "Churn" = None ->
  exists w',
    gerar_features_uso_recente self w = (Raise (CustomException (KeyError "Churn")), w') /\
    heap w' = heap w /\ gen w' = gen w.
Proof.
  intros Hd Hnone. eexists.
  unfold gerar_features_uso_recente, df_getitem, logging_info, wrapped, getitem.
  unfold_monad. rewrite Hd, Hnone. cbn. done.
Qed.

(** ** What every enrichment step leaves alone

    A property [J] of the store that survives any update of the frame
    behind [self.df] holds after each step if it held before, whether the
    step returns or raises; and a step that returns, returns [self]. *)

Section Invariants.
Context {G FS : Type} `{!Numpy G} `{!Disk FS}.
Context (r : loc) (J : gmap loc DataFrame -> Prop).
Hypothesis J_stable : forall h d, J h -> J (<[r := d]> h).

Local Abbreviation I := (on_heap (G := G) (FS := FS) J).
Local Abbreviation E := (fun _ : exn => on_heap (G := G) (FS := FS) J).

Lemma inv_bind {A B} (m : M G FS A) (k : A -> M G FS B) Q :
  triple I m (fun _ => I) E ->
  (forall a, triple I (k a) Q E) ->
  triple I (bind m k) Q E.
Proof. intros Hm Hk. by eapply triple_bind. Qed.

Lemma inv_wrapped {A} (m : M G FS A) Q :
  triple I m Q E -> triple I (wrapped m) Q E.
Proof. intros Hm. by apply (triple_wrapped I m Q E). Qed.

Lemma inv_ret {A} (a : A) : triple I (ret a) (fun _ => I) E.
Proof. by apply triple_ret. Qed.

Lemma inv_lift {A} (res : Result A) : triple I (lift res) (fun _ => I) E.
Proof. apply triple_lift. intros w Hw. by destruct res. Qed.

Lemma inv_logging_info msg : triple I (logging_info msg) (fun _ => I) E.
Proof. by apply triple_emit. Qed.

Lemma inv_deref r' : triple I (deref r') (fun _ => I) E.
Proof. apply triple_deref. intros w Hw. by destruct (heap w !! r'). Qed.

Lemma inv_store d : triple I (store r d) (fun _ => I) E.
Proof. apply triple_store. intros w Hw. by apply J_stable. Qed.

Lemma inv_poisson lam size : triple I (np_random_poisson lam size) (fun _ => I) E.
Proof.
  intros w Hw. unfold np_random_poisson.
  by destruct (poisson lam size (gen w)) as [xs g].
Qed.

Lemma inv_randint low high size :
  triple I (np_random_randint low high size) (fun _ => I) E.
Proof.
  intros w Hw. unfold np_random_randint.
  by destruct (randint low high size (gen w)) as [xs g].
Qed.

Lemma inv_df_getitem self label : triple I (df_getitem self label) (fun _ => I) E.
Proof.
  unfold df_getitem. apply inv_bind; [apply inv_deref |]. intros d. apply inv_lift.
Qed.

Lemma inv_df_len self : triple I (df_len self) (fun _ => I) E.
Proof.
  unfold df_len. apply inv_bind; [apply inv_deref |]. intros d. apply inv_ret.
Qed.

Lemma inv_df_setitem self label col :
  df self = r -> triple I (df_setitem self label col) (fun _ => I) E.
Proof.
  intros Hself. unfold df_setitem. rewrite Hself.
  apply inv_bind; [apply inv_deref |]. intros d. apply inv_store.
Qed.

Lemma inv_df_setitem_array self label arr :
  df self = r -> triple I (df_setitem_array self label arr) (fun _ => I) E.
Proof.
  intros Hself. unfold df_setitem_array. rewrite Hself.
  apply inv_bind; [apply inv_deref |]. intros d.
  apply inv_bind; [apply inv_lift |]. intros d'. apply inv_store.
Qed.

Lemma inv_where_churn self (x y : nat -> M G FS (list Z)) :
  (forall k, triple I (x k) (fun _ => I) E) ->
  (forall k, triple I (y k) (fun _ => I) E) ->
  triple I (where_churn self x y) (fun _ => I) E.
Proof.
  intros Hx Hy. unfold where_churn.
  apply inv_bind; [apply inv_df_getitem |]. intros churn.
  apply inv_bind; [apply inv_df_len |]. intros n1.
  apply inv_bind; [apply Hx |]. intros xs.
  apply inv_bind; [apply inv_df_len |]. intros n2.
  apply inv_bind; [apply Hy |]. intros ys.
  apply inv_ret.
Qed.

Lemma inv_series_apply {A} (f : value -> M G FS A) col :
  (forall v, triple I (f v) (fun _ => I) E) ->
  triple I (series_apply f col) (fun _ => I) E.
Proof.
  intros Hf. induction col as [|v col IH]; cbn [series_apply].
  - apply inv_ret.
  - apply inv_bind; [apply Hf |]. intros a.
    apply inv_bind; [apply IH |]. intros rest. apply inv_ret.
Qed.

Lemma inv_generate_usage_series churned :
  triple I (_generate_usage_series churned) (fun _ => I) E.
Proof.
  unfold _generate_usage_series.
  apply inv_bind; [apply inv_poisson |]. intros base. apply inv_ret.
Qed.

(** One step of a proof that a method keeps [I]: the next operation of the
    method is matched with its lemma. *)
Ltac inv_step Hself :=
  first
    [ apply inv_logging_info
    | apply inv_df_getitem
    | apply inv_df_len
    | apply inv_lift
    | apply (inv_df_setitem _ _ _ Hself)
    | apply (inv_df_setitem_array _ _ _ Hself)
    | apply inv_where_churn; intros ?
    | apply inv_poisson
    | apply inv_randint
    | apply inv_series_apply; intros ?
    | apply inv_generate_usage_series
    | apply triple_ret; intros ? ?; by split
    | apply inv_bind; [| intros ?] ].

Lemma inv_preparar_coluna_churn self :
  df self = r ->
  triple I (preparar_coluna_churn self) (fun s w => s = self /\ I w) E.
Proof.
  intros Hself. unfold preparar_coluna_churn. apply inv_wrapped.
  repeat inv_step Hself.
Qed.

Lemma inv_gerar_features_interacao self :
  df self = r ->
  triple I (gerar_features_interacao self) (fun s w => s = self /\ I w) E.
Proof.
  intros Hself. unfold gerar_features_interacao. apply inv_wrapped.
  repeat inv_step Hself.
Qed.

Lemma inv_gerar_features_uso_recente self :
  df self = r ->
  triple I (gerar_features_uso_recente self) (fun s w => s = self /\ I w) E.
Proof.
  intros Hself. unfold gerar_features_uso_recente. apply inv_wrapped.
  repeat inv_step Hself.
Qed.

Lemma inv_aplicar_enriquecimento_padrao self :
  df self = r ->
  triple I (aplicar_enriquecimento_padrao self) (fun s w => s = self /\ I w) E.
Proof.
  intros Hself. unfold aplicar_enriquecimento_padrao.
  apply inv_bind; [apply inv_logging_info |]. intros [].
  eapply triple_bind; [by apply inv_preparar_coluna_churn |].
  intros self1. apply triple_pure; intros ->.
  eapply triple_bind; [by apply inv_gerar_features_interacao |].
  intros self2. apply triple_pure; intros ->.
  eapply triple_bind; [by apply inv_gerar_features_uso_recente |].
  intros self3. apply triple_pure; intros ->.
  apply inv_bind; [apply inv_logging_info |]. intros [].
  apply triple_ret. by intros w Hw.
Qed.

End Invariants.

(** ** The constructor copies *)

Section Constructor.
Context {G FS : Type} `{!Numpy G} `{!Disk FS}.

(** The object built from the frame behind [r0]: [self.df] is a reference
    that was not in use, and the frame behind it is equal to the caller's. *)
Lemma init_run (w : World G FS) c r0 d0 :
  heap w !! r0 = Some d0 ->
  exists self w1,
    __init__ c (PFrame r0) w = (Ok self, w1) /\
    klass self = c /\
    df self = fresh (dom (heap w)) /\
    heap w1 = <[df self := d0]> (heap w) /\
    gen w1 = gen w /\ disk w1 = disk w.
Proof.
  intros Hr0. unfold __init__, logging_info. unfold_monad. rewrite Hr0.
  destruct c; cbn; eexists _, _; by repeat split.
Qed.

Lemma fresh_not_in_use (h : gmap loc DataFrame) r d :
  h !! r = Some d -> fresh (dom h) <> r.
Proof.
  intros Hr Heq. apply (is_fresh (dom h)). rewrite Heq.
  apply elem_of_dom. by exists d.
Qed.

Lemma run_step_keeps (r : loc) (J : gmap loc DataFrame -> Prop) s self :
  (forall h d, J h -> J (<[r := d]> h)) ->
  df self = r ->
  triple (on_heap J) (run_step s self)
    (fun s' w => s' = self /\ on_heap J w) (fun _ => on_heap (G := G) (FS := FS) J).
Proof.
  intros HJ Hself. destruct s; cbn [run_step].
  - by apply (inv_preparar_coluna_churn r J).
  - by apply (inv_gerar_features_interacao r J).
  - by apply (inv_gerar_features_uso_recente r J).
  - by apply (inv_aplicar_enriquecimento_padrao r J).
Qed.

Lemma run_steps_keeps (r : loc) (J : gmap loc DataFrame -> Prop) steps self :
  (forall h d, J h -> J (<[r := d]> h)) ->
  df self = r ->
  triple (on_heap J) (run_steps steps self)
    (fun _ => on_heap J) (fun _ => on_heap (G := G) (FS := FS) J).
Proof.
  intros HJ Hself. induction steps as [|s steps IH]; cbn [run_steps].
  - by apply triple_ret.
  - apply (triple_bind _ _ _ (fun _ => on_heap J)); [| intros []; apply IH].
    apply (triple_try_except _ _ _ _ (fun _ => on_heap J)).
    + eapply triple_bind; [by apply (run_step_keeps r J) |].
      intros s'. cbn beta. apply triple_ret. by intros w [_ Hw].
    + intros e. by apply triple_ret.
Qed.

End Constructor.

(** C9: the constructor stores a copy of the caller's frame, and no
    sequence of enrichment calls on the pipeline object changes the
    caller's frame: after the calls, whether they returned or raised, the
    frame behind the caller's reference is the one that was there. *)
Theorem caller_frame_unchanged {G FS} `{!Numpy G} `{!Disk FS}
    (w : World G FS) r0 d0 (steps : list step) :
  heap w !! r0 = Some d0 ->
  exists self w1,
    __init__ EnriquecimentoDatasetTelco (PFrame r0) w = (Ok self, w1) /\
    df self <> r0 /\
    heap w1 !! df self = Some d0 /\
    heap w1 !! r0 = Some d0 /\
    heap (run_steps steps self w1).2 !! r0 = Some d0.
Proof.
  intros Hr0.
  destruct (init_run w EnriquecimentoDatasetTelco r0 d0 Hr0)
    as (self & w1 & Hinit & _ & Hdf & Hheap & _).
  assert (df self <> r0) as Hne by (rewrite Hdf; by eapply fresh_not_in_use).
  assert (heap w1 !! r0 = Some d0) as Hkept by by rewrite Hheap, lookup_insert_ne.
  exists self, w1. repeat split; try done.
  { by rewrite Hheap, lookup_insert_eq. }
  pose proof (run_steps_keeps (G := G) (FS := FS) (df self)
                (fun h => h !! r0 = Some d0) steps self) as Hrun.
  specialize (Hrun (fun h d Hh => eq_trans (lookup_insert_ne h _ _ d Hne) Hh) eq_refl w1 Hkept).
  by destruct (run_steps steps self w1) as [[[]|e] w2].
Qed.

Lemma caller_frame_unchanged_witness :
  exists self w1,
    __init__ EnriquecimentoDatasetTelco (PFrame 0%nat) Lab.w0 = (Ok self, w1) /\
    df self <> 0%nat /\
    heap w1 !! df self = Some Lab.telco /\
    heap w1 !! 0%nat = Some Lab.telco /\
    heap (run_steps [AplicarEnriquecimentoPadrao; PrepararColunaChurn;
                     GerarFeaturesUsoRecente] self w1).2 !! 0%nat
    = Some Lab.telco.
Proof.
  apply (caller_frame_unchanged Lab.w0 0%nat Lab.telco).
  reflexivity.
Defined.

(** ** The shape of the frame

    [shape n] holds of a frame of [n] rows in which every column has [n]
    cells.  Each step keeps it, also when it raises on the way. *)

Section Shape.
Context {G FS : Type} `{!Numpy G} `{!Disk FS}.
Context (self : Pipeline) (n : nat).

Local Abbreviation shape := (shape n).
Local Abbreviation I := (on_heap (G := G) (FS := FS) (frame_at (df self) shape)).
Local Abbreviation E := (fun _ : exn => I).

Lemma shape_set_column label col d :
  length col = n -> shape d -> shape (set_column label col d).
Proof.
  intros Hlen [Hn Hrect]. split; [done |].
  apply set_column_rectangular; [done | congruence].
Qed.

Lemma shape_df_getitem label :
  triple I (df_getitem self label) (fun c w => length c = n /\ I w) E.
Proof.
  intros w (d & Hd & Hn & Hrect). unfold df_getitem, getitem. unfold_monad.
  rewrite Hd. destruct (data d !! label) as [c|] eqn:Hc.
  - split; [rewrite <- Hn; by eapply rectangular_lookup | by exists d].
  - by exists d.
Qed.

Lemma shape_df_setitem label col :
  length col = n -> triple I (df_setitem self label col) (fun _ => I) E.
Proof.
  intros Hlen. apply triple_df_setitem. intros d. by apply shape_set_column.
Qed.

Lemma shape_df_setitem_array label arr :
  triple I (df_setitem_array self label arr) (fun _ => I) E.
Proof.
  intros w (d & Hd & Hshape). unfold df_setitem_array, setitem_array. unfold_monad.
  rewrite Hd. case_bool_decide as Hlen; cbn.
  - exists (set_column label arr d). split; [cbn; apply lookup_insert_eq |].
    apply shape_set_column; [| done]. destruct Hshape. congruence.
  - by exists d.
Qed.

Lemma shape_where_churn (x y : nat -> M G FS (list Z)) :
  (forall k, triple I (x k) (fun _ => I) E) ->
  (forall k, triple I (y k) (fun _ => I) E) ->
  triple I (where_churn self x y) (fun _ => I) E.
Proof.
  intros Hx Hy. unfold where_churn, df_len.
  eapply triple_bind; [apply shape_df_getitem |].
  intros churn. apply triple_pure; intros _.
  apply (triple_bind _ _ _ (fun _ => I)).
  { apply (triple_bind _ _ _ (fun _ => I)); [| intros d; by apply triple_ret].
    apply triple_deref. intros w Hw. by destruct (heap w !! df self). }
  intros n1. apply (triple_bind _ _ _ (fun _ => I)); [apply Hx |].
  intros xs. apply (triple_bind _ _ _ (fun _ => I)).
  { apply (triple_bind _ _ _ (fun _ => I)); [| intros d; by apply triple_ret].
    apply triple_deref. intros w Hw. by destruct (heap w !! df self). }
  intros n2. apply (triple_bind _ _ _ (fun _ => I)); [apply Hy |].
  intros ys. by apply triple_ret.
Qed.

Lemma shape_poisson lam size :
  triple I (np_random_poisson lam size) (fun _ => I) E.
Proof.
  intros w Hw. unfold np_random_poisson.
  by destruct (poisson lam size (gen w)) as [xs g].
Qed.

Lemma shape_randint low high size :
  triple I (np_random_randint low high size) (fun _ => I) E.
Proof.
  intros w Hw. unfold np_random_randint.
  by destruct (randint low high size (gen w)) as [xs g].
Qed.

Lemma shape_logging_info msg : triple I (logging_info msg) (fun _ => I) E.
Proof. by apply triple_emit. Qed.

(** A cell-wise function applied to a column gives a column as long, or
    raises. *)
Lemma shape_mapM_result (f : value -> Result value) col :
  length col = n ->
  triple I (lift (mapM_result f col)) (fun c w => length c = n /\ I w) E.
Proof.
  intros Hlen. apply triple_lift. intros w Hw.
  destruct (mapM_result f col) as [c|e] eqn:Hc; [|done].
  split; [|done]. rewrite <- Hlen. by eapply mapM_result_length.
Qed.

Lemma shape_preparar_coluna_churn :
  triple I (preparar_coluna_churn self) (fun s w => s = self /\ I w) E.
Proof.
  unfold preparar_coluna_churn. apply (triple_wrapped I _ _ E).
  apply (triple_bind _ _ _ (fun _ => I)); [apply shape_logging_info |]. intros [].
  eapply triple_bind; [apply shape_df_getitem |].
  intros churn. apply triple_pure; intros Hlen.
  apply (triple_bind _ _ _ (fun mapped w => length mapped = n /\ I w)).
  { apply triple_lift. intros w Hw.
    destruct (series_map yes_no churn) as [mapped|e] eqn:Hmap; [|done].
    split; [|done]. rewrite <- Hlen. by eapply series_map_length. }
  intros mapped. apply triple_pure; intros Hlen'.
  apply (triple_bind _ _ _ (fun _ => I)); [by apply shape_df_setitem |]. intros [].
  by apply triple_ret.
Qed.

Lemma shape_gerar_features_interacao :
  triple I (gerar_features_interacao self) (fun s w => s = self /\ I w) E.
Proof.
  unfold gerar_features_interacao. apply (triple_wrapped I _ _ E).
  repeat first
    [ apply triple_ret; intros ? ?; by split
    | apply (triple_bind _ _ _ (fun _ => I));
        [ first [ apply shape_logging_info
                | apply shape_df_setitem_array
                | apply shape_where_churn; intros ?;
                    first [apply shape_poisson | apply shape_randint] ]
        | intros ? ] ].
Qed.

(** One derived column: [self.df[label] = self.df['usage_last_6m'].apply(f)]. *)
Ltac shape_derived_column :=
  eapply triple_bind; [apply shape_df_getitem |];
  intros ?usage; apply triple_pure; intros ?Hlen;
  eapply triple_bind; [by apply shape_mapM_result |];
  intros ?col; apply triple_pure; intros ?Hlen;
  apply (triple_bind _ _ _ (fun _ => I)); [by apply shape_df_setitem |];
  intros [].

Lemma shape_gerar_features_uso_recente :
  triple I (gerar_features_uso_recente self) (fun s w => s = self /\ I w) E.
Proof.
  unfold gerar_features_uso_recente. apply (triple_wrapped I _ _ E).
  apply (triple_bind _ _ _ (fun _ => I)); [apply shape_logging_info |]. intros [].
  eapply triple_bind; [apply shape_df_getitem |].
  intros churn. apply triple_pure; intros Hlen.
  eapply triple_bind.
  { apply (triple_series_apply (frame_at (df self) shape) _ (fun _ => True)). intros v.
    apply (triple_conseq _ _ _ _ _ _ _
             (triple_generate_usage_series (frame_at (df self) shape) v E)).
    - by intros w Hw.
    - by intros l w [_ Hw].
    - by intros e w Hw. }
  intros usage. apply triple_pure; intros [Hlen' _].
  apply (triple_bind _ _ _ (fun _ => I)).
  { apply shape_df_setitem. rewrite length_map. congruence. }
  intros [].
  do 3 shape_derived_column.
  apply (triple_bind _ _ _ (fun _ => I)); [apply shape_logging_info |]. intros [].
  by apply triple_ret.
Qed.

End Shape.

Lemma shape_aplicar_enriquecimento_padrao {G FS} `{!Numpy G} `{!Disk FS} self n :
  triple (on_heap (G := G) (FS := FS) (frame_at (df self) (shape n)))
    (aplicar_enriquecimento_padrao self)
    (fun s w => s = self /\ on_heap (frame_at (df self) (shape n)) w)
    (fun _ => on_heap (frame_at (df self) (shape n))).
Proof.
  set (I := on_heap (frame_at (df self) (shape n))).
  unfold aplicar_enriquecimento_padrao.
  apply (triple_bind _ _ _ (fun _ => I)); [apply shape_logging_info |]. intros [].
  eapply triple_bind; [apply shape_preparar_coluna_churn |].
  intros self1. apply triple_pure; intros ->.
  eapply triple_bind; [apply shape_gerar_features_interacao |].
  intros self2. apply triple_pure; intros ->.
  eapply triple_bind; [apply shape_gerar_features_uso_recente |].
  intros self3. apply triple_pure; intros ->.
  apply (triple_bind _ _ _ (fun _ => I)); [apply shape_logging_info |]. intros [].
  by apply triple_ret.
Qed.

Lemma shape_run_step {G FS} `{!Numpy G} `{!Disk FS} s self n :
  triple (on_heap (G := G) (FS := FS) (frame_at (df self) (shape n)))
    (run_step s self)
    (fun s' w => s' = self /\ on_heap (frame_at (df self) (shape n)) w)
    (fun _ => on_heap (frame_at (df self) (shape n))).
Proof.
  destruct s; cbn [run_step].
  - apply shape_preparar_coluna_churn.
  - apply shape_gerar_features_interacao.
  - apply shape_gerar_features_uso_recente.
  - apply shape_aplicar_enriquecimento_padrao.
Qed.

(** C7: each enrichment step ([preparar_coluna_churn],
    [gerar_features_interacao], [gerar_features_uso_recente],
    [aplicar_enriquecimento_padrao]) keeps the number of rows of the frame,
    and after the step every column of the frame, those that were there
    and those the step added, has that number of cells. *)
Theorem enrichment_keeps_row_count {G FS} `{!Numpy G} `{!Disk FS}
    (w : World G FS) s self d :
  heap w !! df self = Some d ->
  rectangular d ->
  exists d',
    heap (run_step s self w).2 !! df self = Some d' /\
    nrows d' = nrows d /\
    rectangular d'.
Proof.
  intros Hd Hrect.
  pose proof (shape_run_step s self (nrows d) w) as Hrun.
  assert (on_heap (frame_at (df self) (shape (nrows d))) w) as Hw
    by (exists d; by repeat split).
  specialize (Hrun Hw).
  destruct (run_step s self w) as [[s'|e] w']; cbn.
  - destruct Hrun as (_ & d' & Hd' & Hn & Hrect'). by exists d'.
  - destruct Hrun as (d' & Hd' & Hn & Hrect'). by exists d'.
Qed.

Lemma enrichment_keeps_row_count_witness :
  exists d',
    heap (run_step AplicarEnriquecimentoPadrao Lab.self1 Lab.w1).2 !! df Lab.self1 = Some d' /\
    nrows d' = nrows Lab.telco /\
    rectangular d'.
Proof.
  apply (enrichment_keeps_row_count Lab.w1 AplicarEnriquecimentoPadrao Lab.self1 Lab.telco).
  - reflexivity.
  - apply (bool_decide_unpack _). vm_compute. reflexivity.
Defined.

Example aplicar_enriquecimento_padrao_columns :
  (heap (aplicar_enriquecimento_padrao Lab.self1 Lab.w1).2 !! 1%nat)
    ≫= (fun d => Some (nrows d, labels d, map_to_list (length <$> data d)))
  = Some (5%nat,
          ["customerID"; "Churn"; "num_logins_last_30d"; "support_tickets_last_90d";
           "last_interaction_days_ago"; "usage_last_6m"; "trend_usage"; "std_usage";
           "avg_usage_last_3m"],
          [("support_tickets_last_90d", 5%nat); ("std_usage", 5%nat);
           ("customerID", 5%nat); ("Churn", 5%nat); ("usage_last_6m", 5%nat);
           ("avg_usage_last_3m", 5%nat); ("num_logins_last_30d", 5%nat);
           ("last_interaction_days_ago", 5%nat); ("trend_usage", 5%nat)]).
Proof. vm_compute. reflexivity. Qed.

(** ** The log is only written

    Two worlds with the same store, generator and disk differ by their
    logs only.  No method reads the log: run from two such worlds, a method
    returns the same value or raises the same exception, and leaves two
    such worlds. *)

Section LogBlind.
Context {G FS : Type} `{!Numpy G} `{!Disk FS}.

Local Abbreviation log_blind := (@log_blind G FS _).

Local Abbreviation World := (World G FS).
Local Abbreviation M := (M G FS).

Lemma log_blind_ret {A} (a : A) : log_blind (ret a).
Proof. by intros w1 w2 Hs. Qed.

Lemma log_blind_raise {A} e : log_blind (raise (A := A) e).
Proof. by intros w1 w2 Hs. Qed.

Lemma log_blind_lift {A} (res : Result A) : log_blind (lift res).
Proof. by intros w1 w2 Hs. Qed.

Lemma log_blind_emit ev : log_blind (emit ev).
Proof. by intros w1 w2 Hs. Qed.

Lemma log_blind_logging_info msg : log_blind (logging_info msg).
Proof. apply log_blind_emit. Qed.

Lemma log_blind_deref r : log_blind (deref r).
Proof.
  intros w1 w2 (Hh & Hg & Hd). unfold deref. rewrite Hh.
  by destruct (heap w2 !! r).
Qed.

Lemma log_blind_store r d : log_blind (store r d).
Proof.
  intros w1 w2 (Hh & Hg & Hd). unfold store, same_state. cbn. by rewrite Hh.
Qed.

Lemma log_blind_bind {A B} (m : M A) (k : A -> M B) :
  log_blind m -> (forall a, log_blind (k a)) -> log_blind (bind m k).
Proof.
  intros Hm Hk w1 w2 Hs. unfold bind.
  destruct (Hm w1 w2 Hs) as [Hres Hs'].
  destruct (m w1) as [[a1|e1] w1'], (m w2) as [[a2|e2] w2']; cbn in *; try done.
  - injection Hres as ->. by apply Hk.
  - by injection Hres as ->.
Qed.

Lemma log_blind_try_except {A} (m : M A) handler :
  log_blind m -> (forall e, log_blind (handler e)) -> log_blind (try_except m handler).
Proof.
  intros Hm Hh w1 w2 Hs. unfold try_except.
  destruct (Hm w1 w2 Hs) as [Hres Hs'].
  destruct (m w1) as [[a1|e1] w1'], (m w2) as [[a2|e2] w2']; cbn in *; try done.
  injection Hres as ->. by apply Hh.
Qed.

Lemma log_blind_wrapped {A} (m : M A) : log_blind m -> log_blind (wrapped m).
Proof.
  intros Hm. apply log_blind_try_except; [done |]. intros e. apply log_blind_raise.
Qed.

Lemma log_blind_poisson lam size : log_blind (np_random_poisson lam size).
Proof.
  intros w1 w2 (Hh & Hg & Hd). unfold np_random_poisson. rewrite Hg.
  by destruct (poisson lam size (gen w2)).
Qed.

Lemma log_blind_randint low high size : log_blind (np_random_randint low high size).
Proof.
  intros w1 w2 (Hh & Hg & Hd). unfold np_random_randint. rewrite Hg.
  by destruct (randint low high size (gen w2)).
Qed.

Lemma log_blind_series_apply {A} (f : value -> M A) col :
  (forall v, log_blind (f v)) -> log_blind (series_apply f col).
Proof.
  intros Hf. induction col as [|v col IH]; cbn [series_apply].
  - apply log_blind_ret.
  - apply log_blind_bind; [apply Hf |]. intros a.
    apply log_blind_bind; [apply IH |]. intros rest. apply log_blind_ret.
Qed.

(** The methods are built from the operations above. *)
Ltac log_blind_step :=
  first
    [ apply log_blind_ret
    | apply log_blind_lift
    | apply log_blind_logging_info
    | apply log_blind_deref
    | apply log_blind_store
    | apply log_blind_poisson
    | apply log_blind_randint
    | apply log_blind_wrapped
    | apply log_blind_series_apply; intros ?
    | apply log_blind_bind; [| intros ?] ].

Lemma log_blind_preparar_coluna_churn self : log_blind (preparar_coluna_churn self).
Proof.
  unfold preparar_coluna_churn, df_getitem, df_setitem. repeat log_blind_step.
Qed.

Lemma log_blind_gerar_features_interacao self :
  log_blind (gerar_features_interacao self).
Proof.
  unfold gerar_features_interacao, where_churn, df_getitem, df_setitem_array, df_len.
  repeat log_blind_step.
Qed.

Lemma log_blind_gerar_features_uso_recente self :
  log_blind (gerar_features_uso_recente self).
Proof.
  unfold gerar_features_uso_recente, _generate_usage_series, df_getitem, df_setitem.
  repeat log_blind_step.
Qed.

Lemma log_blind_passos_em_sequencia self : log_blind (passos_em_sequencia self).
Proof.
  unfold passos_em_sequencia.
  apply log_blind_bind; [apply log_blind_preparar_coluna_churn |]. intros _.
  apply log_blind_bind; [apply log_blind_gerar_features_interacao |]. intros _.
  apply log_blind_bind; [apply log_blind_gerar_features_uso_recente |]. intros _.
  apply log_blind_ret.
Qed.

(** A step that returns, returns the object it was called on. *)
Lemma run_step_returns_self s self (w : World) a w' :
  run_step s self w = (Ok a, w') -> a = self.
Proof.
  intros Hrun.
  pose proof (run_step_keeps (G := G) (FS := FS) (df self) (fun _ => True) s self
                (fun _ _ _ => Logic.I) eq_refl w Logic.I) as Hs.
  rewrite Hrun in Hs. by destruct Hs.
Qed.

(** [aplicar_enriquecimento_padrao] is its opening log line, the three
    steps on [self], and, if none raised, its closing log line. *)
Lemma aplicar_enriquecimento_padrao_run self (w : World) :
  let w1 := mkWorld (heap w) (gen w) (disk w)
              (out w ++ [Log "Aplicando fluxo de enriquecimento padrão para Telco Churn..."]) in
  aplicar_enriquecimento_padrao self w
  = match passos_em_sequencia self w1 with
    | (Ok _, w') =>
        (Ok self, mkWorld (heap w') (gen w') (disk w')
                    (out w' ++ [Log "Fluxo de enriquecimento concluído."]))
    | (Raise e, w') => (Raise e, w')
    end.
Proof.
  intros w1. unfold aplicar_enriquecimento_padrao, passos_em_sequencia, logging_info.
  unfold bind at 1. unfold emit at 1. fold w1.
  unfold bind at 1 5.
  destruct (preparar_coluna_churn self w1) as [[a1|e1] w2] eqn:H1; [|done].
  apply (run_step_returns_self PrepararColunaChurn) in H1 as ->.
  unfold bind at 1 4.
  destruct (gerar_features_interacao self w2) as [[a2|e2] w3] eqn:H2; [|done].
  apply (run_step_returns_self GerarFeaturesInteracao) in H2 as ->.
  unfold bind at 1 3.
  by destruct (gerar_features_uso_recente self w3) as [[a3|e3] w4] eqn:H3.
Qed.

End LogBlind.

(** C6: from the same frame and the same state of the generator,
    [aplicar_enriquecimento_padrao] leaves the frame (and the generator)
    that the calls [preparar_coluna_churn], [gerar_features_interacao],
    [gerar_features_uso_recente], made one after the other in that order,
    leave; it returns the object it was called on when they return, and
    raises what they raise. *)
Theorem aplicar_enriquecimento_padrao_is_sequence {G FS} `{!Numpy G} `{!Disk FS}
    (w : World G FS) self :
  let r1 := aplicar_enriquecimento_padrao self w in
  let r2 := passos_em_sequencia self w in
  heap r1.2 = heap r2.2 /\
  gen r1.2 = gen r2.2 /\
  disk r1.2 = disk r2.2 /\
  match r2.1 with
  | Ok _ => r1.1 = Ok self
  | Raise e => r1.1 = Raise e
  end.
Proof.
  cbn zeta. rewrite aplicar_enriquecimento_padrao_run.
  set (w1 := mkWorld _ _ _ _).
  destruct (log_blind_passos_em_sequencia self w1 w) as [Hres (Hh & Hg & Hd)]; [done |].
  destruct (passos_em_sequencia self w1) as [[[]|e1] w1'],
           (passos_em_sequencia self w) as [[[]|e2] w'];
    cbn in *; try done.
  by injection Hres as ->.
Qed.

Example aplicar_enriquecimento_padrao_same_frame :
  heap (aplicar_enriquecimento_padrao Lab.self1 Lab.w1).2
  = heap (passos_em_sequencia Lab.self1 Lab.w1).2.
Proof. vm_compute. reflexivity. Qed.

(** ** Loading and saving by extension *)

Section Formats.
Context {G FS : Type} `{!Numpy G} `{!Disk FS}.

Local Abbreviation World := (World G FS).

(** [from_file] on an extension without a reader. *)
Lemma from_file_unsupported (w : World) c caminho_arquivo :
  let extensao := Path.lower (Path.splitext caminho_arquivo).2 in
  _estrategia_leitura !! extensao = None ->
  from_file c caminho_arquivo w
  = (Raise (ValueError ("Formato de arquivo '" ++ extensao ++ "' não é suportado.")),
     mkWorld (heap w) (gen w) (disk w)
       (out w ++
        [Log ("Iniciando a criação do dataset a partir do arquivo " ++ caminho_arquivo);
         Print ("ERRO: Nenhuma estratégia de leitura encontrada para a extensão '"
                  ++ extensao ++ "'.")])).
Proof.
  intros extensao Hnone.
  unfold from_file, dict_getitem, logging_info, print. fold extensao.
  unfold_monad. rewrite Hnone. cbn. by rewrite <- app_assoc.
Qed.

(** [salvar] on an extension without a writer, for a path without a parent
    directory. *)
Lemma salvar_unsupported_bare (w : World) self caminho_saida :
  let extensao := (Path.splitext caminho_saida).2 in
  _estrategias_salvamento !! Path.lower extensao = None ->
  Path.dirname caminho_saida = EmptyString ->
  salvar self caminho_saida w
  = (Raise (salvar_unsupported_msg extensao),
     mkWorld (heap w) (gen w) (disk w) (out w ++ [salvar_unsupported_print extensao])).
Proof.
  intros extensao Hnone Hdir.
  unfold salvar, dict_getitem, print. fold extensao. rewrite Hdir.
  unfold_monad. by rewrite Hnone.
Qed.

(** [salvar] on an extension without a writer, for a path with a parent
    directory: the directory is created first. *)
Lemma salvar_unsupported_nested (w : World) self caminho_saida :
  let extensao := (Path.splitext caminho_saida).2 in
  let diretorio_pai := Path.dirname caminho_saida in
  _estrategias_salvamento !! Path.lower extensao = None ->
  diretorio_pai <> EmptyString ->
  salvar self caminho_saida w
  = match os_makedirs diretorio_pai (disk w) with
    | (Ok _, fs) =>
        (Raise (salvar_unsupported_msg extensao),
         mkWorld (heap w) (gen w) fs
           (out w ++ [Makedirs diretorio_pai;
                      Log ("Diretório '" ++ diretorio_pai ++ "' verificado/criado.");
                      salvar_unsupported_print extensao]))
    | (Raise e, fs) =>
        (Raise e, mkWorld (heap w) (gen w) fs (out w ++ [Makedirs diretorio_pai]))
    end.
Proof.
  intros extensao diretorio_pai Hnone Hdir.
  unfold salvar, makedirs, dict_getitem, print, logging_info.
  fold extensao diretorio_pai.
  assert (String.eqb diretorio_pai EmptyString = false) as -> by by apply String.eqb_neq.
  unfold_monad.
  destruct (os_makedirs diretorio_pai (disk w)) as [[[]|e] fs]; cbn; [|done].
  rewrite Hnone. cbn. by rewrite <- !app_assoc.
Qed.

End Formats.

Section Loading.
Context {G FS : Type} `{!Numpy G} `{!Disk FS}.

(** [from_file] on an extension with a reader, for a file that reads: the
    frame read is a new object, and [self.df] is a copy of it. *)
Lemma from_file_loaded (w : World G FS) c caminho_arquivo leitor sheet :
  _estrategia_leitura !! Path.lower (Path.splitext caminho_arquivo).2 = Some leitor ->
  pd_read leitor caminho_arquivo (disk w) = Ok sheet ->
  exists obj w',
    from_file c caminho_arquivo w = (Ok obj, w') /\
    klass obj = c /\
    heap w' !! df obj = Some sheet /\
    gen w' = gen w /\ disk w' = disk w /\
    exists evs, out w' = (out w ++ evs)%list /\
                filter (fun ev => is_file_io ev = true) evs = [ReadFile leitor caminho_arquivo].
Proof.
  intros Hleitor Hread.
  unfold from_file, dict_getitem, ler, pd_read_file, wrapped, __init__, logging_info.
  rewrite Hleitor. unfold_monad. rewrite Hread. cbn.
  rewrite lookup_insert_eq. cbn.
  destruct c; cbn; eexists _, _; (split; [done |]); cbn;
    rewrite lookup_insert_eq, <- !app_assoc; cbn; repeat split; eexists; by split.
Qed.

End Loading.

Lemma leitura_xlsx : _estrategia_leitura !! ".xlsx" = Some LeitorXLSXStrategy.
Proof. reflexivity. Qed.

Lemma salvamento_xlsx : _estrategias_salvamento !! ".xlsx" = None.
Proof. reflexivity. Qed.

Example leitura_csv : _estrategia_leitura !! ".csv" = Some LeitorCSVStrategy.
Proof. reflexivity. Qed.

Example leitura_parquet : _estrategia_leitura !! ".parquet" = Some LeitorParquetStrategy.
Proof. reflexivity. Qed.

Example salvamento_csv : _estrategias_salvamento !! ".csv" = Some SalvadorCSVStrategy.
Proof. reflexivity. Qed.

Example salvamento_parquet :
  _estrategias_salvamento !! ".parquet" = Some SalvadorParquetStrategy.
Proof. reflexivity. Qed.

(** C1, as the code has it: on a path whose lower-cased extension has no
    registered strategy, [from_file] raises the [ValueError] without reading
    a file or creating anything, and [salvar] reads and writes no file; on
    a path without a parent directory [salvar] raises the [ValueError] and
    creates nothing, and on a path with one it first calls [os.makedirs] on
    that directory, and raises the [ValueError] once the call has returned. *)
Theorem unknown_extension_fails {G FS} `{!Numpy G} `{!Disk FS}
    (w : World G FS) c self caminho :
  let extensao := Path.lower (Path.splitext caminho).2 in
  let diretorio_pai := Path.dirname caminho in
  (_estrategia_leitura !! extensao = None ->
   exists msg w',
     from_file c caminho w = (Raise (ValueError msg), w') /\
     heap w' = heap w /\ quiet w w') /\
  (_estrategias_salvamento !! extensao = None ->
   exists res w',
     salvar self caminho w = (res, w') /\
     heap w' = heap w /\
     no_file_touched w w' /\
     (diretorio_pai = EmptyString ->
      quiet w w' /\ exists msg, res = Raise (ValueError msg)) /\
     (diretorio_pai <> EmptyString ->
      disk w' = (os_makedirs diretorio_pai (disk w)).2 /\
      (exists evs, out w' = (out w ++ Makedirs diretorio_pai :: evs)%list /\
                   forallb (fun ev => negb (is_file_io ev)) evs = true) /\
      match (os_makedirs diretorio_pai (disk w)).1 with
      | Ok _ => exists msg, res = Raise (ValueError msg)
      | Raise e => res = Raise e
      end)).
Proof.
  intros extensao diretorio_pai. split; intros Hnone.
  - rewrite from_file_unsupported by done. eexists _, _. split; [done |].
    split; [done |]. split; [done |]. eexists. by split.
  - destruct (decide (diretorio_pai = EmptyString)) as [Hdir | Hdir].
    + rewrite salvar_unsupported_bare by done. eexists _, _. split; [done |].
      split; [done |]. split; [eexists; by split |]. split; [|done].
      intros _. split; [split; [done | eexists; by split] | by eexists].
    + rewrite salvar_unsupported_nested by done. fold diretorio_pai.
      destruct (os_makedirs diretorio_pai (disk w)) as [[[]|e] fs];
        eexists _, _; (split; [done |]); (split; [done |]);
        (split; [eexists; by split |]); (split; [done |]); intros _; cbn;
        (split; [done |]); (split; [eexists; by split |]); by eauto.
Qed.

Lemma unknown_extension_fails_witness :
  (exists msg w',
     from_file EnriquecimentoDatasetTelco "notes/data.TXT" Lab.w1
     = (Raise (ValueError msg), w') /\
     heap w' = heap Lab.w1 /\ quiet Lab.w1 w') /\
  (exists res w',
     salvar Lab.self1 "notes/data.TXT" Lab.w1 = (res, w') /\
     heap w' = heap Lab.w1 /\
     no_file_touched Lab.w1 w' /\
     (Path.dirname "notes/data.TXT" = EmptyString ->
      quiet Lab.w1 w' /\ exists msg, res = Raise (ValueError msg)) /\
     (Path.dirname "notes/data.TXT" <> EmptyString ->
      disk w' = (os_makedirs "notes" (disk Lab.w1)).2 /\
      (exists evs, out w' = (out Lab.w1 ++ Makedirs "notes" :: evs)%list /\
                   forallb (fun ev => negb (is_file_io ev)) evs = true) /\
      exists msg, res = Raise (ValueError msg))).
Proof.
  pose proof (unknown_extension_fails Lab.w1 EnriquecimentoDatasetTelco Lab.self1
                "notes/data.TXT") as [Hload Hsave].
  split; [apply Hload | apply Hsave]; reflexivity.
Defined.

(** C1 as stated fails for [salvar]: on ["out/data.txt"] no writer is
    registered for [".txt"], yet the directory ["out"] is created before
    the lookup fails. *)
Lemma salvar_unknown_extension_makes_directory :
  _estrategias_salvamento !! Path.lower (Path.splitext "out/data.txt").2 = None /\
  (salvar Lab.self1 "out/data.txt" Lab.w1).1 = Raise (salvar_unsupported_msg ".txt") /\
  In (Makedirs "out") (out (salvar Lab.self1 "out/data.txt" Lab.w1).2) /\
  ("out" ∉ Lab.dirs (disk Lab.w1)) /\
  ("out" ∈ Lab.dirs (disk (salvar Lab.self1 "out/data.txt" Lab.w1).2)) /\
  ~ quiet Lab.w1 (salvar Lab.self1 "out/data.txt" Lab.w1).2.
Proof.
  split; [reflexivity |]. split; [reflexivity |].
  split; [by left |].
  split; [by apply (bool_decide_unpack _) |].
  split; [by apply (bool_decide_unpack _) |].
  intros [Hdisk _].
  apply (f_equal (fun fs => bool_decide ("out" ∈ Lab.dirs fs))) in Hdisk.
  vm_compute in Hdisk. discriminate.
Qed.

(** C8, as the code has it: a path with the extension [.xlsx] has a
    reader, and [from_file] on a spreadsheet that reads returns a pipeline
    object whose frame has the rows of the sheet; no writer is registered
    for [.xlsx], so [salvar] on such a path always raises and writes no
    file.  What it raises is the [ValueError] of an unsupported format
    when the path has no parent directory or [os.makedirs] on that
    directory, its first step, has returned; when [os.makedirs] raises,
    [salvar] raises that exception, before any strategy is looked up. *)
Theorem xlsx_loads_but_does_not_save {G FS} `{!Numpy G} `{!Disk FS}
    (w : World G FS) c self caminho_arquivo caminho_saida sheet :
  Path.lower (Path.splitext caminho_arquivo).2 = ".xlsx" ->
  pd_read LeitorXLSXStrategy caminho_arquivo (disk w) = Ok sheet ->
  Path.lower (Path.splitext caminho_saida).2 = ".xlsx" ->
  (exists obj w' d,
     from_file c caminho_arquivo w = (Ok obj, w') /\
     heap w' !! df obj = Some d /\
     d = sheet /\ nrows d = nrows sheet) /\
  (_estrategias_salvamento !! Path.lower (Path.splitext caminho_saida).2 = None /\
   exists e w',
     salvar self caminho_saida w = (Raise e, w') /\
     no_file_touched w w' /\
     (Path.dirname caminho_saida = EmptyString \/
      (os_makedirs (Path.dirname caminho_saida) (disk w)).1 = Ok () ->
      e = salvar_unsupported_msg (Path.splitext caminho_saida).2) /\
     (forall e',
        Path.dirname caminho_saida <> EmptyString ->
        (os_makedirs (Path.dirname caminho_saida) (disk w)).1 = Raise e' ->
        e = e')).
Proof.
  intros Hext Hread Hext'. split.
  - destruct (from_file_loaded w c caminho_arquivo LeitorXLSXStrategy sheet)
      as (obj & w' & Hrun & _ & Hdf & _); [by rewrite Hext | done |].
    by exists obj, w', sheet.
  - assert (_estrategias_salvamento !! Path.lower (Path.splitext caminho_saida).2 = None)
      as Hnone by by rewrite Hext'.
    split; [done |].
    destruct (decide (Path.dirname caminho_saida = EmptyString)) as [Hbare | Hnested].
    + rewrite salvar_unsupported_bare by done. eexists _, _. split; [done |].
      split; [eexists; by split |]. split; [done |].
      by intros e' Hnested.
    + rewrite salvar_unsupported_nested by done.
      destruct (os_makedirs _ (disk w)) as [[[]|e] fs]; eexists _, _;
        (split; [done |]); (split; [eexists; by split |]); cbn [fst].
      * split; [done |]. by intros e' _ Hraise.
      * split; [by intros [Hbare | Hok] |]. by intros e' _ [= ->].
Qed.

Lemma xlsx_loads_but_does_not_save_witness :
  (exists obj w' d,
     from_file EnriquecimentoDataset "data/raw/telco.XLSX" Lab.w_sheet = (Ok obj, w') /\
     heap w' !! df obj = Some d /\
     d = Lab.telco /\ nrows d = nrows Lab.telco) /\
  (_estrategias_salvamento !! Path.lower (Path.splitext "data/interim/out.xlsx").2 = None /\
   exists e w',
     salvar Lab.self1 "data/interim/out.xlsx" Lab.w_sheet = (Raise e, w') /\
     no_file_touched Lab.w_sheet w' /\
     (Path.dirname "data/interim/out.xlsx" = EmptyString \/
      (os_makedirs (Path.dirname "data/interim/out.xlsx") (disk Lab.w_sheet)).1 = Ok () ->
      e = salvar_unsupported_msg (Path.splitext "data/interim/out.xlsx").2) /\
     (forall e',
        Path.dirname "data/interim/out.xlsx" <> EmptyString ->
        (os_makedirs (Path.dirname "data/interim/out.xlsx") (disk Lab.w_sheet)).1
        = Raise e' ->
        e = e')).
Proof.
  apply (xlsx_loads_but_does_not_save Lab.w_sheet EnriquecimentoDataset Lab.self1
           "data/raw/telco.XLSX" "data/interim/out.xlsx" Lab.telco).
  - reflexivity.
  - reflexivity.
  - reflexivity.
Defined.

(** C8 as stated fails for [salvar]: on a disk where [os.makedirs] raises,
    [salvar] on ["data/interim/out.xlsx"] raises the [OSError] of
    [os.makedirs], not the [ValueError] of an unsupported format, although
    no writer is registered for [.xlsx]. *)
Lemma salvar_xlsx_makedirs_fails :
  _estrategias_salvamento !! Path.lower (Path.splitext "data/interim/out.xlsx").2 = None /\
  Path.dirname "data/interim/out.xlsx" = "data/interim" /\
  (os_makedirs "data/interim" (disk Desk.w_full)).1
  = Raise (OSError "No space left on device") /\
  (salvar Lab.self1 "data/interim/out.xlsx" Desk.w_full).1
  = Raise (OSError "No space left on device") /\
  (forall msg,
     (salvar Lab.self1 "data/interim/out.xlsx" Desk.w_full).1 <> Raise (ValueError msg)).
Proof.
  split; [reflexivity |]. split; [reflexivity |]. split; [reflexivity |].
  assert ((salvar Lab.self1 "data/interim/out.xlsx" Desk.w_full).1
          = Raise (OSError "No space left on device")) as Hrun
    by (vm_compute; reflexivity).
  split; [exact Hrun |]. intros msg. rewrite Hrun. discriminate.
Qed.

Example salvar_xlsx_run :
  (salvar Lab.self1 "data/interim/out.xlsx" Lab.w_sheet).1
  = Raise (salvar_unsupported_msg ".xlsx").
Proof. reflexivity. Qed.

Example from_file_xlsx_run :
  let run := from_file EnriquecimentoDatasetTelco "data/raw/telco.XLSX" Lab.w_sheet in
  run.1 = Ok (mkPipeline EnriquecimentoDatasetTelco 3) /\
  heap run.2 !! 2%nat = Some Lab.telco /\
  heap run.2 !! 3%nat = Some Lab.telco /\
  filter (fun ev => is_file_io ev = true) (out run.2)
  = [ReadFile LeitorXLSXStrategy "data/raw/telco.XLSX"].
Proof. cbn zeta. repeat split; by vm_compute. Qed.

(** * The enrichment steps, run *)

Section Binds.
Context {G FS : Type}.

Lemma bind_ok {A B} (m : M G FS A) (k : A -> M G FS B) w a w' :
  m w = (Ok a, w') -> bind m k w = k a w'.
Proof. intros Hm. unfold bind. by rewrite Hm. Qed.

Lemma bind_raise {A B} (m : M G FS A) (k : A -> M G FS B) w e w' :
  m w = (Raise e, w') -> bind m k w = (Raise e, w').
Proof. intros Hm. unfold bind. by rewrite Hm. Qed.

End Binds.

(** One operation of a method has run: its result is fed to the rest. *)
Tactic Notation "ran" uconstr(H) :=
  erewrite bind_ok by (eapply H; eassumption); cbn [heap gen disk out].

(** A label that stands in a list written out. *)
Ltac in_list :=
  solve [repeat first [apply list_elem_of_here | apply list_elem_of_further]].

Section Runs.
Context {G FS : Type} `{!Numpy G} `{!Disk FS}.

Lemma logging_info_run msg (w : World G FS) :
  logging_info msg w = (Ok (), mkWorld (heap w) (gen w) (disk w) (out w ++ [Log msg])%list).
Proof. reflexivity. Qed.

Lemma np_random_poisson_run lam n (w : World G FS) :
  np_random_poisson lam n w
  = (Ok (poisson lam n (gen w)).1,
     mkWorld (heap w) (poisson lam n (gen w)).2 (disk w) (out w)).
Proof. unfold np_random_poisson. by destruct (poisson lam n (gen w)). Qed.

Lemma np_random_randint_run low high n (w : World G FS) :
  np_random_randint low high n w
  = (Ok (randint low high n (gen w)).1,
     mkWorld (heap w) (randint low high n (gen w)).2 (disk w) (out w)).
Proof. unfold np_random_randint. by destruct (randint low high n (gen w)). Qed.

Lemma df_getitem_run (w : World G FS) self d label col :
  heap w !! df self = Some d ->
  data d !! label = Some col ->
  df_getitem self label w = (Ok col, w).
Proof.
  intros Hd Hcol. unfold df_getitem, getitem. unfold_monad. by rewrite Hd, Hcol.
Qed.

Lemma df_getitem_missing (w : World G FS) self d label :
  heap w !! df self = Some d ->
  data d !! label = None ->
  df_getitem self label w = (Raise (KeyError label), w).
Proof.
  intros Hd Hcol. unfold df_getitem, getitem. unfold_monad. by rewrite Hd, Hcol.
Qed.

Lemma df_len_run (w : World G FS) self d :
  heap w !! df self = Some d -> df_len self w = (Ok (nrows d), w).
Proof. intros Hd. unfold df_len. unfold_monad. by rewrite Hd. Qed.

Lemma df_setitem_run (w : World G FS) self d label col :
  heap w !! df self = Some d ->
  df_setitem self label col w
  = (Ok (), mkWorld (<[df self := set_column label col d]> (heap w)) (gen w) (disk w) (out w)).
Proof. intros Hd. unfold df_setitem. unfold_monad. by rewrite Hd. Qed.

Lemma df_setitem_array_run (w : World G FS) self d label arr :
  heap w !! df self = Some d ->
  length arr = nrows d ->
  df_setitem_array self label arr w
  = (Ok (), mkWorld (<[df self := set_column label arr d]> (heap w)) (gen w) (disk w) (out w)).
Proof.
  intros Hd Hlen. unfold df_setitem_array, setitem_array. unfold_monad.
  rewrite Hd. by rewrite bool_decide_true.
Qed.

Lemma where_churn_run (w : World G FS) self d churn
    (x y : nat -> M G FS (list Z)) (fx fy : nat -> G -> list Z * G) :
  (forall n w, x n w = (Ok (fx n (gen w)).1, mkWorld (heap w) (fx n (gen w)).2 (disk w) (out w))) ->
  (forall n w, y n w = (Ok (fy n (gen w)).1, mkWorld (heap w) (fy n (gen w)).2 (disk w) (out w))) ->
  heap w !! df self = Some d ->
  data d !! "Churn" = Some churn ->
  where_churn self x y w
  = (Ok (where_col churn (fx (nrows d) (gen w)).1
                         (fy (nrows d) (fx (nrows d) (gen w)).2).1),
     mkWorld (heap w) (fy (nrows d) (fx (nrows d) (gen w)).2).2 (disk w) (out w)).
Proof.
  intros Hx Hy Hd Hchurn. unfold where_churn.
  ran df_getitem_run. ran df_len_run. ran Hx. ran df_len_run. ran Hy.
  reflexivity.
Qed.

Lemma where_col_length churn xs ys n :
  length churn = n -> length xs = n -> length ys = n -> length (where_col churn xs ys) = n.
Proof.
  intros. unfold where_col. rewrite length_map.
  apply np_where_length; [by rewrite length_map | done | done].
Qed.

(** [gerar_features_interacao] on a frame whose [Churn] column has one cell
    per row. *)
Lemma gerar_features_interacao_run (w : World G FS) self d churn :
  heap w !! df self = Some d ->
  data d !! "Churn" = Some churn ->
  length churn = nrows d ->
  gerar_features_interacao self w
  = (Ok self,
     mkWorld (<[df self := interacao_frame churn (gen w) d]> (heap w))
             (interacao_columns (nrows d) churn (gen w)).2
             (disk w) (out w ++ interacao_logs)%list).
Proof.
  intros Hd Hchurn Hlen. unfold interacao_frame, interacao_columns. cbn zeta.
  set (n := nrows d).
  set (p1 := poisson 2 n (gen w)). set (p2 := poisson 10 n p1.2).
  set (p3 := poisson 3 n p2.2). set (p4 := poisson 1 n p3.2).
  set (p5 := randint 15 60 n p4.2). set (p6 := randint 1 15 n p5.2).
  set (d1 := set_column "num_logins_last_30d" (where_col churn p1.1 p2.1) d).
  set (d2 := set_column "support_tickets_last_90d" (where_col churn p3.1 p4.1) d1).
  unfold gerar_features_interacao, wrapped, try_except.
  ran logging_info_run.
  erewrite bind_ok by (eapply (where_churn_run _ _ _ _ _ _ (poisson 2) (poisson 10));
    [intros; apply np_random_poisson_run | intros; apply np_random_poisson_run
    | eassumption | eassumption]).
  cbn [heap gen disk out]. fold n p1 p2.
  erewrite bind_ok by (eapply df_setitem_array_run; [eassumption |];
    apply where_col_length; [done | apply poisson_length | apply poisson_length]).
  cbn [heap gen disk out]. fold d1.
  ran logging_info_run.
  assert (forall h, <[df self := d1]> h !! df self = Some d1) as Hd1
    by (intros; apply lookup_insert_eq).
  assert (data d1 !! "Churn" = Some churn) as Hc1
    by (unfold d1; by rewrite set_column_lookup_ne).
  erewrite bind_ok by (eapply (where_churn_run _ _ _ _ _ _ (poisson 3) (poisson 1));
    [intros; apply np_random_poisson_run | intros; apply np_random_poisson_run
    | apply Hd1 | exact Hc1]).
  cbn [heap gen disk out]. change (nrows d1) with n. fold p3 p4.
  erewrite bind_ok by (eapply df_setitem_array_run; [apply Hd1 |];
    apply where_col_length; [done | apply poisson_length | apply poisson_length]).
  cbn [heap gen disk out]. fold d2.
  rewrite insert_insert_eq.
  ran logging_info_run.
  assert (forall h, <[df self := d2]> h !! df self = Some d2) as Hd2
    by (intros; apply lookup_insert_eq).
  assert (data d2 !! "Churn" = Some churn) as Hc2
    by (unfold d2; by rewrite set_column_lookup_ne).
  erewrite bind_ok by (eapply (where_churn_run _ _ _ _ _ _ (randint 15 60) (randint 1 15));
    [intros; apply np_random_randint_run | intros; apply np_random_randint_run
    | apply Hd2 | exact Hc2]).
  cbn [heap gen disk out]. change (nrows d2) with n. fold p5 p6.
  erewrite bind_ok by (eapply df_setitem_array_run; [apply Hd2 |];
    apply where_col_length; [done | apply randint_length | apply randint_length]).
  cbn [heap gen disk out].
  rewrite insert_insert_eq.
  ran logging_info_run. ran logging_info_run.
  unfold ret, interacao_logs. by rewrite <- !app_assoc.
Qed.

Lemma generate_usage_series_run churned (w : World G FS) :
  _generate_usage_series churned w
  = (Ok (Float64.mul_astype_int (poisson 10 6 (gen w)).1
           (if eq_one churned then Float64.linspace 1 Float64.lit_0_3 6
            else Float64.ones 6)),
     mkWorld (heap w) (poisson 10 6 (gen w)).2 (disk w) (out w)).
Proof.
  unfold _generate_usage_series. by erewrite bind_ok by apply np_random_poisson_run.
Qed.

Lemma series_apply_run churn (w : World G FS) :
  series_apply _generate_usage_series churn w
  = (Ok (usage_series churn (gen w)).1,
     mkWorld (heap w) (usage_series churn (gen w)).2 (disk w) (out w)).
Proof.
  revert w. induction churn as [|v churn IH]; intros w; cbn [series_apply usage_series].
  - by destruct w.
  - erewrite bind_ok by apply generate_usage_series_run.
    erewrite bind_ok by apply IH. reflexivity.
Qed.

Lemma usage_series_length churn (g : G) : length (usage_series churn g).1 = length churn.
Proof.
  revert g. induction churn as [|v churn IH]; intros g; cbn [usage_series fst length];
    [done |]. by rewrite IH.
Qed.

Lemma usage_series_six churn (g : G) : Forall six (usage_series churn g).1.
Proof.
  revert g. induction churn as [|v churn IH]; intros g; cbn [usage_series fst];
    constructor; [|apply IH].
  apply mul_astype_int_length; [apply poisson_length |].
  destruct (eq_one v); [apply linspace_length | apply repeat_length].
Qed.

(** [gerar_features_uso_recente] on a frame that has a [Churn] column. *)
Lemma gerar_features_uso_recente_run (w : World G FS) self d churn :
  heap w !! df self = Some d ->
  data d !! "Churn" = Some churn ->
  gerar_features_uso_recente self w
  = (Ok self,
     mkWorld (<[df self := uso_recente_frame (usage_series churn (gen w)).1 d]> (heap w))
             (usage_series churn (gen w)).2 (disk w) (out w ++ uso_recente_logs)%list).
Proof.
  intros Hd Hchurn.
  set (usage := (usage_series churn (gen w)).1).
  assert (Forall six usage) as Hsix by apply usage_series_six.
  unfold gerar_features_uso_recente, wrapped, try_except.
  ran logging_info_run. ran df_getitem_run.
  erewrite bind_ok by apply series_apply_run. cbn [heap gen disk out]. fold usage.
  ran df_setitem_run.
  set (d1 := set_column "usage_last_6m" (map VList usage) d).
  erewrite bind_ok by (eapply df_getitem_run; [apply lookup_insert_eq | apply set_column_lookup]).
  unfold lift at 1. rewrite mapM_trend_of by done. unfold bind at 1.
  erewrite bind_ok by (eapply df_setitem_run; apply lookup_insert_eq).
  cbn [heap gen disk out]. rewrite insert_insert_eq.
  set (d2 := set_column "trend_usage" _ d1).
  erewrite bind_ok by (eapply df_getitem_run; [apply lookup_insert_eq |];
    unfold d2; rewrite set_column_lookup_ne by done; apply set_column_lookup).
  unfold lift at 1. rewrite mapM_std_of. unfold bind at 1.
  erewrite bind_ok by (eapply df_setitem_run; apply lookup_insert_eq).
  cbn [heap gen disk out]. rewrite insert_insert_eq.
  set (d3 := set_column "std_usage" _ d2).
  erewrite bind_ok by (eapply df_getitem_run; [apply lookup_insert_eq |];
    unfold d3, d2; rewrite !set_column_lookup_ne by done; apply set_column_lookup).
  unfold lift at 1. rewrite mapM_avg3_of. unfold bind at 1.
  erewrite bind_ok by (eapply df_setitem_run; apply lookup_insert_eq).
  cbn [heap gen disk out]. rewrite insert_insert_eq.
  ran logging_info_run.
  unfold ret, uso_recente_logs, uso_recente_frame. by rewrite <- !app_assoc.
Qed.

End Runs.

(** ** The frames the steps leave *)

Section StepFrames.
Context {G : Type} `{!Numpy G}.

Lemma interacao_frame_nrows churn (g : G) d : nrows (interacao_frame churn g d) = nrows d.
Proof. reflexivity. Qed.

Lemma interacao_frame_lookup_ne churn (g : G) d label :
  label ∉ written GerarFeaturesInteracao ->
  data (interacao_frame churn g d) !! label = data d !! label.
Proof.
  intros Hnot. unfold interacao_frame, interacao_columns. cbn zeta.
  rewrite !set_column_lookup_ne; [done | | |]; intros <-; apply Hnot; in_list.
Qed.

Lemma interacao_frame_dom churn (g : G) d :
  dom (data (interacao_frame churn g d))
  = dom (data d) ∪ list_to_set (written GerarFeaturesInteracao).
Proof.
  unfold interacao_frame, interacao_columns. cbn zeta. cbn [data set_column].
  rewrite !dom_insert_L. cbn. set_unfold. intros x. tauto.
Qed.

Lemma uso_recente_frame_nrows usage d : nrows (uso_recente_frame usage d) = nrows d.
Proof. reflexivity. Qed.

Lemma uso_recente_frame_lookup_ne usage d label :
  label ∉ written GerarFeaturesUsoRecente ->
  data (uso_recente_frame usage d) !! label = data d !! label.
Proof.
  intros Hnot. unfold uso_recente_frame.
  rewrite !set_column_lookup_ne; [done | | | |]; intros <-; apply Hnot; in_list.
Qed.

Lemma uso_recente_frame_dom usage d :
  dom (data (uso_recente_frame usage d))
  = dom (data d) ∪ list_to_set (written GerarFeaturesUsoRecente).
Proof.
  unfold uso_recente_frame. cbn [data set_column].
  rewrite !dom_insert_L. cbn. set_unfold. intros x. tauto.
Qed.

Lemma padrao_frame_nrows mapped (g : G) d : nrows (padrao_frame mapped g d) = nrows d.
Proof. reflexivity. Qed.

Lemma padrao_frame_lookup_ne mapped (g : G) d label :
  label ∉ written AplicarEnriquecimentoPadrao ->
  data (padrao_frame mapped g d) !! label = data d !! label.
Proof.
  intros Hnot. unfold padrao_frame. cbn zeta.
  rewrite uso_recente_frame_lookup_ne, interacao_frame_lookup_ne, set_column_lookup_ne;
    [done | intros <- | intros Hin | intros Hin]; apply Hnot; [in_list | |];
    cbn in Hin; set_unfold; intuition (subst; in_list).
Qed.

Lemma padrao_frame_dom mapped (g : G) d :
  is_Some (data d !! "Churn") ->
  dom (data (padrao_frame mapped g d))
  = dom (data d) ∪ list_to_set (written AplicarEnriquecimentoPadrao).
Proof.
  intros Hchurn%elem_of_dom. unfold padrao_frame. cbn zeta.
  rewrite uso_recente_frame_dom, interacao_frame_dom. cbn [data set_column].
  rewrite dom_insert_L. cbn. set_unfold. intros x. tauto.
Qed.

Lemma step_frame_nrows s churn (g : G) d : nrows (step_frame s churn g d) = nrows d.
Proof. by destruct s. Qed.

Lemma step_frame_lookup_ne s churn (g : G) d label :
  label ∉ written s ->
  data (step_frame s churn g d) !! label = data d !! label.
Proof.
  intros Hnot. destruct s; cbn [step_frame].
  - apply set_column_lookup_ne. intros <-. apply Hnot. in_list.
  - by apply interacao_frame_lookup_ne.
  - by apply uso_recente_frame_lookup_ne.
  - by apply padrao_frame_lookup_ne.
Qed.

Lemma step_frame_dom s churn (g : G) d :
  data d !! "Churn" = Some churn ->
  dom (data (step_frame s churn g d)) = dom (data d) ∪ list_to_set (written s).
Proof.
  intros Hchurn. assert ("Churn" ∈ dom (data d)) by (apply elem_of_dom; eauto).
  destruct s; cbn [step_frame].
  - cbn [data set_column]. rewrite dom_insert_L. cbn. set_unfold. intros x. tauto.
  - apply interacao_frame_dom.
  - apply uso_recente_frame_dom.
  - apply padrao_frame_dom. eauto.
Qed.

End StepFrames.

(** ** How each call ends *)

Lemma mapM_get_indexer_unhashable col :
  ~ Forall (fun v => scalar v = true) col ->
  mapM_result (get_indexer yes_no) col = Raise (TypeError "unhashable type: 'list'").
Proof.
  induction col as [|v col IH]; intros Hnot; [by destruct Hnot |].
  cbn [mapM_result]. destruct v as [s | z | f | b | l]; cbn [get_indexer]; try done;
    (rewrite IH; [done |]); intros Hcol; apply Hnot; by constructor.
Qed.

Lemma series_map_unhashable col :
  ~ Forall (fun v => scalar v = true) col ->
  series_map yes_no col = Raise (TypeError "unhashable type: 'list'").
Proof. intros Hnot. unfold series_map. by rewrite mapM_get_indexer_unhashable. Qed.

Section StepRuns.
Context {G FS : Type} `{!Numpy G} `{!Disk FS}.

Lemma preparar_coluna_churn_missing (w : World G FS) self d :
  heap w !! df self = Some d ->
  data d !! "Churn" = None ->
  preparar_coluna_churn self w
  = (Raise (CustomException (KeyError "Churn")),
     mkWorld (heap w) (gen w) (disk w) (out w ++ [preparar_log])%list).
Proof.
  intros Hd Hnone. unfold preparar_coluna_churn, wrapped, try_except.
  ran logging_info_run.
  by erewrite bind_raise by (eapply df_getitem_missing; eassumption).
Qed.

Lemma preparar_coluna_churn_unhashable (w : World G FS) self d churn :
  heap w !! df self = Some d ->
  data d !! "Churn" = Some churn ->
  ~ Forall (fun v => scalar v = true) churn ->
  preparar_coluna_churn self w
  = (Raise (CustomException (TypeError "unhashable type: 'list'")),
     mkWorld (heap w) (gen w) (disk w) (out w ++ [preparar_log])%list).
Proof.
  intros Hd Hchurn Hnot. unfold preparar_coluna_churn, wrapped, try_except.
  ran logging_info_run. ran df_getitem_run.
  unfold lift at 1. rewrite series_map_unhashable by done. by unfold bind.
Qed.

Lemma gerar_features_interacao_missing (w : World G FS) self d :
  heap w !! df self = Some d ->
  data d !! "Churn" = None ->
  gerar_features_interacao self w
  = (Raise (CustomException (KeyError "Churn")),
     mkWorld (heap w) (gen w) (disk w)
       (out w ++ [Log "Gerando features de interação"])%list).
Proof.
  intros Hd Hnone. unfold gerar_features_interacao, wrapped, try_except.
  ran logging_info_run. unfold where_churn.
  erewrite bind_raise; [done |].
  by erewrite bind_raise by (eapply df_getitem_missing; eassumption).
Qed.

Lemma gerar_features_uso_recente_missing (w : World G FS) self d :
  heap w !! df self = Some d ->
  data d !! "Churn" = None ->
  gerar_features_uso_recente self w
  = (Raise (CustomException (KeyError "Churn")),
     mkWorld (heap w) (gen w) (disk w)
       (out w ++ [Log "Gerando features de série de uso (últimos 6 meses)..."])%list).
Proof.
  intros Hd Hnone. unfold gerar_features_uso_recente, wrapped, try_except.
  ran logging_info_run.
  by erewrite bind_raise by (eapply df_getitem_missing; eassumption).
Qed.

End StepRuns.

Section CallRuns.
Context {G FS : Type} `{!Numpy G} `{!Disk FS}.

Lemma mapped_churn_length churn : length (mapped_churn churn) = length churn.
Proof. unfold mapped_churn. by rewrite take_nd_length, length_map. Qed.

(** The three steps in a row, on a frame whose [Churn] cells can be
    hashed. *)
Lemma passos_em_sequencia_ok (w : World G FS) self d churn :
  heap w !! df self = Some d ->
  data d !! "Churn" = Some churn ->
  length churn = nrows d ->
  Forall (fun v => scalar v = true) churn ->
  passos_em_sequencia self w
  = (Ok (),
     mkWorld (<[df self := padrao_frame (mapped_churn churn) (gen w) d]> (heap w))
             (padrao_gen (mapped_churn churn) (nrows d) (gen w)) (disk w)
             (out w ++ preparar_log :: interacao_logs ++ uso_recente_logs)%list).
Proof.
  intros Hd Hchurn Hlen Hscalar. unfold passos_em_sequencia.
  set (mapped := mapped_churn churn).
  erewrite bind_ok by (eapply preparar_coluna_churn_run; [eassumption | eassumption |];
    by apply series_map_scalar).
  fold mapped. set (d1 := set_column "Churn" mapped d).
  erewrite bind_ok by (eapply (gerar_features_interacao_run _ _ d1 mapped);
    [apply lookup_insert_eq | apply set_column_lookup
    | unfold mapped; by rewrite mapped_churn_length]).
  cbn [heap gen disk out]. rewrite insert_insert_eq.
  erewrite bind_ok by (eapply (gerar_features_uso_recente_run _ _ _ mapped);
    [apply lookup_insert_eq |];
    rewrite interacao_frame_lookup_ne by (by apply (bool_decide_unpack _));
    apply set_column_lookup).
  cbn [heap gen disk out]. rewrite insert_insert_eq.
  unfold ret, padrao_frame, padrao_gen. cbn zeta. fold mapped d1.
  change (nrows d1) with (nrows d).
  by rewrite <- !app_assoc.
Qed.

(** [aplicar_enriquecimento_padrao] on such a frame. *)
Lemma aplicar_enriquecimento_padrao_ok (w : World G FS) self d churn :
  heap w !! df self = Some d ->
  data d !! "Churn" = Some churn ->
  length churn = nrows d ->
  Forall (fun v => scalar v = true) churn ->
  aplicar_enriquecimento_padrao self w
  = (Ok self,
     mkWorld (<[df self := padrao_frame (mapped_churn churn) (gen w) d]> (heap w))
             (padrao_gen (mapped_churn churn) (nrows d) (gen w)) (disk w)
             (out w ++ padrao_logs)%list).
Proof.
  intros Hd Hchurn Hlen Hscalar. rewrite aplicar_enriquecimento_padrao_run.
  erewrite passos_em_sequencia_ok by done.
  cbn [heap gen disk out]. unfold padrao_logs. by rewrite <- !app_assoc.
Qed.

Lemma passos_em_sequencia_missing (w : World G FS) self d :
  heap w !! df self = Some d ->
  data d !! "Churn" = None ->
  passos_em_sequencia self w
  = (Raise (CustomException (KeyError "Churn")),
     mkWorld (heap w) (gen w) (disk w) (out w ++ [preparar_log])%list).
Proof.
  intros Hd Hnone. unfold passos_em_sequencia.
  by erewrite bind_raise by (eapply preparar_coluna_churn_missing; eassumption).
Qed.

Lemma passos_em_sequencia_unhashable (w : World G FS) self d churn :
  heap w !! df self = Some d ->
  data d !! "Churn" = Some churn ->
  ~ Forall (fun v => scalar v = true) churn ->
  passos_em_sequencia self w
  = (Raise (CustomException (TypeError "unhashable type: 'list'")),
     mkWorld (heap w) (gen w) (disk w) (out w ++ [preparar_log])%list).
Proof.
  intros Hd Hchurn Hnot. unfold passos_em_sequencia.
  by erewrite bind_raise by (eapply preparar_coluna_churn_unhashable; eassumption).
Qed.

(** A call that can run returns [self] and leaves [step_frame] and
    [step_gen]. *)
Lemma run_step_ok (w : World G FS) s self d churn :
  heap w !! df self = Some d ->
  data d !! "Churn" = Some churn ->
  length churn = nrows d ->
  (maps_churn s = true -> Forall (fun v => scalar v = true) churn) ->
  exists logs,
    run_step s self w
    = (Ok self,
       mkWorld (<[df self := step_frame s churn (gen w) d]> (heap w))
               (step_gen s churn (nrows d) (gen w)) (disk w) (out w ++ logs)%list).
Proof.
  intros Hd Hchurn Hlen Hscalar. destruct s; cbn [run_step step_frame step_gen].
  - eexists. eapply preparar_coluna_churn_run; [done | done |].
    apply series_map_scalar. by apply Hscalar.
  - eexists. by apply gerar_features_interacao_run.
  - eexists. by apply gerar_features_uso_recente_run.
  - rewrite aplicar_enriquecimento_padrao_run.
    erewrite passos_em_sequencia_ok; [| done | done | done | by apply Hscalar].
    cbn [heap gen disk out]. eexists. by rewrite <- !app_assoc.
Qed.

(** Without a [Churn] column every call raises, and only the log grew. *)
Lemma run_step_missing (w : World G FS) s self d :
  heap w !! df self = Some d ->
  data d !! "Churn" = None ->
  exists logs,
    run_step s self w
    = (Raise (CustomException (KeyError "Churn")),
       mkWorld (heap w) (gen w) (disk w) (out w ++ logs)%list).
Proof.
  intros Hd Hnone. destruct s; cbn [run_step].
  - eexists. by eapply preparar_coluna_churn_missing.
  - eexists. by eapply gerar_features_interacao_missing.
  - eexists. by eapply gerar_features_uso_recente_missing.
  - rewrite aplicar_enriquecimento_padrao_run.
    erewrite passos_em_sequencia_missing by done.
    cbn [heap gen disk out]. eexists. by rewrite <- !app_assoc.
Qed.

(** On a cell that cannot be hashed the calls that apply the dict raise,
    and only the log grew. *)
Lemma run_step_unhashable (w : World G FS) s self d churn :
  heap w !! df self = Some d ->
  data d !! "Churn" = Some churn ->
  maps_churn s = true ->
  ~ Forall (fun v => scalar v = true) churn ->
  exists logs,
    run_step s self w
    = (Raise (CustomException (TypeError "unhashable type: 'list'")),
       mkWorld (heap w) (gen w) (disk w) (out w ++ logs)%list).
Proof.
  intros Hd Hchurn Hmaps Hnot. destruct s; try done; cbn [run_step].
  - eexists. by eapply preparar_coluna_churn_unhashable.
  - rewrite aplicar_enriquecimento_padrao_run.
    erewrite passos_em_sequencia_unhashable by done.
    cbn [heap gen disk out]. eexists. by rewrite <- !app_assoc.
Qed.

End CallRuns.

(** * Properties of the enrichment calls *)

(** X1: without a [Churn] column every enrichment call raises
    [CustomException(KeyError('Churn'))], and it has neither changed a frame
    nor drawn from the generator nor touched the disk. *)
Theorem step_without_churn {G FS} `{!Numpy G} `{!Disk FS}
    (w : World G FS) s self d :
  heap w !! df self = Some d ->
  data d !! "Churn" = None ->
  (run_step s self w).1 = Raise (CustomException (KeyError "Churn")) /\
  heap (run_step s self w).2 = heap w /\
  gen (run_step s self w).2 = gen w /\
  disk (run_step s self w).2 = disk w.
Proof.
  intros Hd Hnone.
  destruct (run_step_missing w s self d Hd Hnone) as [logs ->]. by repeat split.
Qed.

Lemma step_without_churn_witness :
  (run_step AplicarEnriquecimentoPadrao Lab.self1 Desk.w_unlabelled).1
  = Raise (CustomException (KeyError "Churn")) /\
  heap (run_step AplicarEnriquecimentoPadrao Lab.self1 Desk.w_unlabelled).2
  = heap Desk.w_unlabelled /\
  gen (run_step AplicarEnriquecimentoPadrao Lab.self1 Desk.w_unlabelled).2
  = gen Desk.w_unlabelled /\
  disk (run_step AplicarEnriquecimentoPadrao Lab.self1 Desk.w_unlabelled).2
  = disk Desk.w_unlabelled.
Proof.
  apply (step_without_churn Desk.w_unlabelled AplicarEnriquecimentoPadrao Lab.self1
           Desk.unlabelled).
  - reflexivity.
  - reflexivity.
Defined.

Section Outcomes.
Context {G FS : Type} `{!Numpy G} `{!Disk FS}.

(** The three ways a call can end on a frame whose columns have one cell
    per row. *)
Lemma run_step_cases (w : World G FS) s self d :
  heap w !! df self = Some d ->
  rectangular d ->
  (exists churn logs,
     data d !! "Churn" = Some churn /\
     (maps_churn s = true -> Forall (fun v => scalar v = true) churn) /\
     run_step s self w
     = (Ok self,
        mkWorld (<[df self := step_frame s churn (gen w) d]> (heap w))
                (step_gen s churn (nrows d) (gen w)) (disk w) (out w ++ logs)%list)) \/
  (exists cause logs,
     ~ can_run s d /\
     run_step s self w
     = (Raise (CustomException cause),
        mkWorld (heap w) (gen w) (disk w) (out w ++ logs)%list)).
Proof.
  intros Hd Hrect. destruct (data d !! "Churn") as [churn|] eqn:Hchurn.
  - destruct (decide (maps_churn s = true -> Forall (fun v => scalar v = true) churn))
      as [Hscalar | Hnot].
    + left. destruct (run_step_ok w s self d churn) as [logs Hrun]; try done.
      { by eapply rectangular_lookup. }
      by exists churn, logs.
    + right.
      assert (maps_churn s = true) as Hmaps by (destruct (maps_churn s); [done | by destruct Hnot]).
      assert (~ Forall (fun v => scalar v = true) churn) as Hcells by (intros ?; by apply Hnot).
      destruct (run_step_unhashable w s self d churn) as [logs Hrun]; try done.
      eexists _, logs. split; [| done].
      intros (churn' & Hchurn' & Hall).
      assert (churn' = churn) as -> by congruence. by apply Hcells, Hall.
  - right. destruct (run_step_missing w s self d) as [logs Hrun]; try done.
    eexists _, logs. split; [| done]. intros (churn' & Hchurn' & _). congruence.
Qed.

End Outcomes.

(** X2: on a frame whose columns have one cell per row, an enrichment call
    returns exactly when the frame has a [Churn] column and, for the calls
    that apply the dict ([preparar_coluna_churn] and
    [aplicar_enriquecimento_padrao]), the cells of that column can be
    hashed. *)
Theorem step_returns_iff {G FS} `{!Numpy G} `{!Disk FS}
    (w : World G FS) s self d :
  heap w !! df self = Some d ->
  rectangular d ->
  (exists w', run_step s self w = (Ok self, w')) <-> can_run s d.
Proof.
  intros Hd Hrect.
  destruct (run_step_cases w s self d Hd Hrect)
    as [(churn & logs & Hchurn & Hscalar & Hrun) | (cause & logs & Hnot & Hrun)].
  - split; [| by eauto]. intros _. by exists churn.
  - split; [| done]. intros [w' Hok]. by rewrite Hrun in Hok.
Qed.

Lemma step_returns_iff_witness :
  (exists w', run_step AplicarEnriquecimentoPadrao Lab.self1 Lab.w1 = (Ok Lab.self1, w'))
  <-> can_run AplicarEnriquecimentoPadrao Lab.telco.
Proof.
  apply (step_returns_iff Lab.w1 AplicarEnriquecimentoPadrao Lab.self1 Lab.telco).
  - reflexivity.
  - apply (bool_decide_unpack _). vm_compute. reflexivity.
Defined.

(** X3: on a frame whose columns have one cell per row, an enrichment call
    that raises has changed nothing but the log: the frames, the generator
    and the disk are as they were, and the exception is a
    [CustomException]. *)
Theorem raising_step_changes_nothing {G FS} `{!Numpy G} `{!Disk FS}
    (w : World G FS) s self d e w' :
  heap w !! df self = Some d ->
  rectangular d ->
  run_step s self w = (Raise e, w') ->
  heap w' = heap w /\ gen w' = gen w /\ disk w' = disk w /\
  exists cause, e = CustomException cause.
Proof.
  intros Hd Hrect Hraise.
  destruct (run_step_cases w s self d Hd Hrect)
    as [(churn & logs & _ & _ & Hrun) | (cause & logs & _ & Hrun)];
    rewrite Hrun in Hraise; [done |].
  injection Hraise as <- <-. repeat split. by exists cause.
Qed.

Lemma raising_step_changes_nothing_witness :
  heap (preparar_coluna_churn Lab.self1 Lab.nested_world).2 = heap Lab.nested_world /\
  gen (preparar_coluna_churn Lab.self1 Lab.nested_world).2 = gen Lab.nested_world /\
  disk (preparar_coluna_churn Lab.self1 Lab.nested_world).2 = disk Lab.nested_world /\
  exists cause, CustomException (TypeError "unhashable type: 'list'") = CustomException cause.
Proof.
  apply (raising_step_changes_nothing Lab.nested_world PrepararColunaChurn Lab.self1
           Lab.nested_frame).
  - reflexivity.
  - apply (bool_decide_unpack _). vm_compute. reflexivity.
  - reflexivity.
Defined.

(** X4: an enrichment call that returns has added exactly its own columns to
    the frame (the three of [gerar_features_interacao], the four of
    [gerar_features_uso_recente], those seven for
    [aplicar_enriquecimento_padrao]), kept the number of rows, and left
    every other column as it was. *)
Theorem returning_step_columns {G FS} `{!Numpy G} `{!Disk FS}
    (w : World G FS) s self d s' w' :
  heap w !! df self = Some d ->
  rectangular d ->
  run_step s self w = (Ok s', w') ->
  exists d',
    heap w' !! df self = Some d' /\
    nrows d' = nrows d /\
    dom (data d') = dom (data d) ∪ list_to_set (written s) /\
    forall label, label ∉ written s -> data d' !! label = data d !! label.
Proof.
  intros Hd Hrect Hret.
  destruct (run_step_cases w s self d Hd Hrect)
    as [(churn & logs & Hchurn & _ & Hrun) | (cause & logs & _ & Hrun)];
    rewrite Hrun in Hret; [| done].
  injection Hret as <- <-. eexists. split; [apply lookup_insert_eq |].
  split; [apply step_frame_nrows |].
  split; [by apply step_frame_dom |].
  intros label Hlabel. by apply step_frame_lookup_ne.
Qed.

Lemma returning_step_columns_witness :
  exists d',
    heap (aplicar_enriquecimento_padrao Lab.self1 Lab.w1).2 !! df Lab.self1 = Some d' /\
    nrows d' = nrows Lab.telco /\
    dom (data d') = dom (data Lab.telco) ∪ list_to_set (written AplicarEnriquecimentoPadrao) /\
    forall label, label ∉ written AplicarEnriquecimentoPadrao ->
      data d' !! label = data Lab.telco !! label.
Proof.
  apply (returning_step_columns Lab.w1 AplicarEnriquecimentoPadrao Lab.self1 Lab.telco
           Lab.self1).
  - reflexivity.
  - apply (bool_decide_unpack _). vm_compute. reflexivity.
  - vm_compute. reflexivity.
Defined.

(** ** The columns of [gerar_features_interacao] *)

Section InteracaoColumns.
Context {G : Type} `{!Numpy G}.

Lemma where_col_lookup churn xs ys i c a b :
  churn !! i = Some c -> xs !! i = Some a -> ys !! i = Some b ->
  where_col churn xs ys !! i = Some (VInt (if eq_one c then a else b)).
Proof.
  intros Hc Ha Hb. unfold where_col. rewrite list_lookup_map.
  rewrite (np_where_lookup _ _ _ i (eq_one c) a b); [done | | done | done].
  by rewrite list_lookup_map, Hc.
Qed.

Lemma where_col_row churn xs ys i c :
  length xs = length churn -> length ys = length churn ->
  churn !! i = Some c ->
  where_col churn xs ys !! i = VInt <$> (if eq_one c then xs !! i else ys !! i).
Proof.
  intros Hxs Hys Hc. pose proof (lookup_lt_Some _ _ _ Hc) as Hi.
  destruct (lookup_lt_is_Some_2 xs i) as [a Ha]; [lia |].
  destruct (lookup_lt_is_Some_2 ys i) as [b Hb]; [lia |].
  rewrite (where_col_lookup churn xs ys i c a b) by done.
  rewrite Ha, Hb. by destruct (eq_one c).
Qed.

Lemma interacao_frame_logins churn (g : G) d :
  data (interacao_frame churn g d) !! "num_logins_last_30d"
  = Some (interacao_columns (nrows d) churn g).1.1.1.
Proof.
  unfold interacao_frame, interacao_columns. cbn zeta.
  rewrite !set_column_lookup_ne by done. apply set_column_lookup.
Qed.

Lemma interacao_frame_tickets churn (g : G) d :
  data (interacao_frame churn g d) !! "support_tickets_last_90d"
  = Some (interacao_columns (nrows d) churn g).1.1.2.
Proof.
  unfold interacao_frame, interacao_columns. cbn zeta.
  rewrite !set_column_lookup_ne by done. apply set_column_lookup.
Qed.

Lemma interacao_frame_days churn (g : G) d :
  data (interacao_frame churn g d) !! "last_interaction_days_ago"
  = Some (interacao_columns (nrows d) churn g).1.2.
Proof.
  unfold interacao_frame, interacao_columns. cbn zeta. apply set_column_lookup.
Qed.

End InteracaoColumns.

(** X5: [gerar_features_interacao] draws six arrays of one value per row, in
    this order: poisson(2), poisson(10), poisson(3), poisson(1),
    randint(15, 60), randint(1, 15), each from the generator the draw
    before left, whatever the labels are.  A row whose [Churn] equals 1
    takes its logins, tickets and days from the first, third and fifth
    array, any other row from the second, fourth and sixth, at the row's
    own position. *)
Theorem gerar_features_interacao_draws {G FS} `{!Numpy G} `{!Disk FS}
    (w : World G FS) self d churn :
  heap w !! df self = Some d ->
  rectangular d ->
  data d !! "Churn" = Some churn ->
  let n := nrows d in
  let p1 := poisson 2 n (gen w) in
  let p2 := poisson 10 n p1.2 in
  let p3 := poisson 3 n p2.2 in
  let p4 := poisson 1 n p3.2 in
  let p5 := randint 15 60 n p4.2 in
  let p6 := randint 1 15 n p5.2 in
  exists w' d' logins tickets days,
    gerar_features_interacao self w = (Ok self, w') /\
    gen w' = p6.2 /\
    heap w' !! df self = Some d' /\
    data d' !! "num_logins_last_30d" = Some logins /\
    data d' !! "support_tickets_last_90d" = Some tickets /\
    data d' !! "last_interaction_days_ago" = Some days /\
    forall i c, churn !! i = Some c ->
      logins !! i = VInt <$> (if eq_one c then p1.1 !! i else p2.1 !! i) /\
      tickets !! i = VInt <$> (if eq_one c then p3.1 !! i else p4.1 !! i) /\
      days !! i = VInt <$> (if eq_one c then p5.1 !! i else p6.1 !! i).
Proof.
  intros Hd Hrect Hchurn n p1 p2 p3 p4 p5 p6.
  pose proof (rectangular_lookup _ _ _ Hrect Hchurn) as Hlen.
  eexists _, _, _, _, _. split.
  { by apply (gerar_features_interacao_run w self d churn). }
  cbn [heap gen]. split; [done |].
  split; [apply lookup_insert_eq |].
  split; [apply interacao_frame_logins |].
  split; [apply interacao_frame_tickets |].
  split; [apply interacao_frame_days |].
  intros i c Hc. unfold interacao_columns. cbn [fst snd].
  subst n p1 p2 p3 p4 p5 p6.
  repeat split; apply where_col_row; try done;
    rewrite ?poisson_length, ?randint_length; done.
Qed.

Lemma gerar_features_interacao_draws_witness :
  let n := nrows Lab.telco_bits in
  let p1 := poisson 2 n (gen Lab.w_bits) in
  let p2 := poisson 10 n p1.2 in
  let p3 := poisson 3 n p2.2 in
  let p4 := poisson 1 n p3.2 in
  let p5 := randint 15 60 n p4.2 in
  let p6 := randint 1 15 n p5.2 in
  exists w' d' logins tickets days,
    gerar_features_interacao Lab.self1 Lab.w_bits = (Ok Lab.self1, w') /\
    gen w' = p6.2 /\
    heap w' !! df Lab.self1 = Some d' /\
    data d' !! "num_logins_last_30d" = Some logins /\
    data d' !! "support_tickets_last_90d" = Some tickets /\
    data d' !! "last_interaction_days_ago" = Some days /\
    forall i c, Lab.bits !! i = Some c ->
      logins !! i = VInt <$> (if eq_one c then p1.1 !! i else p2.1 !! i) /\
      tickets !! i = VInt <$> (if eq_one c then p3.1 !! i else p4.1 !! i) /\
      days !! i = VInt <$> (if eq_one c then p5.1 !! i else p6.1 !! i).
Proof.
  apply (gerar_features_interacao_draws Lab.w_bits Lab.self1 Lab.telco_bits Lab.bits).
  - reflexivity.
  - apply (bool_decide_unpack _). vm_compute. reflexivity.
  - reflexivity.
Defined.

(** X6: called before [preparar_coluna_churn], on a [Churn] column that still
    holds strings, [gerar_features_interacao] returns and treats every row
    as one whose [Churn] is not 1: every [last_interaction_days_ago] is in
    [1, 15). *)
Theorem gerar_features_interacao_on_strings {G FS} `{!Numpy G} `{!Disk FS}
    (w : World G FS) self d churn :
  heap w !! df self = Some d ->
  rectangular d ->
  data d !! "Churn" = Some churn ->
  Forall (fun v => exists s, v = VStr s) churn ->
  exists w' d' days,
    gerar_features_interacao self w = (Ok self, w') /\
    heap w' !! df self = Some d' /\
    data d' !! "Churn" = Some churn /\
    data d' !! "last_interaction_days_ago" = Some days /\
    length days = nrows d /\
    forall i v, days !! i = Some v -> exists z, v = VInt z /\ 1 <= z < 15.
Proof.
  intros Hd Hrect Hchurn Hstr.
  pose proof (rectangular_lookup _ _ _ Hrect Hchurn) as Hlen.
  eexists _, _, _. split.
  { by apply (gerar_features_interacao_run w self d churn). }
  cbn [heap]. split; [apply lookup_insert_eq |].
  split.
  { rewrite interacao_frame_lookup_ne; [done |]. by apply (bool_decide_unpack _). }
  split; [apply interacao_frame_days |].
  unfold interacao_columns. cbn [fst snd].
  split.
  { apply where_col_length; rewrite ?randint_length; done. }
  intros i v Hv.
  assert (i < length churn)%nat as Hi.
  { apply lookup_lt_Some in Hv.
    rewrite (where_col_length _ _ _ (nrows d)) in Hv;
      rewrite ?randint_length; try done. lia. }
  destruct (lookup_lt_is_Some_2 churn i Hi) as [c Hc].
  rewrite (where_col_row _ _ _ i c) in Hv; rewrite ?randint_length; try done.
  destruct (Forall_lookup_1 _ _ _ _ Hstr Hc) as [s ->]. cbn in Hv.
  destruct (_ !! i) as [z|] eqn:Hz; [| done].
  injection Hv as <-. exists z. split; [done |].
  by eapply (Forall_lookup_1 _ _ _ _ (randint_range 1 15 _ _ eq_refl) Hz).
Qed.

Lemma gerar_features_interacao_on_strings_witness :
  exists w' d' days,
    gerar_features_interacao Lab.self1 Lab.w1 = (Ok Lab.self1, w') /\
    heap w' !! df Lab.self1 = Some d' /\
    data d' !! "Churn" = Some Lab.churn /\
    data d' !! "last_interaction_days_ago" = Some days /\
    length days = nrows Lab.telco /\
    forall i v, days !! i = Some v -> exists z, v = VInt z /\ 1 <= z < 15.
Proof.
  apply (gerar_features_interacao_on_strings Lab.w1 Lab.self1 Lab.telco Lab.churn).
  - reflexivity.
  - apply (bool_decide_unpack _). vm_compute. reflexivity.
  - reflexivity.
  - repeat constructor; by eexists.
Defined.

(** ** The rows of [gerar_features_uso_recente] *)

Section UsoRows.
Context {G : Type} `{!Numpy G}.

Lemma iter_one_series n (g : G) :
  Nat.iter n one_series (one_series g) = one_series (Nat.iter n one_series g).
Proof.
  induction n as [|n IH]; [done |].
  change (one_series (Nat.iter n one_series (one_series g))
          = one_series (one_series (Nat.iter n one_series g))).
  by rewrite IH.
Qed.

Lemma usage_series_gen churn (g : G) :
  (usage_series churn g).2 = Nat.iter (length churn) one_series g.
Proof.
  revert g. induction churn as [|c churn IH]; intros g; [done |].
  cbn [usage_series snd length]. rewrite IH. exact (iter_one_series _ g).
Qed.

Lemma usage_series_lookup churn (g : G) i c :
  churn !! i = Some c ->
  (usage_series churn g).1 !! i
  = Some (Float64.mul_astype_int
            (poisson 10 6 (Nat.iter i one_series g)).1
            (if eq_one c then Float64.linspace 1 Float64.lit_0_3 6 else Float64.ones 6)).
Proof.
  revert g i. induction churn as [|c' churn IH]; intros g [|i] Hc; try done.
  - injection Hc as ->. reflexivity.
  - cbn [usage_series fst]. rewrite lookup_cons_ne_0 by done. cbn [Nat.pred].
    rewrite (IH _ i Hc). f_equal. f_equal. f_equal. f_equal.
    exact (iter_one_series i g).
Qed.

Lemma uso_recente_frame_usage usage d :
  data (uso_recente_frame usage d) !! "usage_last_6m" = Some (map VList usage).
Proof.
  unfold uso_recente_frame. rewrite !set_column_lookup_ne by done.
  apply set_column_lookup.
Qed.

Lemma uso_recente_frame_trend usage d :
  data (uso_recente_frame usage d) !! "trend_usage"
  = Some (map (fun l => VFloat (polyfit_slope l)) usage).
Proof.
  unfold uso_recente_frame. rewrite !set_column_lookup_ne by done.
  apply set_column_lookup.
Qed.

Lemma uso_recente_frame_std usage d :
  data (uso_recente_frame usage d) !! "std_usage"
  = Some (map (fun l => VFloat (Float64.std l)) usage).
Proof.
  unfold uso_recente_frame. rewrite !set_column_lookup_ne by done.
  apply set_column_lookup.
Qed.

Lemma uso_recente_frame_avg usage d :
  data (uso_recente_frame usage d) !! "avg_usage_last_3m"
  = Some (map (fun l => VFloat (Float64.mean (last3 l))) usage).
Proof. unfold uso_recente_frame. apply set_column_lookup. Qed.

End UsoRows.

(** X7: [gerar_features_uso_recente] makes one [np.random.poisson(10, 6)] draw
    per row, in row order, each from the generator the row before left, so
    the generator it leaves depends on the number of rows only.  The series
    of row [i] is the draw made after [i] earlier ones, times the decaying
    trend [linspace(1, 0.3, 6)] if the row's [Churn] equals 1 and times
    ones otherwise, truncated to integers. *)
Theorem gerar_features_uso_recente_draws {G FS} `{!Numpy G} `{!Disk FS}
    (w : World G FS) self d churn :
  heap w !! df self = Some d ->
  rectangular d ->
  data d !! "Churn" = Some churn ->
  exists w' d' usage,
    gerar_features_uso_recente self w = (Ok self, w') /\
    gen w' = Nat.iter (nrows d) (fun g => (poisson 10 6 g).2) (gen w) /\
    heap w' !! df self = Some d' /\
    data d' !! "usage_last_6m" = Some (map VList usage) /\
    forall i c, churn !! i = Some c ->
      usage !! i
      = Some (Float64.mul_astype_int
                (poisson 10 6 (Nat.iter i (fun g => (poisson 10 6 g).2) (gen w))).1
                (if eq_one c then Float64.linspace 1 Float64.lit_0_3 6
                 else Float64.ones 6)).
Proof.
  intros Hd Hrect Hchurn.
  pose proof (rectangular_lookup _ _ _ Hrect Hchurn) as Hlen.
  eexists _, _, _. split.
  { by apply (gerar_features_uso_recente_run w self d churn). }
  cbn [heap gen]. split.
  { rewrite usage_series_gen. by rewrite Hlen. }
  split; [apply lookup_insert_eq |].
  split; [apply uso_recente_frame_usage |].
  intros i c Hc. by apply usage_series_lookup.
Qed.

Lemma gerar_features_uso_recente_draws_witness :
  exists w' d' usage,
    gerar_features_uso_recente Lab.self1 Lab.w_bits = (Ok Lab.self1, w') /\
    gen w' = Nat.iter (nrows Lab.telco_bits) (fun g => (poisson 10 6 g).2) (gen Lab.w_bits) /\
    heap w' !! df Lab.self1 = Some d' /\
    data d' !! "usage_last_6m" = Some (map VList usage) /\
    forall i c, Lab.bits !! i = Some c ->
      usage !! i
      = Some (Float64.mul_astype_int
                (poisson 10 6 (Nat.iter i (fun g => (poisson 10 6 g).2) (gen Lab.w_bits))).1
                (if eq_one c then Float64.linspace 1 Float64.lit_0_3 6
                 else Float64.ones 6)).
Proof.
  apply (gerar_features_uso_recente_draws Lab.w_bits Lab.self1 Lab.telco_bits Lab.bits).
  - reflexivity.
  - apply (bool_decide_unpack _). vm_compute. reflexivity.
  - reflexivity.
Defined.

(** X8: after [gerar_features_uso_recente], the [trend_usage] of every row is
    the slope [np.polyfit(range(6), x, 1)[0]] of the series [x] stored in
    the same row, and its [std_usage] is [np.std(x)] of that series. *)
Theorem gerar_features_uso_recente_trend_std {G FS} `{!Numpy G} `{!Disk FS}
    (w : World G FS) self d churn :
  heap w !! df self = Some d ->
  rectangular d ->
  data d !! "Churn" = Some churn ->
  exists w' d' usage trend std,
    gerar_features_uso_recente self w = (Ok self, w') /\
    heap w' !! df self = Some d' /\
    data d' !! "usage_last_6m" = Some usage /\
    data d' !! "trend_usage" = Some trend /\
    data d' !! "std_usage" = Some std /\
    length usage = nrows d /\ length trend = nrows d /\ length std = nrows d /\
    forall i v, usage !! i = Some v ->
      exists x, v = VList x /\
        trend !! i = Some (VFloat (polyfit_slope x)) /\
        std !! i = Some (VFloat (Float64.std x)).
Proof.
  intros Hd Hrect Hchurn.
  pose proof (rectangular_lookup _ _ _ Hrect Hchurn) as Hlen.
  eexists _, _, _, _, _. split.
  { by apply (gerar_features_uso_recente_run w self d churn). }
  cbn [heap]. split; [apply lookup_insert_eq |].
  split; [apply uso_recente_frame_usage |].
  split; [apply uso_recente_frame_trend |].
  split; [apply uso_recente_frame_std |].
  rewrite !length_map, usage_series_length.
  repeat split; try done.
  intros i v Hv. rewrite list_lookup_map in Hv.
  destruct (_ !! i) as [x|] eqn:Hx; [| done].
  injection Hv as <-. exists x. by rewrite !list_lookup_map, Hx.
Qed.

Lemma gerar_features_uso_recente_trend_std_witness :
  exists w' d' usage trend std,
    gerar_features_uso_recente Lab.self1 Lab.w_bits = (Ok Lab.self1, w') /\
    heap w' !! df Lab.self1 = Some d' /\
    data d' !! "usage_last_6m" = Some usage /\
    data d' !! "trend_usage" = Some trend /\
    data d' !! "std_usage" = Some std /\
    length usage = nrows Lab.telco_bits /\ length trend = nrows Lab.telco_bits /\
    length std = nrows Lab.telco_bits /\
    forall i v, usage !! i = Some v ->
      exists x, v = VList x /\
        trend !! i = Some (VFloat (polyfit_slope x)) /\
        std !! i = Some (VFloat (Float64.std x)).
Proof.
  apply (gerar_features_uso_recente_trend_std Lab.w_bits Lab.self1 Lab.telco_bits Lab.bits).
  - reflexivity.
  - apply (bool_decide_unpack _). vm_compute. reflexivity.
  - reflexivity.
Defined.

(** ** The arithmetic of [_generate_usage_series] *)

Section UsageArithmetic.

Lemma all_from_spec n b p z :
  all_from n b p = true -> b <= z < b + Z.of_nat n -> p z = true.
Proof.
  revert b. induction n as [|n IH]; intros b Hall Hz; [lia |].
  cbn [all_from] in Hall. apply andb_prop in Hall as [Hb Hrest].
  destruct (decide (z = b)) as [-> | Hne]; [done |].
  apply (IH (b + 1)); [done | lia].
Qed.

Lemma counts_checked :
  all_from (Z.to_nat count_bound) 0 (fun b => flat_ok b && decay_ok b) = true.
Proof. vm_compute. reflexivity. Qed.

Lemma count_checked b :
  0 <= b < count_bound -> flat_ok b = true /\ decay_ok b = true.
Proof.
  intros Hb. apply andb_prop.
  apply (all_from_spec _ _ (fun b => flat_ok b && decay_ok b) b counts_checked).
  rewrite Z2Nat.id by done. lia.
Qed.

Lemma mul_ones base :
  Forall (fun b => 0 <= b < count_bound) base ->
  length base = 6%nat ->
  Float64.mul_astype_int base (Float64.ones 6) = base.
Proof.
  intros Hall Hlen.
  destruct base as [|b1 [|b2 [|b3 [|b4 [|b5 [|b6 [|]]]]]]]; try done.
  repeat match goal with
         | H : Forall _ (_ :: _) |- _ => apply Forall_cons in H as [? H]
         end.
  unfold Float64.mul_astype_int, Float64.ones. cbn [repeat zip_with].
  repeat match goal with
         | H : 0 <= ?b < count_bound |- _ =>
             apply count_checked in H as [H _]; unfold flat_ok in H;
             apply Z.eqb_eq in H; rewrite H
         end.
  done.
Qed.

Lemma mul_decay base :
  Forall (fun b => 0 <= b < count_bound) base ->
  length base = 6%nat ->
  Forall2 (fun r b => 0 <= r <= b)
          (Float64.mul_astype_int base (Float64.linspace 1 Float64.lit_0_3 6)) base.
Proof.
  intros Hall Hlen.
  destruct base as [|b1 [|b2 [|b3 [|b4 [|b5 [|b6 [|]]]]]]]; try done.
  repeat match goal with
         | H : Forall _ (_ :: _) |- _ => apply Forall_cons in H as [? H]
         end.
  repeat match goal with
         | H : 0 <= ?b < count_bound |- _ =>
             apply count_checked in H as [_ H]; unfold decay_ok in H;
             rewrite forallb_forall in H
         end.
  set (trend := Float64.linspace 1 Float64.lit_0_3 6) in *.
  assert (exists t1 t2 t3 t4 t5 t6, trend = [t1; t2; t3; t4; t5; t6]) as
    (t1 & t2 & t3 & t4 & t5 & t6 & Ht) by (vm_compute; by eexists _, _, _, _, _, _).
  rewrite Ht in *. unfold Float64.mul_astype_int. cbn [zip_with].
  repeat constructor;
    match goal with
    | H : forall x, In x _ -> _ |- 0 <= Float64.to_int (PrimFloat.mul (Float64.of_int ?b) ?t) =>
        assert (In t [t1; t2; t3; t4; t5; t6]) as Hin by (cbn; tauto);
        specialize (H t Hin); cbn zeta in H; lia
    | H : forall x, In x _ -> _ |- Float64.to_int (PrimFloat.mul (Float64.of_int ?b) ?t) <= ?b =>
        assert (In t [t1; t2; t3; t4; t5; t6]) as Hin by (cbn; tauto);
        specialize (H t Hin); cbn zeta in H; lia
    end.
Qed.

End UsageArithmetic.

(** X9: [_generate_usage_series] always draws six counts once, with
    [np.random.poisson(10, 6)], and returns a series of six integers.
    When the counts drawn are below 4096 (the float64 products were
    evaluated for every such count), the series is, for a row whose
    [Churn] is not 1, the counts as drawn, and for a row whose [Churn]
    equals 1 a series that is, month by month, between 0 and the count
    drawn. *)
Theorem generate_usage_series_flat_or_decayed {G FS} `{!Numpy G} `{!Disk FS}
    (w : World G FS) churned :
  exists l,
    _generate_usage_series churned w
    = (Ok l, mkWorld (heap w) (poisson 10 6 (gen w)).2 (disk w) (out w)) /\
    length l = 6%nat /\
    (Forall (fun b => 0 <= b < count_bound) (poisson 10 6 (gen w)).1 ->
     (eq_one churned = false -> l = (poisson 10 6 (gen w)).1) /\
     (eq_one churned = true ->
        Forall2 (fun r b => 0 <= r <= b) l (poisson 10 6 (gen w)).1)).
Proof.
  eexists. split; [apply generate_usage_series_run |].
  pose proof (poisson_length 10 6 (gen w)) as Hlen.
  split.
  { apply mul_astype_int_length; [done |].
    destruct (eq_one churned); [apply linspace_length | apply repeat_length]. }
  intros Hrange. split; intros ->.
  - by apply mul_ones.
  - by apply mul_decay.
Qed.

Lemma generate_usage_series_flat_or_decayed_witness :
  Forall (fun b => 0 <= b < count_bound) (poisson 10 6 (gen Lab.w_bits)).1 /\
  exists l,
    _generate_usage_series (VInt 1) Lab.w_bits
    = (Ok l, mkWorld (heap Lab.w_bits) (poisson 10 6 (gen Lab.w_bits)).2
                     (disk Lab.w_bits) (out Lab.w_bits)) /\
    length l = 6%nat /\
    (Forall (fun b => 0 <= b < count_bound) (poisson 10 6 (gen Lab.w_bits)).1 ->
     (eq_one (VInt 1) = false -> l = (poisson 10 6 (gen Lab.w_bits)).1) /\
     (eq_one (VInt 1) = true ->
        Forall2 (fun r b => 0 <= r <= b) l (poisson 10 6 (gen Lab.w_bits)).1)).
Proof.
  split.
  - repeat constructor; vm_compute; done.
  - apply (generate_usage_series_flat_or_decayed Lab.w_bits (VInt 1)).
Defined.

(** ** A [Churn] column that is only partly ["Yes"] and ["No"] *)

Lemma take_nd_float found i z :
  Exists (fun o => o = None) found ->
  found !! i = Some (Some z) ->
  take_nd found !! i = Some (VFloat (Float64.of_int z)).
Proof.
  intros Hex Hi. unfold take_nd.
  destruct (forallb _ found) eqn:Hall.
  - exfalso. rewrite forallb_forall in Hall.
    apply Exists_exists in Hex as (o & Ho & ->).
    apply list_elem_of_In in Ho. specialize (Hall _ Ho).
    apply bool_decide_eq_true in Hall. by destruct Hall.
  - by rewrite list_lookup_map, Hi.
Qed.

(** X10: on a [Churn] column of scalars of which at least one is neither
    ["Yes"] nor ["No"], [preparar_coluna_churn] leaves a float64 column:
    [1.0] in each row that held ["Yes"] and [0.0] in each row that held
    ["No"] (and these still compare equal to 1 and different from 1 in the
    later steps). *)
Theorem preparar_coluna_churn_partly_valid {G FS} `{!Numpy G} `{!Disk FS}
    (w : World G FS) self d col :
  heap w !! df self = Some d ->
  data d !! "Churn" = Some col ->
  Forall (fun v => scalar v = true) col ->
  Exists (fun v => v <> VStr "Yes" /\ v <> VStr "No") col ->
  exists w' d' col',
    preparar_coluna_churn self w = (Ok self, w') /\
    heap w' !! df self = Some d' /\
    data d' !! "Churn" = Some col' /\
    forall i,
      (col !! i = Some (VStr "Yes") ->
         col' !! i = Some (VFloat 1) /\ eq_one (VFloat 1) = true) /\
      (col !! i = Some (VStr "No") ->
         col' !! i = Some (VFloat 0) /\ eq_one (VFloat 0) = false).
Proof.
  intros Hd Hcol Hsc Hex.
  eexists _, _, (take_nd (map yes_no_at col)). split.
  { eapply preparar_coluna_churn_run; [done | done |].
    by apply series_map_scalar. }
  cbn [heap]. rewrite lookup_insert_eq. split; [done |].
  rewrite set_column_lookup. split; [done |].
  assert (Exists (fun o : option Z => o = None) (map yes_no_at col)) as Hnone.
  { apply Exists_exists in Hex as (v & Hv & Hy & Hn).
    apply Exists_exists. exists None. split; [| done].
    rewrite <- (yes_no_at_other v Hy Hn). by apply list_elem_of_fmap_2. }
  intros i. split; intros Hi; (split; [| reflexivity]).
  - rewrite (take_nd_float _ i 1); [done | done |].
    by rewrite list_lookup_map, Hi.
  - rewrite (take_nd_float _ i 0); [done | done |].
    by rewrite list_lookup_map, Hi.
Qed.

Lemma preparar_coluna_churn_partly_valid_witness :
  exists w' d' col',
    preparar_coluna_churn Lab.self1 Lab.mixed_world = (Ok Lab.self1, w') /\
    heap w' !! df Lab.self1 = Some d' /\
    data d' !! "Churn" = Some col' /\
    forall i,
      (Lab.mixed_churn !! i = Some (VStr "Yes") ->
         col' !! i = Some (VFloat 1) /\ eq_one (VFloat 1) = true) /\
      (Lab.mixed_churn !! i = Some (VStr "No") ->
         col' !! i = Some (VFloat 0) /\ eq_one (VFloat 0) = false).
Proof.
  apply (preparar_coluna_churn_partly_valid Lab.mixed_world Lab.self1 Lab.mixed_frame
           Lab.mixed_churn).
  - reflexivity.
  - reflexivity.
  - repeat constructor.
  - apply Exists_cons_tl, Exists_cons_hd. done.
Defined.

(** ** The default pipeline on a raw frame *)

(** X11: on a frame whose columns have one cell per row and whose [Churn] holds
    only ["Yes"] and ["No"], [aplicar_enriquecimento_padrao] returns the
    object it was called on.  The frame then has the columns it had and
    seven more; [Churn] holds 1 for ["Yes"] and 0 for ["No"]; a row that
    held ["Yes"] has its [last_interaction_days_ago] in [15, 60), a row that
    held ["No"] in [1, 15); and every row has a series of six in
    [usage_last_6m]. *)
Theorem aplicar_enriquecimento_padrao_on_yes_no {G FS} `{!Numpy G} `{!Disk FS}
    (w : World G FS) self d churn :
  heap w !! df self = Some d ->
  rectangular d ->
  data d !! "Churn" = Some churn ->
  Forall is_yes_no churn ->
  exists w' d' days usage,
    aplicar_enriquecimento_padrao self w = (Ok self, w') /\
    heap w' !! df self = Some d' /\
    nrows d' = nrows d /\
    dom (data d') = dom (data d) ∪
      {[ "num_logins_last_30d"; "support_tickets_last_90d"; "last_interaction_days_ago";
         "usage_last_6m"; "trend_usage"; "std_usage"; "avg_usage_last_3m" ]} /\
    data d' !! "Churn" = Some (map bit_of churn) /\
    data d' !! "last_interaction_days_ago" = Some days /\
    data d' !! "usage_last_6m" = Some (map VList usage) /\
    length usage = nrows d /\
    Forall six usage /\
    forall i,
      (churn !! i = Some (VStr "Yes") -> exists z, days !! i = Some (VInt z) /\ 15 <= z < 60) /\
      (churn !! i = Some (VStr "No") -> exists z, days !! i = Some (VInt z) /\ 1 <= z < 15).
Proof.
  intros Hd Hrect Hchurn Hyn.
  pose proof (rectangular_lookup _ _ _ Hrect Hchurn) as Hlen.
  destruct (run_step_ok w AplicarEnriquecimentoPadrao self d churn) as [logs Hrun];
    try done.
  { intros _. eapply Forall_impl; [exact Hyn |]. apply is_yes_no_scalar. }
  cbn [run_step step_frame step_gen] in Hrun.
  unfold mapped_churn in Hrun. rewrite (take_nd_yes_no _ Hyn) in Hrun.
  eexists _, _, _, _. split; [exact Hrun |].
  cbn [heap]. split; [apply lookup_insert_eq |].
  split; [apply padrao_frame_nrows |].
  split.
  { rewrite padrao_frame_dom by eauto.
    assert ("Churn" ∈ dom (data d)) by (apply elem_of_dom; eauto).
    cbn [written list_to_set]. set_unfold. intros x. split; [| tauto].
    intros [? | [-> | ?]]; tauto. }
  unfold padrao_frame. cbn zeta.
  split.
  { rewrite uso_recente_frame_lookup_ne by (by apply (bool_decide_unpack _)).
    rewrite interacao_frame_lookup_ne by (by apply (bool_decide_unpack _)).
    apply set_column_lookup. }
  split.
  { rewrite uso_recente_frame_lookup_ne by (by apply (bool_decide_unpack _)).
    apply interacao_frame_days. }
  split; [apply uso_recente_frame_usage |].
  split; [by rewrite usage_series_length, length_map |].
  split; [apply usage_series_six |].
  rewrite set_column_nrows. unfold interacao_columns. cbn [fst snd].
  intros i. split; intros Hi.
  - rewrite (where_col_row _ _ _ i (VInt 1));
      rewrite ?randint_length, ?length_map; try done.
    2: { by rewrite list_lookup_map, Hi. }
    cbn [eq_one Z.eqb Pos.eqb].
    assert (i < nrows d)%nat as Hlt by (apply lookup_lt_Some in Hi; lia).
    destruct (lookup_lt_is_Some_2 (randint 15 60 (nrows d)
      (poisson 1 (nrows d) (poisson 3 (nrows d) (poisson 10 (nrows d)
        (poisson 2 (nrows d) (gen w)).2).2).2).2).1 i) as [z Hz].
    { by rewrite randint_length. }
    rewrite Hz. exists z. split; [done |].
    by eapply (Forall_lookup_1 _ _ _ _ (randint_range 15 60 _ _ eq_refl) Hz).
  - rewrite (where_col_row _ _ _ i (VInt 0));
      rewrite ?randint_length, ?length_map; try done.
    2: { by rewrite list_lookup_map, Hi. }
    cbn [eq_one Z.eqb].
    assert (i < nrows d)%nat as Hlt by (apply lookup_lt_Some in Hi; lia).
    destruct (lookup_lt_is_Some_2 (randint 1 15 (nrows d)
      (randint 15 60 (nrows d)
      (poisson 1 (nrows d) (poisson 3 (nrows d) (poisson 10 (nrows d)
        (poisson 2 (nrows d) (gen w)).2).2).2).2).2).1 i) as [z Hz].
    { by rewrite randint_length. }
    rewrite Hz. exists z. split; [done |].
    by eapply (Forall_lookup_1 _ _ _ _ (randint_range 1 15 _ _ eq_refl) Hz).
Qed.

Lemma aplicar_enriquecimento_padrao_on_yes_no_witness :
  exists w' d' days usage,
    aplicar_enriquecimento_padrao Lab.self1 Lab.w1 = (Ok Lab.self1, w') /\
    heap w' !! df Lab.self1 = Some d' /\
    nrows d' = nrows Lab.telco /\
    dom (data d') = dom (data Lab.telco) ∪
      {[ "num_logins_last_30d"; "support_tickets_last_90d"; "last_interaction_days_ago";
         "usage_last_6m"; "trend_usage"; "std_usage"; "avg_usage_last_3m" ]} /\
    data d' !! "Churn" = Some (map bit_of Lab.churn) /\
    data d' !! "last_interaction_days_ago" = Some days /\
    data d' !! "usage_last_6m" = Some (map VList usage) /\
    length usage = nrows Lab.telco /\
    Forall six usage /\
    forall i,
      (Lab.churn !! i = Some (VStr "Yes") ->
         exists z, days !! i = Some (VInt z) /\ 15 <= z < 60) /\
      (Lab.churn !! i = Some (VStr "No") ->
         exists z, days !! i = Some (VInt z) /\ 1 <= z < 15).
Proof.
  apply (aplicar_enriquecimento_padrao_on_yes_no Lab.w1 Lab.self1 Lab.telco Lab.churn).
  - reflexivity.
  - apply (bool_decide_unpack _). vm_compute. reflexivity.
  - reflexivity.
  - repeat constructor; (by left) || (by right).
Defined.

(** * Loading and saving *)

Section FileRuns.
Context {G FS : Type} `{!Numpy G} `{!Disk FS}.

Lemma os_makedirs_pair dir (fs : FS) :
  os_makedirs dir fs = ((os_makedirs dir fs).1, (os_makedirs dir fs).2).
Proof. by destruct (os_makedirs dir fs). Qed.

(** [os.makedirs] raising ends [salvar]: the exception is outside the
    [try] of step 2. *)
Lemma salvar_makedirs_raises (w : World G FS) self caminho_saida e :
  Path.dirname caminho_saida <> EmptyString ->
  (os_makedirs (Path.dirname caminho_saida) (disk w)).1 = Raise e ->
  salvar self caminho_saida w
  = (Raise e,
     mkWorld (heap w) (gen w) (os_makedirs (Path.dirname caminho_saida) (disk w)).2
             (out w ++ [Makedirs (Path.dirname caminho_saida)])).
Proof.
  intros Hdir Hraise. unfold salvar, makedirs, logging_info.
  assert (String.eqb (Path.dirname caminho_saida) EmptyString = false) as ->
    by by apply String.eqb_neq.
  unfold_monad. rewrite os_makedirs_pair, Hraise. done.
Qed.

(** Step 2 of [salvar] once step 1 has returned. *)
Lemma salvar_step_2 (w : World G FS) self caminho_saida :
  dir_ok (Path.dirname caminho_saida) w ->
  salvar self caminho_saida w
  = try_except
      (estrategia_classe <- lift (dict_getitem _estrategias_salvamento
                                    (Path.lower (Path.splitext caminho_saida).2)) ;;
       salvador_salvar estrategia_classe (df self) caminho_saida ;;
       logging_info ("SUCESSO: Dataset salvo com sucesso em '" ++ caminho_saida ++ "'."))
      (fun e =>
         match e with
         | KeyError _ =>
             print ("ERRO: Nenhuma estratégia de salvamento encontrada para a extensão '"
                      ++ (Path.splitext caminho_saida).2 ++ "'.") ;;
             raise (ValueError ("Formato de arquivo para salvamento '"
                                  ++ (Path.splitext caminho_saida).2
                                  ++ "' não é suportado."))
         | _ => raise (CustomException e)
         end)
      (dir_ready (Path.dirname caminho_saida) w).
Proof.
  intros Hok. unfold salvar, dir_ready.
  destruct (String.eqb (Path.dirname caminho_saida) EmptyString) eqn:Hdir; cbn [negb].
  - unfold bind at 1. unfold ret. done.
  - destruct Hok as [Hbare | Hmade].
    { apply String.eqb_neq in Hdir. done. }
    unfold bind at 1. unfold makedirs, logging_info.
    unfold bind at 1. unfold bind at 1. unfold emit at 1. cbn [disk heap gen out].
    rewrite os_makedirs_pair, Hmade. unfold emit at 1. cbn [disk heap gen out].
    by rewrite <- app_assoc.
Qed.

Lemma pd_write_pair s d path (fs : FS) :
  pd_write s d path fs = ((pd_write s d path fs).1, (pd_write s d path fs).2).
Proof. by destruct (pd_write s d path fs). Qed.

(** [salvar] with a writer for the extension, when the writer returns. *)
Lemma salvar_saved (w : World G FS) self caminho_saida salvador d :
  let w1 := dir_ready (Path.dirname caminho_saida) w in
  dir_ok (Path.dirname caminho_saida) w ->
  _estrategias_salvamento !! Path.lower (Path.splitext caminho_saida).2 = Some salvador ->
  heap w !! df self = Some d ->
  (pd_write salvador d caminho_saida (disk w1)).1 = Ok () ->
  salvar self caminho_saida w
  = (Ok (),
     mkWorld (heap w) (gen w) (pd_write salvador d caminho_saida (disk w1)).2
             (out w1 ++ [Log (salvar_msg salvador caminho_saida);
                         WriteFile salvador caminho_saida d;
                         Log ("SUCESSO: Dataset salvo com sucesso em '"
                                ++ caminho_saida ++ "'.")])).
Proof.
  intros w1 Hok Hsalvador Hd Hwrite. rewrite salvar_step_2 by done. fold w1.
  assert (heap w1 = heap w /\ gen w1 = gen w) as [Hh Hg].
  { unfold w1, dir_ready. by destruct (String.eqb _ _). }
  clearbody w1.
  unfold dict_getitem, salvador_salvar, pd_write_file, wrapped, logging_info.
  rewrite Hsalvador. unfold_monad. rewrite Hh, Hd. cbn.
  rewrite pd_write_pair, Hwrite. cbn. by rewrite ?Hh, ?Hg, <- ?app_assoc.
Qed.

(** [salvar] with a writer for the extension, when the writer raises. *)
Lemma salvar_write_raises (w : World G FS) self caminho_saida salvador d e :
  let w1 := dir_ready (Path.dirname caminho_saida) w in
  dir_ok (Path.dirname caminho_saida) w ->
  _estrategias_salvamento !! Path.lower (Path.splitext caminho_saida).2 = Some salvador ->
  heap w !! df self = Some d ->
  (pd_write salvador d caminho_saida (disk w1)).1 = Raise e ->
  salvar self caminho_saida w
  = (Raise (CustomException (CustomException e)),
     mkWorld (heap w) (gen w) (pd_write salvador d caminho_saida (disk w1)).2
             (out w1 ++ [Log (salvar_msg salvador caminho_saida);
                         WriteFile salvador caminho_saida d])).
Proof.
  intros w1 Hok Hsalvador Hd Hwrite. rewrite salvar_step_2 by done. fold w1.
  assert (heap w1 = heap w /\ gen w1 = gen w) as [Hh Hg].
  { unfold w1, dir_ready. by destruct (String.eqb _ _). }
  clearbody w1.
  unfold dict_getitem, salvador_salvar, pd_write_file, wrapped, logging_info.
  rewrite Hsalvador. unfold_monad. rewrite Hh, Hd. cbn.
  rewrite pd_write_pair, Hwrite. cbn. by rewrite ?Hh, ?Hg, <- ?app_assoc.
Qed.

(** [salvar] without a writer for the extension, once step 1 has
    returned. *)
Lemma salvar_unsupported (w : World G FS) self caminho_saida :
  let w1 := dir_ready (Path.dirname caminho_saida) w in
  dir_ok (Path.dirname caminho_saida) w ->
  _estrategias_salvamento !! Path.lower (Path.splitext caminho_saida).2 = None ->
  salvar self caminho_saida w
  = (Raise (salvar_unsupported_msg (Path.splitext caminho_saida).2),
     mkWorld (heap w1) (gen w1) (disk w1)
             (out w1 ++ [salvar_unsupported_print (Path.splitext caminho_saida).2])).
Proof.
  intros w1 Hok Hnone. rewrite salvar_step_2 by done. fold w1.
  unfold dict_getitem, print. rewrite Hnone. by unfold_monad.
Qed.

(** [from_file] with a reader for the extension, when the reader raises. *)
Lemma from_file_read_raises (w : World G FS) c caminho_arquivo leitor e :
  _estrategia_leitura !! Path.lower (Path.splitext caminho_arquivo).2 = Some leitor ->
  pd_read leitor caminho_arquivo (disk w) = Raise e ->
  from_file c caminho_arquivo w
  = (Raise (CustomException (CustomException e)),
     mkWorld (heap w) (gen w) (disk w)
       (out w ++
        [Log ("Iniciando a criação do dataset a partir do arquivo " ++ caminho_arquivo);
         Log (ler_msg leitor);
         ReadFile leitor caminho_arquivo])).
Proof.
  intros Hleitor Hread.
  unfold from_file, dict_getitem, ler, pd_read_file, wrapped, __init__, logging_info.
  rewrite Hleitor. unfold_monad. rewrite Hread. cbn. by rewrite <- !app_assoc.
Qed.

(** [from_file] with a reader for the extension, when the file reads: the
    frame read and its copy are two new objects. *)
Lemma from_file_reads (w : World G FS) c caminho_arquivo leitor sheet :
  _estrategia_leitura !! Path.lower (Path.splitext caminho_arquivo).2 = Some leitor ->
  pd_read leitor caminho_arquivo (disk w) = Ok sheet ->
  let r1 := fresh (dom (heap w)) in
  let r2 := fresh (dom (<[r1 := sheet]> (heap w))) in
  exists logs,
    from_file c caminho_arquivo w
    = (Ok (mkPipeline c r2),
       mkWorld (<[r2 := sheet]> (<[r1 := sheet]> (heap w))) (gen w) (disk w)
         (out w ++
          [Log ("Iniciando a criação do dataset a partir do arquivo " ++ caminho_arquivo);
           Log (ler_msg leitor);
           ReadFile leitor caminho_arquivo] ++ map Log logs)).
Proof.
  intros Hleitor Hread r1 r2.
  unfold from_file, dict_getitem, ler, pd_read_file, wrapped, __init__, logging_info.
  rewrite Hleitor. unfold_monad. rewrite Hread. cbn.
  rewrite lookup_insert_eq. cbn.
  destruct c; cbn.
  - exists ["Objeto EnriquecimentoDataset criado com sucesso"].
    by rewrite <- !app_assoc.
  - exists ["Objeto EnriquecimentoDataset criado com sucesso";
            "Instância de Telco Churn pronta"].
    by rewrite <- !app_assoc.
Qed.

Lemma writer_has_reader extensao salvador :
  _estrategias_salvamento !! extensao = Some salvador ->
  is_Some (_estrategia_leitura !! extensao).
Proof.
  unfold _estrategias_salvamento. intros Hs.
  apply lookup_insert_Some in Hs as [[<- _] | [_ Hs]]; [by eexists |].
  apply lookup_singleton_Some in Hs as [<- _]. by eexists.
Qed.

End FileRuns.

(** X12: [from_file] raises the [ValueError] of an unsupported format exactly
    when the lower-cased extension of the path has no reader: a
    [ValueError] (or a [KeyError]) raised by the reader itself comes out
    wrapped in [CustomException], never as a [ValueError]. *)
Theorem from_file_value_error_iff {G FS} `{!Numpy G} `{!Disk FS}
    (w : World G FS) c caminho_arquivo :
  (exists msg w', from_file c caminho_arquivo w = (Raise (ValueError msg), w'))
  <-> _estrategia_leitura !! Path.lower (Path.splitext caminho_arquivo).2 = None.
Proof.
  split.
  - intros (msg & w' & Hrun).
    destruct (_estrategia_leitura !! _) as [leitor|] eqn:Hleitor; [| done].
    destruct (pd_read leitor caminho_arquivo (disk w)) as [sheet|e] eqn:Hread.
    + destruct (from_file_reads w c caminho_arquivo leitor sheet Hleitor Hread)
        as [logs Hok].
      by rewrite Hok in Hrun.
    + by rewrite (from_file_read_raises w c caminho_arquivo leitor e) in Hrun.
  - intros Hnone. rewrite from_file_unsupported by done. by eexists _, _.
Qed.

(** X13: when the reader of the extension raises, [from_file] raises that
    exception wrapped twice in [CustomException] (once by the reader's
    [ler], once by [from_file]); no object was created, and the one file
    event is the attempt to read. *)
Theorem from_file_read_error {G FS} `{!Numpy G} `{!Disk FS}
    (w : World G FS) c caminho_arquivo leitor e :
  _estrategia_leitura !! Path.lower (Path.splitext caminho_arquivo).2 = Some leitor ->
  pd_read leitor caminho_arquivo (disk w) = Raise e ->
  exists w' evs,
    from_file c caminho_arquivo w = (Raise (CustomException (CustomException e)), w') /\
    heap w' = heap w /\ gen w' = gen w /\ disk w' = disk w /\
    out w' = (out w ++ evs)%list /\
    file_io evs = [ReadFile leitor caminho_arquivo].
Proof.
  intros Hleitor Hread. eexists _, _. split.
  { by apply from_file_read_raises. }
  by repeat split.
Qed.

Lemma from_file_read_error_witness :
  exists w' evs,
    from_file EnriquecimentoDatasetTelco "data/raw/telco.csv" Lab.w1
    = (Raise (CustomException (CustomException (OSError "No such file or directory"))), w') /\
    heap w' = heap Lab.w1 /\ gen w' = gen Lab.w1 /\ disk w' = disk Lab.w1 /\
    out w' = (out Lab.w1 ++ evs)%list /\
    file_io evs = [ReadFile LeitorCSVStrategy "data/raw/telco.csv"].
Proof.
  apply (from_file_read_error Lab.w1 EnriquecimentoDatasetTelco "data/raw/telco.csv"
           LeitorCSVStrategy (OSError "No such file or directory")).
  - reflexivity.
  - reflexivity.
Defined.

(** X14: whatever the path and whatever the outcome, [from_file] leaves the
    disk and the generator as they were and every frame already in use
    as it was; when it returns, the frame of the object it built is an
    object that was not in use before. *)
Theorem from_file_keeps_world {G FS} `{!Numpy G} `{!Disk FS}
    (w : World G FS) c caminho_arquivo :
  let r := from_file c caminho_arquivo w in
  disk r.2 = disk w /\ gen r.2 = gen w /\
  (forall l d, heap w !! l = Some d -> heap r.2 !! l = Some d) /\
  (forall obj, r.1 = Ok obj -> heap w !! df obj = None /\ is_Some (heap r.2 !! df obj)).
Proof.
  cbn zeta.
  destruct (_estrategia_leitura !! Path.lower (Path.splitext caminho_arquivo).2)
    as [leitor|] eqn:Hleitor.
  - destruct (pd_read leitor caminho_arquivo (disk w)) as [sheet|e] eqn:Hread.
    + destruct (from_file_reads w c caminho_arquivo leitor sheet Hleitor Hread)
        as [logs ->].
      cbn [fst snd heap gen disk].
      set (r1 := fresh (dom (heap w))).
      set (r2 := fresh (dom (<[r1 := sheet]> (heap w)))).
      assert (heap w !! r1 = None) as Hr1
        by (apply not_elem_of_dom, is_fresh).
      assert (<[r1 := sheet]> (heap w) !! r2 = None) as Hr2
        by (apply not_elem_of_dom, is_fresh).
      split; [done |]. split; [done |]. split.
      * intros l d Hl. rewrite !lookup_insert_ne; [done | congruence |].
        intros <-. rewrite lookup_insert_ne in Hr2; congruence.
      * intros obj [= <-]. cbn [df]. split; [| by rewrite lookup_insert_eq].
        destruct (decide (r1 = r2)) as [Heq | Hne].
        { rewrite <- Heq, lookup_insert_eq in Hr2. done. }
        by rewrite lookup_insert_ne in Hr2.
    + rewrite (from_file_read_raises w c caminho_arquivo leitor e) by done.
      cbn [fst snd heap gen disk]. by repeat split.
  - rewrite from_file_unsupported by done.
    cbn [fst snd heap gen disk]. by repeat split.
Qed.

(** X15: when the path has a writer for its extension, the parent directory can
    be made and the writer returns, [salvar] returns [None]: the frame
    handed to the writer is the frame the object holds at that moment,
    the disk is the one the writer left, the file events are the
    [os.makedirs] (if the path has a parent directory) followed by the
    write, and no frame has changed. *)
Theorem salvar_writes_frame {G FS} `{!Numpy G} `{!Disk FS}
    (w : World G FS) self caminho_saida salvador d :
  let diretorio_pai := Path.dirname caminho_saida in
  let fs1 := if String.eqb diretorio_pai EmptyString then disk w
             else (os_makedirs diretorio_pai (disk w)).2 in
  _estrategias_salvamento !! Path.lower (Path.splitext caminho_saida).2 = Some salvador ->
  heap w !! df self = Some d ->
  (diretorio_pai = EmptyString \/ (os_makedirs diretorio_pai (disk w)).1 = Ok ()) ->
  (pd_write salvador d caminho_saida fs1).1 = Ok () ->
  exists w' evs,
    salvar self caminho_saida w = (Ok (), w') /\
    heap w' = heap w /\ gen w' = gen w /\
    disk w' = (pd_write salvador d caminho_saida fs1).2 /\
    out w' = (out w ++ evs)%list /\
    file_io evs
    = ((if String.eqb diretorio_pai EmptyString then [] else [Makedirs diretorio_pai])
         ++ [WriteFile salvador caminho_saida d])%list.
Proof.
  intros diretorio_pai fs1 Hsalvador Hd Hok Hwrite.
  assert (fs1 = disk (dir_ready diretorio_pai w)) as Hfs.
  { unfold fs1, dir_ready. by destruct (String.eqb _ _). }
  rewrite Hfs in *.
  rewrite (salvar_saved w self caminho_saida salvador d) by done.
  fold diretorio_pai. unfold dir_ready.
  destruct (String.eqb diretorio_pai EmptyString); cbn [heap gen disk out];
    eexists _, _; (split; [done |]); cbn [heap gen disk out];
    (split; [done |]); (split; [done |]); (split; [done |]).
  - by split.
  - rewrite <- app_assoc. by split.
Qed.

Lemma salvar_writes_frame_witness :
  let diretorio_pai := Path.dirname "data/interim/telco.csv" in
  let fs1 := if String.eqb diretorio_pai EmptyString then disk Lab.w1
             else (os_makedirs diretorio_pai (disk Lab.w1)).2 in
  exists w' evs,
    salvar Lab.self1 "data/interim/telco.csv" Lab.w1 = (Ok (), w') /\
    heap w' = heap Lab.w1 /\ gen w' = gen Lab.w1 /\
    disk w' = (pd_write SalvadorCSVStrategy Lab.telco "data/interim/telco.csv" fs1).2 /\
    out w' = (out Lab.w1 ++ evs)%list /\
    file_io evs
    = ((if String.eqb diretorio_pai EmptyString then [] else [Makedirs diretorio_pai])
         ++ [WriteFile SalvadorCSVStrategy "data/interim/telco.csv" Lab.telco])%list.
Proof.
  apply (salvar_writes_frame Lab.w1 Lab.self1 "data/interim/telco.csv"
           SalvadorCSVStrategy Lab.telco).
  - reflexivity.
  - reflexivity.
  - right. reflexivity.
  - reflexivity.
Defined.

(** X16: when [os.makedirs] raises, [salvar] raises that very exception, not
    wrapped in [CustomException] (step 1 is outside the [try]), whatever
    the extension of the path is: no strategy is looked up, nothing is
    printed and no write is attempted. *)
Theorem salvar_makedirs_error {G FS} `{!Numpy G} `{!Disk FS}
    (w : World G FS) self caminho_saida e :
  Path.dirname caminho_saida <> EmptyString ->
  (os_makedirs (Path.dirname caminho_saida) (disk w)).1 = Raise e ->
  exists w',
    salvar self caminho_saida w = (Raise e, w') /\
    heap w' = heap w /\ gen w' = gen w /\
    disk w' = (os_makedirs (Path.dirname caminho_saida) (disk w)).2 /\
    out w' = (out w ++ [Makedirs (Path.dirname caminho_saida)])%list.
Proof.
  intros Hdir Hraise. eexists. split.
  { by apply salvar_makedirs_raises. }
  by repeat split.
Qed.

Lemma salvar_makedirs_error_witness :
  exists w',
    salvar Lab.self1 "data/interim/telco.txt" Desk.w_full
    = (Raise (OSError "No space left on device"), w') /\
    heap w' = heap Desk.w_full /\ gen w' = gen Desk.w_full /\
    disk w' = (os_makedirs (Path.dirname "data/interim/telco.txt") (disk Desk.w_full)).2 /\
    out w' = (out Desk.w_full ++ [Makedirs (Path.dirname "data/interim/telco.txt")])%list.
Proof.
  apply (salvar_makedirs_error Desk.w_full Lab.self1 "data/interim/telco.txt"
           (OSError "No space left on device")).
  - vm_compute. discriminate.
  - reflexivity.
Defined.

(** X17: when the writer raises, [salvar] raises that exception wrapped twice
    in [CustomException] (once by the writer's [salvar], once by the
    method); what step 1 and the writer did to the disk stays, and the
    last thing logged is the writer's own line, not the success line. *)
Theorem salvar_write_error {G FS} `{!Numpy G} `{!Disk FS}
    (w : World G FS) self caminho_saida salvador d e :
  let diretorio_pai := Path.dirname caminho_saida in
  let fs1 := if String.eqb diretorio_pai EmptyString then disk w
             else (os_makedirs diretorio_pai (disk w)).2 in
  _estrategias_salvamento !! Path.lower (Path.splitext caminho_saida).2 = Some salvador ->
  heap w !! df self = Some d ->
  (diretorio_pai = EmptyString \/ (os_makedirs diretorio_pai (disk w)).1 = Ok ()) ->
  (pd_write salvador d caminho_saida fs1).1 = Raise e ->
  exists w' evs,
    salvar self caminho_saida w = (Raise (CustomException (CustomException e)), w') /\
    heap w' = heap w /\ gen w' = gen w /\
    disk w' = (pd_write salvador d caminho_saida fs1).2 /\
    out w' = (out w ++ evs ++ [Log (salvar_msg salvador caminho_saida);
                               WriteFile salvador caminho_saida d])%list /\
    file_io evs
    = (if String.eqb diretorio_pai EmptyString then [] else [Makedirs diretorio_pai]).
Proof.
  intros diretorio_pai fs1 Hsalvador Hd Hok Hwrite.
  assert (fs1 = disk (dir_ready diretorio_pai w)) as Hfs.
  { unfold fs1, dir_ready. by destruct (String.eqb _ _). }
  rewrite Hfs in *.
  rewrite (salvar_write_raises w self caminho_saida salvador d e) by done.
  fold diretorio_pai. unfold dir_ready.
  destruct (String.eqb diretorio_pai EmptyString); cbn [heap gen disk out].
  - eexists _, []. by repeat split.
  - eexists _, _. split; [done |]. cbn [heap gen disk out].
    split; [done |]. split; [done |]. split; [done |].
    rewrite <- app_assoc. by split.
Qed.

Lemma salvar_write_error_witness :
  let diretorio_pai := Path.dirname "telco.parquet" in
  let fs1 := if String.eqb diretorio_pai EmptyString then disk Desk.w_full
             else (os_makedirs diretorio_pai (disk Desk.w_full)).2 in
  exists w' evs,
    salvar Lab.self1 "telco.parquet" Desk.w_full
    = (Raise (CustomException (CustomException (OSError "No space left on device"))), w') /\
    heap w' = heap Desk.w_full /\ gen w' = gen Desk.w_full /\
    disk w' = (pd_write SalvadorParquetStrategy Lab.telco "telco.parquet" fs1).2 /\
    out w' = (out Desk.w_full ++ evs
                ++ [Log (salvar_msg SalvadorParquetStrategy "telco.parquet");
                    WriteFile SalvadorParquetStrategy "telco.parquet" Lab.telco])%list /\
    file_io evs
    = (if String.eqb diretorio_pai EmptyString then [] else [Makedirs diretorio_pai]).
Proof.
  apply (salvar_write_error Desk.w_full Lab.self1 "telco.parquet"
           SalvadorParquetStrategy Lab.telco (OSError "No space left on device")).
  - reflexivity.
  - reflexivity.
  - left. reflexivity.
  - reflexivity.
Defined.

(** X18: whatever the path and whatever the outcome, [salvar] changes no frame
    and draws nothing from the generator. *)
Theorem salvar_keeps_frames {G FS} `{!Numpy G} `{!Disk FS}
    (w : World G FS) self caminho_saida :
  heap (salvar self caminho_saida w).2 = heap w /\
  gen (salvar self caminho_saida w).2 = gen w.
Proof.
  unfold salvar, makedirs, dict_getitem, salvador_salvar, pd_write_file, wrapped,
    logging_info, print.
  destruct (String.eqb (Path.dirname caminho_saida) EmptyString); cbn [negb];
    unfold_monad;
    repeat match goal with
           | |- context [os_makedirs ?a ?b] => destruct (os_makedirs a b) as [[[]|?] ?]; cbn
           | |- context [_estrategias_salvamento !! ?k] =>
               destruct (_estrategias_salvamento !! k); cbn
           | |- context [heap w !! ?k] => destruct (heap w !! k); cbn
           | |- context [pd_write ?a ?b ?c ?d] =>
               destruct (pd_write a b c d) as [[[]|?] ?]; cbn
           end; done.
Qed.

(** X19: a path on which [salvar] has returned is a path [from_file] accepts:
    every extension with a writer has a reader, so [from_file] on that
    path, in any world, goes on to read the file and does not raise the
    [ValueError] of an unsupported format. *)
Theorem saved_path_has_reader {G FS} `{!Numpy G} `{!Disk FS}
    (w w2 : World G FS) self c caminho w' :
  salvar self caminho w = (Ok (), w') ->
  exists leitor evs,
    _estrategia_leitura !! Path.lower (Path.splitext caminho).2 = Some leitor /\
    out (from_file c caminho w2).2 = (out w2 ++ evs)%list /\
    file_io evs = [ReadFile leitor caminho].
Proof.
  intros Hsaved.
  assert (dir_ok (Path.dirname caminho) w) as Hok.
  { destruct (decide (Path.dirname caminho = EmptyString)) as [Hbare | Hnested];
      [by left | right].
    destruct (os_makedirs (Path.dirname caminho) (disk w)).1 as [[]|e] eqn:Hmk; [done |].
    by rewrite (salvar_makedirs_raises w self caminho e) in Hsaved. }
  destruct (_estrategias_salvamento !! Path.lower (Path.splitext caminho).2)
    as [salvador|] eqn:Hsalvador.
  2: { by rewrite salvar_unsupported in Hsaved. }
  destruct (writer_has_reader _ _ Hsalvador) as [leitor Hleitor].
  exists leitor.
  destruct (pd_read leitor caminho (disk w2)) as [sheet|e] eqn:Hread.
  - destruct (from_file_reads w2 c caminho leitor sheet Hleitor Hread) as [logs ->].
    cbn [snd out]. eexists. split; [done |]. split; [done |].
    unfold file_io. cbn. induction logs as [|l logs IH]; [done | exact IH].
  - rewrite (from_file_read_raises w2 c caminho leitor e) by done.
    cbn [snd out]. eexists. by repeat split.
Qed.

Lemma saved_path_has_reader_witness :
  exists leitor evs,
    _estrategia_leitura !! Path.lower (Path.splitext "data/interim/telco.CSV").2
    = Some leitor /\
    out (from_file EnriquecimentoDatasetTelco "data/interim/telco.CSV" Lab.w_sheet).2
    = (out Lab.w_sheet ++ evs)%list /\
    file_io evs = [ReadFile leitor "data/interim/telco.CSV"].
Proof.
  apply (saved_path_has_reader Lab.w1 Lab.w_sheet Lab.self1 EnriquecimentoDatasetTelco
           "data/interim/telco.CSV" (salvar Lab.self1 "data/interim/telco.CSV" Lab.w1).2).
  reflexivity.
Defined.

(** * The project root and the download *)

Section RootRuns.
Context {G FS : Type}.
Import Dataloader.

Lemma first_parent_head (parent : PurePath) rest :
  first_parent (parent :: rest) = Some parent.
Proof. reflexivity. Qed.

Lemma diretorio_raiz_run (w : World G FS) start_path :
  diretorio_raiz start_path w
  = (Ok (Some start_path),
     mkWorld (heap w) (gen w) (disk w)
             (out w ++ [Log "Iniciando a busca pelo diretório raiz"])).
Proof.
  unfold diretorio_raiz. rewrite first_parent_head.
  unfold wrapped, logging_info. by unfold_monad.
Qed.

End RootRuns.

(** X20: [diretorio_raiz] does not search: [(parent / 'pyproject.toml').exists]
    is the method, not a call of it, and a method is true, so the first
    candidate, the start path itself, is returned for every start path,
    whatever the file tree holds and however many parents the path has.
    Nothing is raised, the result is never [None], and the one effect is
    the line logged. *)
Theorem diretorio_raiz_returns_start {G FS} (w : World G FS)
    (start_path : Dataloader.PurePath) :
  (Dataloader.diretorio_raiz start_path w).1 = Ok (Some start_path) /\
  Dataloader.first_parent (start_path :: Dataloader.parents start_path) = Some start_path /\
  heap (Dataloader.diretorio_raiz start_path w).2 = heap w /\
  gen (Dataloader.diretorio_raiz start_path w).2 = gen w /\
  disk (Dataloader.diretorio_raiz start_path w).2 = disk w /\
  out (Dataloader.diretorio_raiz start_path w).2
  = (out w ++ [Log "Iniciando a busca pelo diretório raiz"])%list.
Proof. rewrite diretorio_raiz_run. by repeat split. Qed.

Section Moves.
Import Dataloader.
Context {FS : Type} `{!Disk FS} `{!Shell FS}.

(** One turn of the loop of [mover_para_raw]. *)
Lemma for_each_skip file files (env : Env FS) :
  endswith file ".csv" = false ->
  for_each (file :: files) mover_arquivo env = for_each files mover_arquivo env.
Proof.
  intros Hcsv. cbn [for_each]. unfold and_then, mover_arquivo. by rewrite Hcsv.
Qed.

Lemma for_each_moved file files (env : Env FS) p fs :
  let s := self env in
  endswith file ".csv" = true ->
  dataset_path s = Some p ->
  shutil_move (join p file) (join (raw_data_dir s) file) (tree env) = (Ok (), fs) ->
  for_each (file :: files) mover_arquivo env
  = for_each files mover_arquivo
      (mkEnv (mkDownload (dataset_name s) (raw_data_dir s) (Some p)
                         (arquivos_movidos s ++ [join (raw_data_dir s) file]))
             fs (logged env ++ [moved_line p (raw_data_dir s) file])).
Proof.
  intros s Hcsv Hp Hmove. cbn [for_each]. unfold and_then at 1.
  unfold mover_arquivo at 1. rewrite Hcsv.
  unfold and_then, get_self, of_result, os_path_join, outside, append_movido, info.
  fold s. rewrite Hp. cbn [fst snd self tree logged]. fold s. rewrite Hmove.
  cbn [fst snd dataset_name raw_data_dir dataset_path arquivos_movidos].
  by rewrite Hp.
Qed.

Lemma for_each_stuck file files (env : Env FS) p e fs :
  let s := self env in
  endswith file ".csv" = true ->
  dataset_path s = Some p ->
  shutil_move (join p file) (join (raw_data_dir s) file) (tree env) = (Raise e, fs) ->
  for_each (file :: files) mover_arquivo env
  = (Raise e, mkEnv s fs (logged env)).
Proof.
  intros s Hcsv Hp Hmove. cbn [for_each]. unfold and_then at 1.
  unfold mover_arquivo at 1. rewrite Hcsv.
  unfold and_then, get_self, of_result, os_path_join, outside, append_movido, info.
  fold s. rewrite Hp. cbn [fst snd self tree logged]. fold s. by rewrite Hmove.
Qed.

Lemma csv_files_cons file files :
  csv_files (file :: files)
  = if endswith file ".csv" then file :: csv_files files else csv_files files.
Proof.
  unfold csv_files. rewrite filter_cons.
  destruct (endswith file ".csv"); [by rewrite decide_True | by rewrite decide_False].
Qed.

(** The loop of [mover_para_raw] on an object that has a dataset path.
    The files moved are recorded in order and are the first CSV files of
    the listing; each of them was moved by a [shutil.move] that returned,
    made on the tree the moves before it left.  The loop ends when the
    listing is exhausted, or at the first move that raises: that move is
    the one of the next CSV file. *)
Lemma for_each_mover_arquivo (files : list string) (env : Env FS) p :
  let raw := raw_data_dir (self env) in
  let r := for_each files mover_arquivo env in
  dataset_path (self env) = Some p ->
  exists moved,
    self r.2
    = mkDownload (dataset_name (self env)) raw (Some p)
        (arquivos_movidos (self env) ++ map (join raw) moved) /\
    logged r.2 = (logged env ++ map (moved_line p raw) moved)%list /\
    moved `prefix_of` csv_files files /\
    (forall k file, moved !! k = Some file ->
       (shutil_move (join p file) (join raw file)
          (after_moves p raw (take k moved) (tree env))).1 = Ok ()) /\
    ((r.1 = Ok () /\ moved = csv_files files /\
      tree r.2 = after_moves p raw moved (tree env)) \/
     (exists file cause,
        r.1 = Raise cause /\
        (moved ++ [file])%list `prefix_of` csv_files files /\
        shutil_move (join p file) (join raw file) (after_moves p raw moved (tree env))
        = (Raise cause, tree r.2))).
Proof.
  cbn zeta. revert env. induction files as [|file files IH]; intros env Hp.
  - exists []. cbn. rewrite !app_nil_r. destruct (self env) as [n r dp am]. cbn in *.
    subst dp. split; [done |]. split; [done |]. split; [done |].
    split; [by intros k file Hk |]. by left.
  - rewrite csv_files_cons. destruct (endswith file ".csv") eqn:Hcsv.
    + destruct (shutil_move (join p file) (join (raw_data_dir (self env)) file) (tree env))
        as [[[]|e] fs] eqn:Hmove.
      * rewrite (for_each_moved file files env p fs) by done.
        match goal with
        | |- context [for_each files mover_arquivo ?env1] =>
            destruct (IH env1) as (moved & Hself & Hlog & Hpre & Hall & Hend); [done |]
        end.
        cbn [self tree logged dataset_name raw_data_dir dataset_path arquivos_movidos]
          in Hself, Hlog, Hall, Hend.
        exists (file :: moved). rewrite Hself, Hlog. cbn [map].
        rewrite <- !app_assoc. cbn [app].
        split; [done |]. split; [done |].
        split; [by apply prefix_cons |].
        assert (forall names,
                  after_moves p (raw_data_dir (self env)) (file :: names) (tree env)
                  = after_moves p (raw_data_dir (self env)) names fs) as Hstep.
        { intros names. unfold after_moves. cbn [fold_left]. by rewrite Hmove. }
        split.
        { intros [|k] file' Hk.
          - injection Hk as <-. cbn [take]. unfold after_moves. cbn [fold_left].
            by rewrite Hmove.
          - cbn [take]. rewrite Hstep. by apply Hall. }
        rewrite Hstep.
        destruct Hend as [(Hok & Hmoved & Htree) | (file' & cause & Hr & Hpre' & Hmv)].
        -- left. split; [done |]. split; [by rewrite Hmoved | done].
        -- right. exists file', cause. split; [done |].
           split; [by apply prefix_cons | done].
      * rewrite (for_each_stuck file files env p e fs) by done.
        exists []. cbn [map fst snd self logged tree]. rewrite !app_nil_r.
        destruct (self env) as [n r dp am] eqn:Hs. cbn in *. subst dp.
        split; [done |]. split; [done |].
        split; [apply prefix_nil |].
        split; [by intros k file' Hk |].
        right. exists file, e. split; [done |].
        split; [apply prefix_cons, prefix_nil | done].
    + rewrite for_each_skip by done. by apply IH.
Qed.

(** [mover_para_raw] up to its loop. *)
Lemma mover_para_raw_listed (env : Env FS) files :
  let s := self env in
  let env1 := mkEnv s (os_makedirs (raw_data_dir s) (tree env)).2
                    (logged env ++ ["Inicio da transferecia do dataset"]) in
  (os_makedirs (raw_data_dir s) (tree env)).1 = Ok () ->
  os_listdir (dataset_path s) (os_makedirs (raw_data_dir s) (tree env)).2 = Ok files ->
  mover_para_raw env = guarded (for_each files mover_arquivo) env1.
Proof.
  intros s env1 Hmk Hls. unfold mover_para_raw, guarded.
  unfold and_then at 1. unfold get_self at 1.
  unfold and_then at 1. unfold outside at 1. fold s. rewrite Hmk. cbn [fst snd].
  unfold and_then at 1. unfold info at 1. cbn [self tree logged].
  unfold and_then at 1. unfold get_self at 1.
  unfold and_then at 1. cbn [self tree logged]. fold s. rewrite Hls. done.
Qed.

(** The loop on an object without a dataset path: the first CSV file of
    the listing raises, before anything is moved. *)
Lemma for_each_no_path (files : list string) (env : Env FS) :
  dataset_path (self env) = None ->
  for_each files mover_arquivo env
  = (if bool_decide (csv_files files = [])
     then Ok ()
     else Raise (TypeError "expected str, bytes or os.PathLike object, not NoneType"),
     env).
Proof.
  intros Hnone. induction files as [|file files IH]; [done |].
  rewrite csv_files_cons. destruct (endswith file ".csv") eqn:Hcsv.
  - cbn [for_each]. unfold and_then at 1. unfold mover_arquivo at 1. rewrite Hcsv.
    unfold and_then, get_self, of_result, os_path_join. by rewrite Hnone.
  - by rewrite for_each_skip.
Qed.

Lemma download_dataset_run (env : Env FS) :
  let s := self env in
  let r := kagglehub_dataset_download (dataset_name s) (tree env) in
  download_dataset env
  = match r.1 with
    | Ok path =>
        (Ok (),
         mkEnv (mkDownload (dataset_name s) (raw_data_dir s) (Some path) (arquivos_movidos s))
               r.2
               (logged env ++ ["Iniciando download dataset";
                               "Download concluído com sucesso em " ++ path]))
    | Raise e =>
        (Raise (CustomException e),
         mkEnv s r.2 (logged env ++ ["Iniciando download dataset"]))
    end.
Proof.
  cbn zeta. unfold download_dataset, guarded, and_then, info, get_self, outside,
    set_dataset_path.
  cbn [self tree logged].
  destruct (kagglehub_dataset_download _ _) as [[path|e] fs]; cbn [fst snd]; [| done].
  by rewrite <- app_assoc.
Qed.

End Moves.

(** X21: [mover_para_raw] on an object that has a dataset path, once
    the raw directory is made and the dataset directory is listed.  The
    paths appended to [arquivos_movidos] are, in the order of the listing,
    the destinations of the first names of the listing that end in [.csv]
    (lower case only); each of these files was moved by a [shutil.move]
    that returned, made on the tree that [os.makedirs] and the moves
    before it left, and one line is logged for each.  The method returns
    exactly when every such move returned: then all the CSV files are
    recorded and the tree is the one the last move left.  Otherwise it
    stops at the first move that raises, the one of the next CSV file: it
    raises [CustomException] of what that move raised, the tree is the one
    that move left, and the files moved before stay moved and recorded.
    The other attributes of the object are left as they were. *)
Theorem mover_para_raw_records_moves {FS} `{!Disk FS} `{!Dataloader.Shell FS}
    (env : Dataloader.Env FS) p files :
  let s := Dataloader.self env in
  let raw := Dataloader.raw_data_dir s in
  let fs1 := (os_makedirs raw (Dataloader.tree env)).2 in
  let r := Dataloader.mover_para_raw env in
  Dataloader.dataset_path s = Some p ->
  (os_makedirs raw (Dataloader.tree env)).1 = Ok () ->
  Dataloader.os_listdir (Some p) fs1 = Ok files ->
  exists moved,
    Dataloader.self r.2
    = Dataloader.mkDownload (Dataloader.dataset_name s) raw (Some p)
        (Dataloader.arquivos_movidos s ++ map (Dataloader.join raw) moved) /\
    Dataloader.logged r.2
    = (Dataloader.logged env ++ "Inicio da transferecia do dataset"
         :: map (Dataloader.moved_line p raw) moved)%list /\
    moved `prefix_of` Dataloader.csv_files files /\
    (forall k file, moved !! k = Some file ->
       (Dataloader.shutil_move (Dataloader.join p file) (Dataloader.join raw file)
          (Dataloader.after_moves p raw (take k moved) fs1)).1 = Ok ()) /\
    ((r.1 = Ok () /\ moved = Dataloader.csv_files files /\
      Dataloader.tree r.2 = Dataloader.after_moves p raw moved fs1) \/
     (exists file cause,
        r.1 = Raise (CustomException cause) /\
        (moved ++ [file])%list `prefix_of` Dataloader.csv_files files /\
        Dataloader.shutil_move (Dataloader.join p file) (Dataloader.join raw file)
          (Dataloader.after_moves p raw moved fs1)
        = (Raise cause, Dataloader.tree r.2))) /\
    (forall file cause,
       (moved ++ [file])%list `prefix_of` Dataloader.csv_files files ->
       (Dataloader.shutil_move (Dataloader.join p file) (Dataloader.join raw file)
          (Dataloader.after_moves p raw moved fs1)).1 = Raise cause ->
       r.1 = Raise (CustomException cause)).
Proof.
  intros s raw fs1 r Hp Hmk Hls. unfold r.
  rewrite (mover_para_raw_listed env files) by (fold s; by rewrite ?Hp).
  fold s raw fs1. set (env1 := Dataloader.mkEnv s fs1 _).
  destruct (for_each_mover_arquivo files env1 p Hp)
    as (moved & Hself & Hlog & Hpre & Hall & Hend).
  change (Dataloader.raw_data_dir (Dataloader.self env1)) with raw in *.
  change (Dataloader.tree env1) with fs1 in *.
  exists moved. unfold Dataloader.guarded.
  destruct (Dataloader.for_each files Dataloader.mover_arquivo env1) as [res env2];
    cbn [fst snd] in *.
  assert (Dataloader.self (match res with
                           | Ok a => (Ok a, env2)
                           | Raise e => (Raise (CustomException e), env2)
                           end).2 = Dataloader.self env2) as -> by by destruct res.
  assert (Dataloader.logged (match res with
                             | Ok a => (Ok a, env2)
                             | Raise e => (Raise (CustomException e), env2)
                             end).2 = Dataloader.logged env2) as -> by by destruct res.
  assert (Dataloader.tree (match res with
                           | Ok a => (Ok a, env2)
                           | Raise e => (Raise (CustomException e), env2)
                           end).2 = Dataloader.tree env2) as -> by by destruct res.
  rewrite Hself, Hlog. unfold env1. cbn [Dataloader.self Dataloader.logged
    Dataloader.dataset_name Dataloader.arquivos_movidos]. rewrite <- app_assoc.
  split; [done |]. split; [done |]. split; [done |]. split; [done |].
  destruct Hend as [(Hok & Hmoved & Htree) | (file & cause & Hr & Hfile & Hmv)].
  - subst res. cbn [fst]. split; [by left |].
    intros file cause Hfile _. exfalso.
    apply prefix_length in Hfile. rewrite length_app, Hmoved in Hfile. cbn in Hfile. lia.
  - subst res. cbn [fst]. split.
    { right. by exists file, cause. }
    intros file' cause' Hfile' Hmv'.
    assert ((moved ++ [file'])%list = (moved ++ [file])%list) as Heq.
    { destruct (prefix_weak_total _ _ _ Hfile' Hfile) as [Hle | Hle].
      - apply prefix_length_eq; [done |]. rewrite !length_app. cbn. lia.
      - symmetry. apply prefix_length_eq; [done |]. rewrite !length_app. cbn. lia. }
    apply app_inj_tail in Heq as [_ ->]. rewrite Hmv in Hmv'. cbn in Hmv'. congruence.
Qed.

Lemma mover_para_raw_records_moves_witness :
  let env := Dataloader.mkEnv Cache.downloaded Cache.downloaded_tree [] in
  let files := ["README.md"; "WA_Fn-UseC_-Telco-Customer-Churn.csv"; "notes.CSV";
                "extra.csv"] in
  let raw := "/repo/data/raw" in
  let p := "/cache/telco" in
  let fs1 := (os_makedirs raw Cache.downloaded_tree).2 in
  let r := Dataloader.mover_para_raw env in
  exists moved,
    Dataloader.self r.2
    = Dataloader.mkDownload "blastchar/telco-customer-churn" raw (Some p)
        ([] ++ map (Dataloader.join raw) moved) /\
    Dataloader.logged r.2
    = ([] ++ "Inicio da transferecia do dataset"
         :: map (Dataloader.moved_line p raw) moved)%list /\
    moved `prefix_of` Dataloader.csv_files files /\
    (forall k file, moved !! k = Some file ->
       (Dataloader.shutil_move (Dataloader.join p file) (Dataloader.join raw file)
          (Dataloader.after_moves p raw (take k moved) fs1)).1 = Ok ()) /\
    ((r.1 = Ok () /\ moved = Dataloader.csv_files files /\
      Dataloader.tree r.2 = Dataloader.after_moves p raw moved fs1) \/
     (exists file cause,
        r.1 = Raise (CustomException cause) /\
        (moved ++ [file])%list `prefix_of` Dataloader.csv_files files /\
        Dataloader.shutil_move (Dataloader.join p file) (Dataloader.join raw file)
          (Dataloader.after_moves p raw moved fs1)
        = (Raise cause, Dataloader.tree r.2))) /\
    (forall file cause,
       (moved ++ [file])%list `prefix_of` Dataloader.csv_files files ->
       (Dataloader.shutil_move (Dataloader.join p file) (Dataloader.join raw file)
          (Dataloader.after_moves p raw moved fs1)).1 = Raise cause ->
       r.1 = Raise (CustomException cause)).
Proof.
  apply (mover_para_raw_records_moves
           (Dataloader.mkEnv Cache.downloaded Cache.downloaded_tree [])
           "/cache/telco"
           ["README.md"; "WA_Fn-UseC_-Telco-Customer-Churn.csv"; "notes.CSV"; "extra.csv"]).
  - reflexivity.
  - reflexivity.
  - reflexivity.
Defined.

(** X22: [mover_para_raw] before any download, when [dataset_path] is still
    [None]: the raw directory is made, and [os.listdir(None)] lists the
    current directory.  If no name there ends in [.csv] the method returns;
    otherwise it raises [CustomException(TypeError)] at the first such
    name, from [os.path.join(None, file)].  Either way nothing is moved
    and the object is as it was. *)
Theorem mover_para_raw_before_download {FS} `{!Disk FS} `{!Dataloader.Shell FS}
    (env : Dataloader.Env FS) files :
  let s := Dataloader.self env in
  let made := os_makedirs (Dataloader.raw_data_dir s) (Dataloader.tree env) in
  Dataloader.dataset_path s = None ->
  made.1 = Ok () ->
  Dataloader.os_listdir None made.2 = Ok files ->
  Dataloader.mover_para_raw env
  = (if bool_decide (Dataloader.csv_files files = []) then Ok ()
     else Raise (CustomException
                   (TypeError "expected str, bytes or os.PathLike object, not NoneType")),
     Dataloader.mkEnv s made.2
       (Dataloader.logged env ++ ["Inicio da transferecia do dataset"])).
Proof.
  intros s made Hnone Hmk Hls.
  rewrite (mover_para_raw_listed env files) by (fold s; by rewrite ?Hnone).
  unfold Dataloader.guarded. rewrite for_each_no_path by done.
  fold s made. by destruct (bool_decide _).
Qed.

Lemma mover_para_raw_before_download_witness :
  Dataloader.mover_para_raw (Dataloader.mkEnv Cache.telco Cache.empty [])
  = (if bool_decide (Dataloader.csv_files ["setup.py"; "old.csv"] = []) then Ok ()
     else Raise (CustomException
                   (TypeError "expected str, bytes or os.PathLike object, not NoneType")),
     Dataloader.mkEnv Cache.telco
       (os_makedirs (Dataloader.raw_data_dir Cache.telco) Cache.empty).2
       ([] ++ ["Inicio da transferecia do dataset"])).
Proof.
  apply (mover_para_raw_before_download (Dataloader.mkEnv Cache.telco Cache.empty [])
           ["setup.py"; "old.csv"]).
  - reflexivity.
  - reflexivity.
  - reflexivity.
Defined.

(** X23: the script of the module, from a new object: when the download
    raises, the script ends there with [CustomException] of what was
    raised, [mover_para_raw] is not run (no directory is made), and
    [dataset_path] is still [None]; when the download returns a path, that
    path is stored in [dataset_path] and [mover_para_raw] runs on the
    object so changed. *)
Theorem main_downloads_then_moves {FS} `{!Disk FS} `{!Dataloader.Shell FS}
    (name raw : string) (fs : FS) :
  let env := Dataloader.mkEnv (Dataloader.__init__ name raw) fs [] in
  let r := Dataloader.kagglehub_dataset_download name fs in
  Dataloader.main env
  = match r.1 with
    | Raise e =>
        (Raise (CustomException e),
         Dataloader.mkEnv (Dataloader.__init__ name raw) r.2 ["Iniciando download dataset"])
    | Ok path =>
        Dataloader.mover_para_raw
          (Dataloader.mkEnv (Dataloader.mkDownload name raw (Some path) []) r.2
             ["Iniciando download dataset";
              "Download concluído com sucesso em " ++ path])
    end.
Proof.
  cbn zeta. unfold Dataloader.main. unfold Dataloader.and_then at 1.
  rewrite download_dataset_run. cbn [Dataloader.self Dataloader.tree Dataloader.logged
    Dataloader.__init__ Dataloader.dataset_name Dataloader.raw_data_dir
    Dataloader.arquivos_movidos].
  by destruct (Dataloader.kagglehub_dataset_download name fs).1.
Qed.

(** * Paths below a root *)

Section PathsBelow.

Lemma rfind_from_lower c p i last :
  -1 <= last -> 0 <= i -> -1 <= Path.rfind_from c p i last.
Proof.
  revert i last. induction p as [|a p IH]; intros i last Hlast Hi; cbn; [done |].
  apply IH; [destruct (Ascii.eqb a c); lia | lia].
Qed.

Lemma rfind_from_shift c p i last :
  Path.rfind_from c p i last
  = if (Path.rfind c p =? -1)%Z then last else i + Path.rfind c p.
Proof.
  unfold Path.rfind. revert i last.
  induction p as [|a p IH]; intros i last; [done |].
  cbn [Path.rfind_from]. rewrite (IH (i + 1)), (IH (0 + 1)).
  pose proof (rfind_from_lower c p 0 (-1)) as Hlow.
  destruct (Path.rfind_from c p 0 (-1) =? -1)%Z eqn:Hnone.
  - destruct (Ascii.eqb a c); cbn; [f_equal; lia | done].
  - apply Z.eqb_neq in Hnone.
    assert ((0 + 1 + Path.rfind_from c p 0 (-1) =? -1)%Z = false) as ->
      by (apply Z.eqb_neq; lia).
    lia.
Qed.

Lemma append_cons x (a b : string) : String x a ++ b = String x (a ++ b).
Proof. reflexivity. Qed.

Lemma append_nil (b : string) : EmptyString ++ b = b.
Proof. reflexivity. Qed.

Lemma rfind_from_app c a b i last :
  Path.rfind_from c (a ++ b) i last
  = Path.rfind_from c b (i + Z.of_nat (String.length a)) (Path.rfind_from c a i last).
Proof.
  revert i last. induction a as [|x a IH]; intros i last.
  - rewrite append_nil. cbn. f_equal. lia.
  - rewrite append_cons. cbn [Path.rfind_from String.length]. rewrite IH. f_equal. lia.
Qed.

(** The last occurrence of a character in [root ++ t] is its last
    occurrence in [t], when it occurs there. *)
Lemma rfind_app_found c root t :
  0 <= Path.rfind c t ->
  Path.rfind c (root ++ t) = Z.of_nat (String.length root) + Path.rfind c t.
Proof.
  intros Hfound. unfold Path.rfind at 1. rewrite rfind_from_app, rfind_from_shift.
  assert ((Path.rfind c t =? -1)%Z = false) as -> by (apply Z.eqb_neq; lia). lia.
Qed.

Lemma length_append (a b : string) :
  String.length (a ++ b) = (String.length a + String.length b)%nat.
Proof.
  induction a as [|x a IH]; [done |]. rewrite append_cons. cbn. by rewrite IH.
Qed.

Lemma substring_app_skip (a b : string) n m :
  substring (String.length a + n) m (a ++ b) = substring n m b.
Proof. induction a as [|x a IH]; [done |]. rewrite append_cons. exact IH. Qed.

Lemma substring_app_take (a b : string) m :
  substring 0 (String.length a + m) (a ++ b) = a ++ substring 0 m b.
Proof.
  induction a as [|x a IH]; [done |]. rewrite !append_cons. cbn. by rewrite IH.
Qed.

Lemma take_below root t k :
  0 <= k ->
  Path.take (Z.of_nat (String.length root) + k) (root ++ t) = root ++ Path.take k t.
Proof.
  intros Hk. unfold Path.take.
  rewrite Z2Nat.inj_add, Nat2Z.id by lia. apply substring_app_take.
Qed.

Lemma drop_below root t k :
  0 <= k ->
  Path.drop (Z.of_nat (String.length root) + k) (root ++ t) = Path.drop k t.
Proof.
  intros Hk. unfold Path.drop.
  rewrite Z2Nat.inj_add, Nat2Z.id, length_append by lia.
  rewrite substring_app_skip. f_equal. lia.
Qed.

(** [os.path.splitext] of a path whose last component, with its dot, lies
    in the part [t] below [root]. *)
Lemma splitext_below root t :
  let s := Path.rfind Path.sep t in
  let d := Path.rfind Path.extsep t in
  0 <= s -> s < d ->
  Path.has_stem (substring (Z.to_nat (s + 1)) (Z.to_nat (d - (s + 1))) t) = true ->
  Path.splitext (root ++ t) = (root ++ Path.take d t, Path.drop d t).
Proof.
  intros s d Hs Hd Hstem. unfold Path.splitext.
  rewrite !rfind_app_found by (fold s d; lia). fold s d.
  set (n := Z.of_nat (String.length root)).
  assert ((n + s <? n + d)%Z = true) as -> by (apply Z.ltb_lt; lia).
  replace (n + d - (n + s + 1)) with (d - (s + 1)) by lia.
  replace (Z.to_nat (n + s + 1)) with (String.length root + Z.to_nat (s + 1))%nat by lia.
  rewrite substring_app_skip, Hstem. cbn [andb].
  unfold n. by rewrite take_below, drop_below by lia.
Qed.

Lemma rstrip_sep_app root t :
  Path.rstrip_sep t <> EmptyString ->
  Path.rstrip_sep (root ++ t) = root ++ Path.rstrip_sep t.
Proof.
  intros Ht. induction root as [|x root IH]; [done |].
  rewrite !append_cons. cbn [Path.rstrip_sep]. rewrite IH.
  destruct (root ++ Path.rstrip_sep t) eqn:Heq; [| done].
  destruct root; [by rewrite append_nil in Heq | by rewrite append_cons in Heq].
Qed.

Lemma all_sep_app root t :
  Path.all_sep t = false -> Path.all_sep (root ++ t) = false.
Proof.
  intros Ht. induction root as [|x root IH]; [done |].
  rewrite append_cons. cbn [Path.all_sep]. rewrite IH. apply andb_false_r.
Qed.

Lemma eqb_app_empty root t :
  t <> EmptyString -> String.eqb (root ++ t) EmptyString = false.
Proof. intros Ht. apply String.eqb_neq. destruct root, t; done. Qed.

(** [os.path.dirname] of a path whose last [/] lies in the part [t] below
    [root]. *)
Lemma dirname_below root t :
  let head := Path.take (Path.rfind Path.sep t + 1) t in
  0 <= Path.rfind Path.sep t ->
  Path.all_sep head = false ->
  Path.rstrip_sep head <> EmptyString ->
  Path.dirname (root ++ t) = root ++ Path.rstrip_sep head.
Proof.
  intros head Hs Hall Hstrip. unfold Path.dirname.
  rewrite rfind_app_found by done.
  replace (Z.of_nat (String.length root) + Path.rfind Path.sep t + 1)
    with (Z.of_nat (String.length root) + (Path.rfind Path.sep t + 1)) by lia.
  rewrite take_below by lia. fold head.
  rewrite eqb_app_empty, all_sep_app by (try done; by destruct head).
  cbn [negb andb]. by apply rstrip_sep_app.
Qed.

End PathsBelow.

(** * The main block of [enrich.py] *)

Section MainBlockRuns.
Context {G FS : Type} `{!Numpy G} `{!Disk FS}.

Lemma print_run msg (w : World G FS) :
  print msg w = (Ok (), mkWorld (heap w) (gen w) (disk w) (out w ++ [Print msg])%list).
Proof. reflexivity. Qed.

Lemma wrapped_ok {A} (m : M G FS A) w a w' :
  m w = (Ok a, w') -> wrapped m w = (Ok a, w').
Proof. intros Hm. unfold wrapped, try_except. by rewrite Hm. Qed.

Lemma wrapped_raise {A} (m : M G FS A) w e w' :
  m w = (Raise e, w') -> wrapped m w = (Raise (CustomException e), w').
Proof. intros Hm. unfold wrapped, try_except. by rewrite Hm. Qed.

(** The paths of the block have the extension [.csv], whatever the root
    is, and the output lies in [data/interim] below the root. *)
Lemma splitext_raw_csv root : (Path.splitext (root ++ raw_csv)).2 = ".csv".
Proof. by rewrite splitext_below. Qed.

Lemma splitext_interim_csv root : (Path.splitext (root ++ interim_csv)).2 = ".csv".
Proof. by rewrite splitext_below. Qed.

Lemma dirname_interim_csv root :
  Path.dirname (root ++ interim_csv) = root ++ "/data/interim".
Proof. by rewrite dirname_below. Qed.

(** The block up to its [try]. *)
Lemma main_block_head (w : World G FS) start_path :
  let root := Dataloader.str start_path in
  main_block start_path w
  = wrapped
      (dataset_telco <- from_file EnriquecimentoDatasetTelco (root ++ raw_csv) ;;
       aplicar_enriquecimento_padrao dataset_telco ;;
       logging_info "Dataset Final a ser Salvo" ;;
       salvar dataset_telco (root ++ interim_csv))
      (mkWorld (heap w) (gen w) (disk w)
         (out w ++ [Log "Iniciando a busca pelo diretório raiz";
                    Log "Iniciando a busca pelo diretório raiz"]
                ++ map Print banner)).
Proof.
  intros root. unfold main_block.
  erewrite bind_ok by apply diretorio_raiz_run.
  erewrite bind_ok by apply diretorio_raiz_run.
  erewrite bind_ok by apply print_run.
  erewrite bind_ok by apply print_run.
  erewrite bind_ok by apply print_run.
  cbn [heap gen disk out str_of]. fold root.
  by rewrite <- !app_assoc.
Qed.

End MainBlockRuns.

(** X24: the block under [if __name__ == "__main__"] of [enrich.py], run
    in the world the module-level statements left (what the imports do,
    the [logs] directory and the log file of [churn_project.logger] among
    it, comes before the block and is no part of this statement), with
    [start_path] the directory [diretorio_raiz] starts from.  The block
    reads [data/raw/WA_Fn-UseC_-Telco-Customer-Churn.csv] below that very
    directory (no root is searched for) with the CSV reader.  When the
    file reads as a frame with one cell per row in every column and a
    [Churn] column of ["Yes"] and ["No"], the directory [data/interim]
    can be made and the writer returns, the block returns; apart from the
    lines it logs and prints, what it did to the files is, in this order:
    that read, [os.makedirs] of [data/interim], one CSV write of
    [data/interim/telco_churn_enriched.csv]; the frame written has the
    rows of the frame read, its columns and the seven new ones, and 1 and
    0 in [Churn]. *)
Theorem main_block_loads_enriches_saves {G FS} `{!Numpy G} `{!Disk FS}
    (w : World G FS) start_path sheet churn :
  let root := Dataloader.str start_path in
  let enriched := padrao_frame (map bit_of churn) (gen w) sheet in
  let made := os_makedirs (root ++ "/data/interim") (disk w) in
  pd_read LeitorCSVStrategy (root ++ raw_csv) (disk w) = Ok sheet ->
  rectangular sheet ->
  data sheet !! "Churn" = Some churn ->
  Forall is_yes_no churn ->
  made.1 = Ok () ->
  (pd_write SalvadorCSVStrategy enriched (root ++ interim_csv) made.2).1 = Ok () ->
  exists w' evs,
    main_block start_path w = (Ok (), w') /\
    disk w' = (pd_write SalvadorCSVStrategy enriched (root ++ interim_csv) made.2).2 /\
    out w' = (out w ++ evs)%list /\
    file_io evs = [ReadFile LeitorCSVStrategy (root ++ raw_csv);
                   Makedirs (root ++ "/data/interim");
                   WriteFile SalvadorCSVStrategy (root ++ interim_csv) enriched] /\
    nrows enriched = nrows sheet /\
    dom (data enriched) = dom (data sheet) ∪
      {[ "num_logins_last_30d"; "support_tickets_last_90d"; "last_interaction_days_ago";
         "usage_last_6m"; "trend_usage"; "std_usage"; "avg_usage_last_3m" ]} /\
    data enriched !! "Churn" = Some (map bit_of churn).
Proof.
  intros root enriched made Hread Hrect Hchurn Hyn Hmade Hwrite.
  pose proof (rectangular_lookup _ _ _ Hrect Hchurn) as Hlen.
  assert (Forall (fun v => scalar v = true) churn) as Hscalar
    by (eapply Forall_impl; [exact Hyn |]; apply is_yes_no_scalar).
  rewrite main_block_head. fold root. set (w0 := mkWorld _ _ _ _).
  destruct (from_file_reads w0 EnriquecimentoDatasetTelco (root ++ raw_csv)
              LeitorCSVStrategy sheet) as [logs Hload].
  { by rewrite splitext_raw_csv. }
  { done. }
  set (r1 := fresh (dom (heap w0))) in Hload.
  set (r2 := fresh (dom (<[r1 := sheet]> (heap w0)))) in Hload.
  set (w1 := mkWorld _ _ _ _) in Hload.
  set (self := mkPipeline EnriquecimentoDatasetTelco r2) in *.
  assert (heap w1 !! df self = Some sheet) as Hd1 by apply lookup_insert_eq.
  pose proof (aplicar_enriquecimento_padrao_ok w1 self sheet churn Hd1 Hchurn Hlen Hscalar)
    as Happly.
  unfold mapped_churn in Happly. rewrite (take_nd_yes_no _ Hyn) in Happly.
  change (gen w1) with (gen w) in Happly. fold enriched in Happly.
  set (w2 := mkWorld _ _ _ _) in Happly.
  set (w3 := mkWorld (heap w2) (gen w2) (disk w2)
                     (out w2 ++ [Log "Dataset Final a ser Salvo"])%list).
  assert (heap w3 !! df self = Some enriched) as Hd3 by apply lookup_insert_eq.
  assert (dir_ready (root ++ "/data/interim") w3
          = mkWorld (heap w3) (gen w3) made.2
              (out w3 ++ [Makedirs (root ++ "/data/interim");
                          Log ("Diretório '" ++ (root ++ "/data/interim")
                                 ++ "' verificado/criado.")])%list) as Hready.
  { unfold dir_ready. by rewrite eqb_app_empty. }
  pose proof (salvar_saved w3 self (root ++ interim_csv) SalvadorCSVStrategy enriched)
    as Hsave.
  cbn zeta in Hsave.
  rewrite dirname_interim_csv, splitext_interim_csv, Hready in Hsave.
  specialize (Hsave (or_intror Hmade) eq_refl Hd3 Hwrite).
  eexists _, _. split.
  { apply wrapped_ok.
    erewrite bind_ok by exact Hload.
    erewrite bind_ok by exact Happly.
    erewrite bind_ok by apply logging_info_run.
    exact Hsave. }
  cbn [disk out]. split; [done |].
  split.
  { unfold w3, w2, w1, w0. cbn [out]. rewrite <- !app_assoc. reflexivity. }
  split.
  { unfold file_io. rewrite !filter_app.
    change (filter _ padrao_logs) with (@nil event). cbn.
    assert (filter (fun ev => is_file_io ev = true) (map Log logs) = []) as ->
      by (clear; induction logs as [|l logs IH]; [done | exact IH]).
    reflexivity. }
  split; [apply padrao_frame_nrows |].
  split.
  { unfold enriched. rewrite padrao_frame_dom by eauto.
    assert ("Churn" ∈ dom (data sheet)) by (apply elem_of_dom; eauto).
    cbn [written list_to_set]. set_unfold. intros x. split; [| tauto].
    intros [? | [-> | ?]]; tauto. }
  unfold enriched, padrao_frame. cbn zeta.
  rewrite uso_recente_frame_lookup_ne by (by apply (bool_decide_unpack _)).
  rewrite interacao_frame_lookup_ne by (by apply (bool_decide_unpack _)).
  apply set_column_lookup.
Qed.

Lemma main_block_loads_enriches_saves_witness :
  exists w' evs,
    main_block Repo.here Repo.w_raw = (Ok (), w') /\
    disk w' = (pd_write SalvadorCSVStrategy Repo.enriched Repo.output_path
                 (os_makedirs "/repo/data/interim" (disk Repo.w_raw)).2).2 /\
    out w' = (out Repo.w_raw ++ evs)%list /\
    file_io evs = [ReadFile LeitorCSVStrategy Repo.input_path;
                   Makedirs "/repo/data/interim";
                   WriteFile SalvadorCSVStrategy Repo.output_path Repo.enriched] /\
    nrows Repo.enriched = nrows Lab.telco /\
    dom (data Repo.enriched) = dom (data Lab.telco) ∪
      {[ "num_logins_last_30d"; "support_tickets_last_90d"; "last_interaction_days_ago";
         "usage_last_6m"; "trend_usage"; "std_usage"; "avg_usage_last_3m" ]} /\
    data Repo.enriched !! "Churn" = Some (map bit_of Lab.churn).
Proof.
  apply (main_block_loads_enriches_saves Repo.w_raw Repo.here Lab.telco Lab.churn).
  - reflexivity.
  - apply (bool_decide_unpack _). vm_compute. reflexivity.
  - reflexivity.
  - repeat constructor; (by left) || (by right).
  - reflexivity.
  - reflexivity.
Defined.

(** X25: the block under [if __name__ == "__main__"] of [enrich.py], run
    in the world the module-level statements left (what the imports do
    comes before the block and is no part of this statement).  When the
    raw file does not read, the block raises what the reader raised
    wrapped three times in [CustomException] (by the reader's [ler], by
    [from_file], by the block's own [except]); the block has made no
    directory, written no data file and changed no frame, and apart from
    the lines it logs and prints the one thing it did to the files is the
    attempt to read [data/raw/WA_Fn-UseC_-Telco-Customer-Churn.csv] below
    the start path. *)
Theorem main_block_unreadable_input {G FS} `{!Numpy G} `{!Disk FS}
    (w : World G FS) start_path e :
  pd_read LeitorCSVStrategy (Dataloader.str start_path ++ raw_csv) (disk w) = Raise e ->
  exists w' evs,
    main_block start_path w
    = (Raise (CustomException (CustomException (CustomException e))), w') /\
    heap w' = heap w /\ gen w' = gen w /\ disk w' = disk w /\
    out w' = (out w ++ evs)%list /\
    file_io evs = [ReadFile LeitorCSVStrategy (Dataloader.str start_path ++ raw_csv)].
Proof.
  intros Hread. rewrite main_block_head. set (w0 := mkWorld _ _ _ _).
  eexists _, _. split.
  { apply wrapped_raise. eapply bind_raise.
    apply (from_file_read_raises w0 _ _ LeitorCSVStrategy e); [| done].
    by rewrite splitext_raw_csv. }
  cbn [heap gen disk out]. split; [done |]. split; [done |]. split; [done |].
  split; [unfold w0; cbn [out]; rewrite <- !app_assoc; reflexivity |].
  reflexivity.
Qed.

Lemma main_block_unreadable_input_witness :
  exists w' evs,
    main_block Repo.here Repo.w_bare
    = (Raise (CustomException (CustomException (CustomException
                (OSError "No such file or directory")))), w') /\
    heap w' = heap Repo.w_bare /\ gen w' = gen Repo.w_bare /\
    disk w' = disk Repo.w_bare /\
    out w' = (out Repo.w_bare ++ evs)%list /\
    file_io evs = [ReadFile LeitorCSVStrategy Repo.input_path].
Proof.
  apply (main_block_unreadable_input Repo.w_bare Repo.here (OSError "No such file or directory")).
  reflexivity.
Defined.
